(** * python-geometry: [core.py] in Rocq

    A shallow embedding of the module [core.py] (the helper
    [isRoughlyZero] and the classes [Vector3d], [Point3d] and
    [PointSet]) together with the properties its specification states
    about it.

    Layout of the development:
    - exceptions and the error monad the methods run in;
    - the numbers the vectors hold, as an interface ([PyEq], [PyHash],
      [PyReal]) with three instances: Python's [int] as [Z] (the
      coordinates of the [PointSet] scenarios), binary64 [float] as
      Rocq's primitive floats (on which the doctests of the module are
      run) and exact real arithmetic [R] (for the laws the
      specification states for all real numbers);
    - tuples: indexing and slicing;
    - [Vector3d] and [Point3d], their arithmetic;
    - the part of the Python data model the classes rely on: the [==]
      protocol with [NotImplemented], object identity, [hash], and the
      insertion-ordered [dict];
    - [PointSet];
    - the theorems the specification states;
    - further properties of the code: the errors and bounds of indexing,
      the laws of the operators over the real numbers, the behaviour
      of [PointSet] on short inputs, copies and a second assignment,
      and the edge cases of binary64 (NaN, overflow, the module
      constants).

    Methods keep their Python names ([normalized], [__add__],
    [__getitem__], ...).  [__init__] and the [__getitem__] of
    [PointSet], whose names are taken, carry the name of their class
    ([Vector3d_init], [Point3d_init], [PointSet_init],
    [PointSet_getitem]).  A method that can raise returns a [result]. *)

From Stdlib Require Import ZArith List String Bool Lia.
From Stdlib Require Import Floats.
From Stdlib Require Import Reals Lra Psatz.
Import ListNotations.

Set Implicit Arguments.

(* ================================================================== *)
(** * Exceptions and results *)
(* ================================================================== *)

(** The exceptions that the code raises itself ([ZeroDivisionError] in
    [normalized], [NotImplementedError] in [__add__]) or that the
    built-ins it calls raise. *)
Inductive exn : Set :=
| ZeroDivisionError
| NotImplementedError
| TypeError
| IndexError
| KeyError
| ValueError
| OverflowError
| AttributeError.

Inductive result (A : Type) : Type :=
| Ok (a : A)
| Raise (e : exn).
Arguments Ok {A} a.
Arguments Raise {A} e.

Definition bind {A B : Type} (m : result A) (k : A -> result B) : result B :=
  match m with
  | Ok a => k a
  | Raise e => Raise e
  end.

Declare Scope py_scope.
Delimit Scope py_scope with py.
Notation "x <- m ;; k" := (bind m (fun x => k))
  (at level 61, m at next level, right associativity) : py_scope.
Open Scope py_scope.

(* ================================================================== *)
(** * Numbers *)
(* ================================================================== *)

(** [==] between two numbers. *)
Class PyEq (num : Type) := num_eqb : num -> num -> bool.

(** [hash] of a number. *)
Class PyHash (num : Type) := num_hash : num -> Z.

(** The arithmetic [core.py] performs on coordinates.  [of_int] embeds
    the int literals of the source ([0] in [sum], [1] in [1 / length],
    [-1] in [other * -1]).  [+], [-] and [*] never raise on the numbers
    considered here; [n**2], [math.sqrt] and [/] can. *)
Class PyReal (num : Type) := {
  of_int : Z -> num;
  num_add : num -> num -> num;
  num_sub : num -> num -> num;
  num_mul : num -> num -> num;
  num_pow2 : num -> result num;          (* n ** 2 *)
  num_sqrt : num -> result num;          (* math.sqrt(n) *)
  num_div : num -> num -> result num;    (* a / b *)
  num_round7 : num -> num                (* round(n, 7) *)
}.

(** [sum(iterable)]: left fold of [+] starting from the int [0]. *)
Definition py_sum {num : Type} `{!PyReal num} (l : list num) : num :=
  fold_left num_add l (of_int 0).

(** <<
    def isRoughlyZero(number):
        return round(number, 7) == 0
    >> *)
Definition isRoughlyZero {num : Type} `{!PyEq num} `{!PyReal num}
    (number : num) : bool :=
  num_eqb (num_round7 number) (of_int 0).

(* ------------------------------------------------------------------ *)
(** ** Python [int] *)
(* ------------------------------------------------------------------ *)

(** Ints are unbounded, [==] is equality.  CPython hashes an int by
    reducing its absolute value modulo the Mersenne prime [2^61 - 1],
    restoring the sign and mapping [-1] (the error code of the C API)
    to [-2]. *)
Definition int_hash (z : Z) : Z :=
  let h := Z.rem z (2 ^ 61 - 1) in
  if Z.eqb h (-1) then (-2)%Z else h.

#[export] Instance PyEq_int : PyEq Z := Z.eqb.
#[export] Instance PyHash_int : PyHash Z := int_hash.

(* ------------------------------------------------------------------ *)
(** ** Exact real arithmetic *)
(* ------------------------------------------------------------------ *)

(** The specification speaks of triples of real numbers.  This instance
    is arithmetic without rounding: [+], [-], [*] are the field
    operations, [math.sqrt] is the real square root and raises
    [ValueError] below zero, [/] raises [ZeroDivisionError] on a zero
    divisor.  [round(x, 7)] keeps 7 decimals and resolves a tie to the
    even neighbour, as Python 3's [round] does. *)
Definition Reqb (a b : R) : bool := if Req_dec_T a b then true else false.

Definition R_round_half_even (x : R) : Z :=
  let f := Int_part x in
  let r := (x - IZR f)%R in
  if Rlt_dec r (1 / 2) then f
  else if Rlt_dec (1 / 2) r then (f + 1)%Z
  else if Z.even f then f else (f + 1)%Z.

Definition R_round7 (x : R) : R :=
  (IZR (R_round_half_even (x * 10 ^ 7)) / 10 ^ 7)%R.

Definition R_math_sqrt (x : R) : result R :=
  if Rlt_dec x 0 then Raise ValueError else Ok (sqrt x).

Definition R_div (a b : R) : result R :=
  if Req_dec_T b 0 then Raise ZeroDivisionError else Ok (a / b)%R.

#[export] Instance PyEq_R : PyEq R := Reqb.

#[export] Instance PyReal_R : PyReal R := {|
  of_int := IZR;
  num_add := Rplus;
  num_sub := Rminus;
  num_mul := Rmult;
  num_pow2 := fun x => Ok (x * x)%R;
  num_sqrt := R_math_sqrt;
  num_div := R_div;
  num_round7 := R_round7
|}.

(* ------------------------------------------------------------------ *)
(** ** binary64 [float] *)
(* ------------------------------------------------------------------ *)

(** Python's [float] is IEEE 754 binary64, which is what Rocq's
    primitive floats are.  [+], [-], [*] round to nearest-even and never
    raise.  [x ** 2] is taken to be the correctly rounded square and
    raises [OverflowError] when a finite [x] overflows; [math.sqrt]
    raises [ValueError] on a negative argument; [/] raises
    [ZeroDivisionError] on a divisor equal to zero.  An int literal is
    converted to the nearest float. *)
Definition float_of_Z (z : Z) : float :=
  SF2Prim (binary_normalize prec emax z 0 false).

(** The float nearest to [(-1)^neg * n / d]: the quotient is computed
    with at least 64 significant bits and a sticky last bit, then
    rounded once. *)
Definition float_of_ratio (neg : bool) (n : Z) (d : positive) : float :=
  if Z.eqb n 0 then (if neg then neg_zero else zero)
  else
    let k := Z.max 0 (64 + Z.log2 (Zpos d) - Z.log2 n) in
    let n' := (n * 2 ^ k)%Z in
    let q := (n' / Zpos d)%Z in
    let sticky := if Z.eqb (n' mod Zpos d) 0 then 0%Z else 1%Z in
    let m := (2 * q + sticky)%Z in
    SF2Prim (binary_normalize prec emax (if neg then (- m)%Z else m)
                              (- (k + 1)) false).

(** [q / d] rounded to the nearest integer, ties to even
    ([0 <= q], [0 < d]). *)
Definition Z_div_half_even (q : Z) (d : Z) : Z :=
  let f := (q / d)%Z in
  let r := (q mod d)%Z in
  match (2 * r ?= d)%Z with
  | Lt => f
  | Gt => (f + 1)%Z
  | Eq => if Z.even f then f else (f + 1)%Z
  end.

(** [round(x, 7)] on a float: zeros, infinities and NaN are returned
    unchanged; a finite [x = (-1)^s * m * 2^e] is rounded, as an exact
    rational, to 7 decimals (ties to even) and the float nearest to that
    decimal is returned. *)
Definition float_round7 (x : float) : float :=
  match Prim2SF x with
  | S754_finite s m e =>
      if (0 <=? e)%Z then x
      else
        let r := Z_div_half_even (Zpos m * 10 ^ 7) (2 ^ (- e)) in
        float_of_ratio s r (10 ^ 7)%positive
  | _ => x
  end.

Definition float_pow2 (x : float) : result float :=
  let y := (x * x)%float in
  if is_infinity y && negb (is_infinity x) then Raise OverflowError else Ok y.

Definition float_math_sqrt (x : float) : result float :=
  if (x <? 0)%float then Raise ValueError else Ok (PrimFloat.sqrt x).

Definition float_div (a b : float) : result float :=
  if (b =? 0)%float then Raise ZeroDivisionError else Ok (a / b)%float.

#[export] Instance PyEq_float : PyEq float := PrimFloat.eqb.

#[export] Instance PyReal_float : PyReal float := {|
  of_int := float_of_Z;
  num_add := PrimFloat.add;
  num_sub := PrimFloat.sub;
  num_mul := PrimFloat.mul;
  num_pow2 := float_pow2;
  num_sqrt := float_math_sqrt;
  num_div := float_div;
  num_round7 := float_round7
|}.

(* ================================================================== *)
(** * Tuples, keys and slices *)
(* ================================================================== *)

(** A slice object [start:stop:step]; an omitted bound is [None]. *)
Record slice : Set := Slice {
  slice_start : option Z;
  slice_stop : option Z;
  slice_step : option Z
}.

(** [slice.indices(len)], the clamping CPython applies before it reads a
    sequence through a slice.  The result is [(start, stop, step)]. *)
Definition slice_indices (s : slice) (len : Z) : result (Z * Z * Z) :=
  let step := match slice_step s with None => 1%Z | Some k => k end in
  if Z.eqb step 0 then Raise ValueError
  else
    let lower := if (step <? 0)%Z then (-1)%Z else 0%Z in
    let upper := if (step <? 0)%Z then (len - 1)%Z else len in
    let clamp (i : Z) :=
      if (i <? 0)%Z then Z.max (i + len) lower else Z.min i upper in
    let start := match slice_start s with
                 | None => if (step <? 0)%Z then upper else lower
                 | Some i => clamp i
                 end in
    let stop := match slice_stop s with
                | None => if (step <? 0)%Z then lower else upper
                | Some i => clamp i
                end in
    Ok (start, stop, step).

(** The indices [start, start + step, ...] strictly before [stop];
    [fuel] bounds their number by the length of the sequence. *)
Fixpoint slice_range (fuel : nat) (start stop step : Z) : list Z :=
  match fuel with
  | O => []
  | S fuel' =>
      if (if (0 <? step)%Z then (start <? stop)%Z else (stop <? start)%Z)
      then start :: slice_range fuel' (start + step) stop step
      else []
  end.

Section Sequences.
Context {A : Type}.

(** [seq[i]] for an int [i]: a negative index counts from the end, an
    index out of range raises [IndexError]. *)
Definition seq_index (l : list A) (i : Z) : result A :=
  let len := Z.of_nat (List.length l) in
  let j := if (i <? 0)%Z then (i + len)%Z else i in
  if ((j <? 0) || (len <=? j))%Z then Raise IndexError
  else match nth_error l (Z.to_nat j) with
       | Some a => Ok a
       | None => Raise IndexError
       end.

(** [seq[start:stop:step]]. *)
Definition seq_slice (l : list A) (s : slice) : result (list A) :=
  r <- slice_indices s (Z.of_nat (List.length l)) ;;
  let '(start, stop, step) := r in
  Ok (flat_map (fun j => match nth_error l (Z.to_nat j) with
                         | Some a => [a]
                         | None => []
                         end)
               (slice_range (List.length l) start stop step)).
End Sequences.

(* ================================================================== *)
(** * Vector3d and Point3d *)
(* ================================================================== *)

(** [Point3d] subclasses [Vector3d]; [isinstance(_, Vector3d)] holds for
    both.  The class of an instance only shows in [__repr__]. *)
Inductive klass : Set := CVector3d | CPoint3d.

Section Vector.
Context {num : Type}.

(** An instance: its class and the attributes [__init__] sets. *)
Record Vector3d : Type := Instance {
  cls : klass;
  coords : num * num * num;
  x : num;
  y : num;
  z : num
}.

(** <<
    def __init__(self, x=0.0, y=0.0, z=0.0):
        self.coords = (x, y, z)
        self.x = x
        self.y = y
        self.z = z
    >> *)
Definition Vector3d_init (x y z : num) : Vector3d :=
  {| cls := CVector3d; coords := (x, y, z); x := x; y := y; z := z |}.

(** [Point3d.__init__] only calls [Vector3d.__init__]. *)
Definition Point3d_init (x y z : num) : Vector3d :=
  {| cls := CPoint3d; coords := (x, y, z); x := x; y := y; z := z |}.

(** The items of the tuple [self.coords]. *)
Definition items (self : Vector3d) : list num :=
  let '(a, b, c) := coords self in [a; b; c].

(** [__iter__]: [self.coords.__iter__()], a fresh iteration of the
    tuple each time. *)
Definition __iter__ (self : Vector3d) : list num := items self.

(** [asList]: [[c for c in self]]. *)
Definition asList (self : Vector3d) : list num := __iter__ self.

(** [asDict]: [dict(zip(list('xyz'), self.coords))]. *)
Definition asDict (self : Vector3d) : list (string * num) :=
  combine ["x"%string; "y"%string; "z"%string] (items self).

(** Keys given to [__getitem__]. *)
Inductive key : Type :=
| KInt (i : Z)
| KSlice (s : slice)
| KStr (s : string)
| KTuple (t : list num)
| KObj (addr : nat) (obj : Vector3d).

(** What [Vector3d.__getitem__] returns: a coordinate or a tuple. *)
Inductive item : Type :=
| INum (n : num)
| ITuple (t : list num).

(** [tuple.__getitem__]: ints and slices only. *)
Definition tuple_getitem (t : list num) (k : key) : result item :=
  match k with
  | KInt i => n <- seq_index t i ;; Ok (INum n)
  | KSlice s => l <- seq_slice t s ;; Ok (ITuple l)
  | _ => Raise TypeError
  end.

(** [dict.__getitem__] on the dict [asDict] builds. *)
Fixpoint strdict_getitem (d : list (string * num)) (k : string)
    : result num :=
  match d with
  | [] => Raise KeyError
  | (k', v) :: d' => if String.eqb k' k then Ok v else strdict_getitem d' k
  end.

(** [key in ('x','y','z')]: only a string equals a string. *)
Definition is_axis_name (k : key) : bool :=
  match k with
  | KStr s => existsb (String.eqb s) ["x"%string; "y"%string; "z"%string]
  | _ => false
  end.

(** <<
    def __getitem__(self, key):
        if key in ('x','y','z'):
            return self.asDict()[key]
        else:
            return self.coords.__getitem__(key)
    >> *)
Definition __getitem__ (self : Vector3d) (k : key) : result item :=
  if is_axis_name k then
    match k with
    | KStr s => n <- strdict_getitem (asDict self) s ;; Ok (INum n)
    | _ => Raise TypeError
    end
  else tuple_getitem (items self) k.

(** [self[i]] where the source writes a literal index. *)
Definition coord (self : Vector3d) (i : Z) : result num :=
  r <- __getitem__ self (KInt i) ;;
  match r with
  | INum n => Ok n
  | ITuple _ => Raise TypeError
  end.

(** [toX], [toY], [toZ]: a copy with one coordinate replaced. *)
Definition toX (self : Vector3d) (number : num) : result Vector3d :=
  b <- coord self 1 ;; c <- coord self 2 ;; Ok (Vector3d_init number b c).
Definition toY (self : Vector3d) (number : num) : result Vector3d :=
  a <- coord self 0 ;; c <- coord self 2 ;; Ok (Vector3d_init a number c).
Definition toZ (self : Vector3d) (number : num) : result Vector3d :=
  a <- coord self 0 ;; b <- coord self 1 ;; Ok (Vector3d_init a b number).
End Vector.
Arguments Vector3d num : clear implicits.
Arguments key num : clear implicits.
Arguments item num : clear implicits.

(* ================================================================== *)
(** * Vector arithmetic *)
(* ================================================================== *)

Section Arithmetic.
Context {num : Type} `{!PyEq num} `{!PyReal num}.

(** The operands the arithmetic operators may receive: numbers
    ([numbers.Number]), instances of [Vector3d] or [Point3d], and
    values that are neither. *)
Inductive value : Type :=
| VNone
| VNum (n : num)
| VVec (v : Vector3d num)
| VStr (s : string)
| VTuple (t : list num)
| VList (l : list num).

(** [isinstance(other, numbers.Number) or isinstance(other, Vector3d)]. *)
Definition is_number_or_vector (other : value) : bool :=
  match other with
  | VNum _ | VVec _ => true
  | _ => false
  end.

(** [sum(n**2 for n in self)]. *)
Definition sum_squares (self : Vector3d num) : result num :=
  let '(a, b, c) := coords self in
  a2 <- num_pow2 a ;;
  b2 <- num_pow2 b ;;
  c2 <- num_pow2 c ;;
  Ok (py_sum [a2; b2; c2]).

(** <<
    @property
    def length(self):
        return math.sqrt(sum(n**2 for n in self))
    >> *)
Definition length (self : Vector3d num) : result num :=
  s <- sum_squares self ;; num_sqrt s.

(** [dot]: [sum((p[0] * p[1]) for p in zip(self, other))]. *)
Definition dot (self other : Vector3d num) : num :=
  let '(a, b, c) := coords self in
  let '(a', b', c') := coords other in
  py_sum [num_mul a a'; num_mul b b'; num_mul c c'].

(** <<
    def cross(self, other):
        x = (self[1] * other[2]) - (self[2] * other[1])
        y = (self[2] * other[0]) - (self[0] * other[2])
        z = (self[0] * other[1]) - (self[1] * other[0])
        return Vector3d(x, y, z)
    >> *)
Definition cross (self other : Vector3d num) : result (Vector3d num) :=
  s0 <- coord self 0 ;; s1 <- coord self 1 ;; s2 <- coord self 2 ;;
  o0 <- coord other 0 ;; o1 <- coord other 1 ;; o2 <- coord other 2 ;;
  Ok (Vector3d_init (num_sub (num_mul s1 o2) (num_mul s2 o1))
                    (num_sub (num_mul s2 o0) (num_mul s0 o2))
                    (num_sub (num_mul s0 o1) (num_mul s1 o0))).

(** First branch of [__mul__]:
    [Vector3d( *((n * other) for n in self))]. *)
Definition scale (self : Vector3d num) (other : num) : Vector3d num :=
  let '(a, b, c) := coords self in
  Vector3d_init (num_mul a other) (num_mul b other) (num_mul c other).

(** <<
    def __mul__(self, other):
        if isinstance(other, numbers.Number):
            return Vector3d( *((n * other) for n in self))
        elif isinstance(other, Vector3d):
            return self.dot(other)
    >>
    There is no [else]: for any other operand the body ends and the
    method returns [None]. *)
Definition __mul__ (self : Vector3d num) (other : value) : result value :=
  match other with
  | VNum n => Ok (VVec (scale self n))
  | VVec o => Ok (VNum (dot self o))
  | _ => Ok VNone
  end.

(** <<
    def normalized(self):
        if isRoughlyZero(sum(n**2 for n in self)):
            raise ZeroDivisionError
        else:
            return self * (1 / self.length)
    >>
    The operand of [*] is a number, so [__mul__] takes its first
    branch. *)
Definition normalized (self : Vector3d num) : result (Vector3d num) :=
  s <- sum_squares self ;;
  if isRoughlyZero s then Raise ZeroDivisionError
  else
    len <- length self ;;
    inv <- num_div (of_int 1) len ;;
    Ok (scale self inv).

(** [toLength]: [self.normalized() * number]. *)
Definition toLength (self : Vector3d num) (number : value) : result value :=
  n <- normalized self ;; __mul__ n number.

(** Second branch of [__add__]:
    [Vector3d( *(sum(p) for p in zip(self, other)))]. *)
Definition add_vector (self other : Vector3d num) : Vector3d num :=
  let '(a, b, c) := coords self in
  let '(a', b', c') := coords other in
  Vector3d_init (py_sum [a; a']) (py_sum [b; b']) (py_sum [c; c']).

(** <<
    def __add__(self, other):
        if isinstance(other, numbers.Number):
            return self.normalized() * other + self
        elif isinstance(other, Vector3d):
            return Vector3d( *(sum(p) for p in zip(self, other)))
        else:
            raise NotImplementedError
    >>
    In the first branch [self.normalized() * other] is a vector scaled
    by a number and the right operand of the inner [+] is [self], an
    instance of [Vector3d]: the inner [+] is [add_vector]. *)
Definition __add__ (self : Vector3d num) (other : value) : result value :=
  match other with
  | VNum n =>
      u <- normalized self ;;
      Ok (VVec (add_vector (scale u n) self))
  | VVec o => Ok (VVec (add_vector self o))
  | _ => Raise NotImplementedError
  end.

(** [other * -1], as [__sub__] evaluates it: a number is multiplied, a
    vector goes through [__mul__], a string, tuple or list repeated
    [-1] times is empty, and [None] has no [*]. *)
Definition times_minus_one (other : value) : result value :=
  match other with
  | VNum n => Ok (VNum (num_mul n (of_int (-1))))
  | VVec v => __mul__ v (VNum (of_int (-1)))
  | VStr _ => Ok (VStr EmptyString)
  | VTuple _ => Ok (VTuple [])
  | VList _ => Ok (VList [])
  | VNone => Raise TypeError
  end.

(** <<
    def __sub__(self, other):
        return self.__add__(other * -1)
    >> *)
Definition __sub__ (self : Vector3d num) (other : value) : result value :=
  m <- times_minus_one other ;; __add__ self m.

(** [Point3d.distanceTo]: [(other - self).length]. *)
Definition distanceTo (self other : Vector3d num) : result num :=
  d <- __sub__ other (VVec self) ;;
  match d with
  | VVec v => length v
  | _ => Raise AttributeError
  end.

(** [Point3d.vectorTo]: [other - self]. *)
Definition vectorTo (self other : Vector3d num) : result value :=
  __sub__ other (VVec self).
End Arithmetic.
Arguments value num : clear implicits.

(** The module constants. *)
Definition WorldX : Vector3d float := Vector3d_init 1%float 0%float 0%float.
Definition WorldY : Vector3d float := Vector3d_init 0%float 1%float 0%float.
Definition WorldZ : Vector3d float := Vector3d_init 0%float 0%float 1%float.

(* ================================================================== *)
(** * Equality, hashing and identity *)
(* ================================================================== *)

Section Identity.
Context {num : Type} `{!PyEq num} `{!PyHash num}.

(** The values that [==] and the dict of a [PointSet] compare: a
    tuple of numbers, or an instance of [Vector3d] (or [Point3d]).
    An instance is an object with an identity, here the address
    [addr] it lives at; two instances are the same object exactly
    when their addresses are equal. *)
Inductive ckey : Type :=
| CTuple (t : list num)
| CObj (addr : nat) (obj : Vector3d num).

(** [a is b].  Only instances carry an identity here: a tuple is
    compared by value before its identity could matter. *)
Definition py_is (a b : ckey) : bool :=
  match a, b with
  | CObj p _, CObj q _ => Nat.eqb p q
  | _, _ => false
  end.

(** A rich comparison method answers or returns [NotImplemented]. *)
Inductive answer : Set :=
| Answer (b : bool)
| NotImplemented.

(** Item-wise [==] of two tuples. *)
Fixpoint tuple_eqb (t u : list num) : bool :=
  match t, u with
  | [], [] => true
  | a :: t', b :: u' => num_eqb a b && tuple_eqb t' u'
  | _, _ => false
  end.

(** [tuple.__eq__(t, other)]: CPython's [tuplerichcompare] returns
    [NotImplemented] unless both arguments are tuples. *)
Definition tuple_eq (t : list num) (other : ckey) : answer :=
  match other with
  | CTuple u => Answer (tuple_eqb t u)
  | CObj _ _ => NotImplemented
  end.

(** <<
    def __eq__(self, other):
        return self.coords.__eq__(other)
    >> *)
Definition __eq__ (self : Vector3d num) (other : ckey) : answer :=
  tuple_eq (items self) other.

(** The [__eq__] method of a value. *)
Definition eq_method (a other : ckey) : answer :=
  match a with
  | CTuple t => tuple_eq t other
  | CObj _ v => __eq__ v other
  end.

(** The operator [a == b]: [a.__eq__(b)]; if that is
    [NotImplemented], the reflected [b.__eq__(a)]; if that is
    [NotImplemented] too, identity. *)
Definition py_eq (a b : ckey) : bool :=
  match eq_method a b with
  | Answer r => r
  | NotImplemented =>
      match eq_method b a with
      | Answer r => r
      | NotImplemented => py_is a b
      end
  end.

(** [tuple.__hash__] as CPython 3.8 and later compute it: the item
    hashes are mixed in 64-bit unsigned arithmetic (xxHash's
    multiply-rotate-multiply round), the length is added, and the
    result is read as a signed word. *)
Definition u64 (n : Z) : Z := (n mod 2 ^ 64)%Z.
Definition XXPRIME_1 : Z := 11400714785074694791.
Definition XXPRIME_2 : Z := 14029467366897019727.
Definition XXPRIME_5 : Z := 2870177450012600261.
Definition xxrotate (n : Z) : Z :=
  u64 (Z.lor (Z.shiftl n 31) (Z.shiftr n 33)).

Definition tuple_hash (t : list num) : Z :=
  let round (acc : Z) (a : num) : Z :=
    let lane := u64 (num_hash a) in
    u64 (xxrotate (u64 (acc + lane * XXPRIME_2)) * XXPRIME_1) in
  let acc := fold_left round t XXPRIME_5 in
  let acc := u64 (acc + Z.lxor (Z.of_nat (List.length t))
                               (Z.lxor XXPRIME_5 3527539)) in
  if Z.eqb acc (2 ^ 64 - 1) then 1546275796%Z
  else if (acc <? 2 ^ 63)%Z then acc else (acc - 2 ^ 64)%Z.

(** <<
    def __hash__(self):
        return self.coords.__hash__()
    >> *)
Definition __hash__ (self : Vector3d num) : Z :=
  tuple_hash (items self).

(** [hash(k)]. *)
Definition py_hash (k : ckey) : Z :=
  match k with
  | CTuple t => tuple_hash t
  | CObj _ v => __hash__ v
  end.

(** ** The dict of a [PointSet]

    A CPython dict (3.6 and later) keeps its entries in insertion
    order.  A lookup walks the entries whose hash equals the hash of
    the key and stops at the first one whose key is the same object
    as the looked-up key or compares equal to it; entries with equal
    hashes are met in the order they were inserted.  [d[k] = v]
    performs the same search: on a hit the value of that entry is
    replaced (the stored key object stays), on a miss a new entry is
    appended. *)
Definition pydict : Type := list (ckey * nat).

Definition key_match (stored k : ckey) : bool :=
  Z.eqb (py_hash stored) (py_hash k) && (py_is stored k || py_eq stored k).

Fixpoint dict_getitem (d : pydict) (k : ckey) : result nat :=
  match d with
  | [] => Raise KeyError
  | (stored, v) :: d' =>
      if key_match stored k then Ok v else dict_getitem d' k
  end.

Fixpoint dict_setitem (d : pydict) (k : ckey) (v : nat) : pydict :=
  match d with
  | [] => [(k, v)]
  | (stored, v') :: d' =>
      if key_match stored k then (stored, v) :: d'
      else (stored, v') :: dict_setitem d' k v
  end.
End Identity.
Arguments ckey num : clear implicits.
Arguments pydict num : clear implicits.
Arguments tuple_hash {num _} t : simpl never.
Arguments py_hash {num _} k : simpl never.

(* ================================================================== *)
(** * PointSet *)
(* ================================================================== *)

Section PointSets.
Context {num : Type} `{!PyEq num} `{!PyHash num}.

(** [pointList] holds the [Point3d] objects the setter created, each
    with its address; [pointDict] maps those same objects to
    indices. *)
Record PointSet : Type := {
  pointList : list (nat * Vector3d num);
  pointDict : pydict num
}.

(** What the setter accepts as one point: an instance of [Vector3d]
    (or [Point3d]), or a sequence of numbers read through
    [val[0]], [val[1]], [val[2]]. *)
Inductive pointlike : Type :=
| PVec (v : Vector3d num)
| PSeq (l : list num).

(** <<
    if isinstance(val, Vector3d):
        point = Point3d( *val)
    else:
        point = Point3d( *(val[v] for v in range(3)))
    >> *)
Definition to_point (val : pointlike) : result (Vector3d num) :=
  match val with
  | PVec v => let '(a, b, c) := coords v in Ok (Point3d_init a b c)
  | PSeq l =>
      a <- seq_index l 0 ;; b <- seq_index l 1 ;; c <- seq_index l 2 ;;
      Ok (Point3d_init a b c)
  end.

(** The body of the setter's loop
    <<
    for i, val in enumerate(values):
        ...
        self.pointDict[point] = i
        self.pointList.append(point)
    >>
    [next] is the first free address: the new [Point3d] is allocated
    there.  An exception leaves the loop. *)
Fixpoint points_loop (self : PointSet) (next i : nat)
    (values : list pointlike) : result (PointSet * nat) :=
  match values with
  | [] => Ok (self, next)
  | val :: rest =>
      point <- to_point val ;;
      let self' := {|
        pointDict := dict_setitem (pointDict self) (CObj next point) i;
        pointList := pointList self ++ [(next, point)]
      |} in
      points_loop self' (S next) (S i) rest
  end.

(** [self.points = values]: [enumerate] counts from [0]. *)
Definition points_setter (self : PointSet) (next : nat)
    (values : list pointlike) : result (PointSet * nat) :=
  points_loop self next 0 values.

(** <<
    def __init__(self, points=None):
        self.pointList = []
        self.pointDict = {}
        if points:
            self.points = points
    >> *)
Definition PointSet_init (points : option (list pointlike)) (next : nat)
    : result (PointSet * nat) :=
  let self := {| pointList := []; pointDict := [] |} in
  match points with
  | None | Some [] => Ok (self, next)
  | Some values => points_setter self next values
  end.

(** The getter [points]: [[Point3d( *c) for c in self.pointList]],
    fresh objects on every access. *)
Fixpoint points_getter (l : list (nat * Vector3d num)) (next : nat)
    : list (nat * Vector3d num) * nat :=
  match l with
  | [] => ([], next)
  | (_, c) :: l' =>
      let '(a, b, c') := coords c in
      let '(r, next') := points_getter l' (S next) in
      ((next, Point3d_init a b c') :: r, next')
  end.

(** What indexing a [PointSet] returns. *)
Inductive found : Type :=
| FIndex (i : nat)
| FPoint (p : nat * Vector3d num)
| FPoints (l : list (nat * Vector3d num)).

(** <<
    def __getitem__(self, key):
        if isinstance(key, tuple) or isinstance(key, Vector3d):
            return self.pointDict[key]
        else:
            return self.pointList[key]
    >> *)
Definition PointSet_getitem (self : PointSet) (k : key num) : result found :=
  match k with
  | KTuple t => i <- dict_getitem (pointDict self) (CTuple t) ;; Ok (FIndex i)
  | KObj a o => i <- dict_getitem (pointDict self) (CObj a o) ;; Ok (FIndex i)
  | KInt i => p <- seq_index (pointList self) i ;; Ok (FPoint p)
  | KSlice s => l <- seq_slice (pointList self) s ;; Ok (FPoints l)
  | KStr _ => Raise TypeError
  end.
End PointSets.
Arguments PointSet num : clear implicits.
Arguments pointlike num : clear implicits.
Arguments found num : clear implicits.

(* ================================================================== *)
(** * Reference descriptions used in the statements *)
(* ================================================================== *)

Section Reference.
Context {num : Type}.

(** Objects allocated one after the other from address [next]. *)
Fixpoint allocated (next : nat) (pts : list (Vector3d num))
    : list (nat * Vector3d num) :=
  match pts with
  | [] => []
  | p :: pts' => (next, p) :: allocated (S next) pts'
  end.

(** One dict entry per allocated object, numbered from [i]. *)
Fixpoint numbered (next i : nat) (pts : list (Vector3d num))
    : pydict num :=
  match pts with
  | [] => []
  | p :: pts' => (CObj next p, i) :: numbered (S next) (S i) pts'
  end.

(** The point an input denotes, when [to_point] can read it: an
    instance, or the first three items of a sequence. *)
Definition point_of (val : pointlike num) : option (Vector3d num) :=
  match val with
  | PVec v => let '(a, b, c) := coords v in Some (Point3d_init a b c)
  | PSeq (a :: b :: c :: _) => Some (Point3d_init a b c)
  | PSeq _ => None
  end.

Fixpoint points_of (values : list (pointlike num))
    : option (list (Vector3d num)) :=
  match values with
  | [] => Some []
  | val :: rest =>
      match point_of val, points_of rest with
      | Some p, Some ps => Some (p :: ps)
      | _, _ => None
      end
  end.

(** Every key of a dict is an instance allocated below [next]. *)
Definition keys_below (next : nat) (d : pydict num) : Prop :=
  forall k v, In (k, v) d -> exists a o, k = CObj a o /\ (a < next)%nat.
End Reference.

(** The position of the first point whose coordinates are the items of
    the tuple [t]. *)
Fixpoint first_index (t : list Z) (pts : list (Vector3d Z)) : option nat :=
  match pts with
  | [] => None
  | p :: pts' =>
      if list_eq_dec Z.eq_dec (items p) t then Some 0%nat
      else option_map S (first_index t pts')
  end.

(** What the analysis of [ZeroDivisionError] uses of a number system:
    [n**2] and [math.sqrt] never raise that exception, [/] raises it
    exactly on a divisor equal to zero, and a square root equal to zero
    is the root of a number that [isRoughlyZero] accepts. *)
Class ZeroDivisionLaws (num : Type) `{!PyEq num} `{!PyReal num} : Prop := {
  pow2_no_zero_division :
    forall n : num, num_pow2 n <> Raise ZeroDivisionError;
  sqrt_no_zero_division :
    forall n : num, num_sqrt n <> Raise ZeroDivisionError;
  div_by_zero :
    forall a b : num,
      num_eqb b (of_int 0) = true -> num_div a b = Raise ZeroDivisionError;
  div_by_nonzero :
    forall a b : num,
      num_eqb b (of_int 0) = false -> exists q, num_div a b = Ok q;
  sqrt_zero_is_rough :
    forall s l : num,
      num_sqrt s = Ok l -> num_eqb l (of_int 0) = true ->
      isRoughlyZero s = true
}.

Arguments ZeroDivisionLaws num {_ _}.

(** The condition of [normalized]: the sum of the squares exists and
    rounds to zero at 7 decimals. *)
Definition squares_round_to_zero {num : Type} `{!PyEq num} `{!PyReal num}
    (v : Vector3d num) : Prop :=
  exists s, sum_squares v = Ok s /\ isRoughlyZero s = true.

(** The complementary condition: the sum of the squares exists and
    rounds to something other than zero. *)
Definition squares_round_to_nonzero {num : Type} `{!PyEq num} `{!PyReal num}
    (v : Vector3d num) : Prop :=
  exists s, sum_squares v = Ok s /\ isRoughlyZero s = false.

(** The squared Euclidean norm and the Euclidean norm of a triple of
    real numbers. *)
Definition norm2 (v : Vector3d R) : R :=
  let '(a, b, c) := coords v in (a * a + b * b + c * c)%R.

Definition norm (v : Vector3d R) : R := sqrt (norm2 v).

(** The vector with each coordinate multiplied by [k]. *)
Definition scaled (k : R) (v : Vector3d R) : Vector3d R :=
  let '(a, b, c) := coords v in Vector3d_init (k * a)%R (k * b)%R (k * c)%R.

(** [x == y] between two floats, or both are NaN: the two hold the same
    number.  It differs from being the same float only on the zeros
    ([0.0 == -0.0]). *)
Definition same_number (x y : float) : Prop :=
  PrimFloat.eqb x y = true \/ (is_nan x = true /\ is_nan y = true).

(** The same, coordinate by coordinate. *)
Definition same_numbers (v w : Vector3d float) : Prop :=
  let '(a, b, c) := coords v in
  let '(a', b', c') := coords w in
  same_number a a' /\ same_number b b' /\ same_number c c'.

(** On the specification of floats: the same value, or two zeros. *)
Inductive SF_same : spec_float -> spec_float -> Prop :=
| SF_same_refl (s : spec_float) : SF_same s s
| SF_same_zero (b b' : bool) : SF_same (S754_zero b) (S754_zero b').

(* ================================================================== *)
(** * Theorems *)
(* ================================================================== *)

#[local] Set Warnings "-inexact-float".

(* ------------------------------------------------------------------ *)
(** ** The doctests of the module, in binary64 *)
(* ------------------------------------------------------------------ *)

(** The interactive session of the module docstring.  Python prints a
    float with 17 significant digits and a vector's coordinates with
    12; the values below are the floats themselves. *)
Example doctest_module :
  (  let v := Vector3d_init 0 1 2 in
  let v1 := Vector3d_init 0 2 1 in
  let v2 := Vector3d_init 0 5.577708763999663 2.7888543819998315 in
  let v3 := Vector3d_init 0 (-4.2609903369994111) (-2.1304951684997055) in
  let v4 := Vector3d_init 0 (-0) 0 in
  let p1 := Point3d_init 0 (-4.2609903369994111) (-2.1304951684997055) in
  let p2 := Point3d_init 3.45 0.01 (-2004.665) in
  __add__ v (VNum 1)
    = Ok (VVec (Vector3d_init 0 1.4472135954999579 2.8944271909999157)) /\
  length v1 = Ok 2.2360679774997898 /\
  __add__ v1 (VNum 4) = Ok (VVec v2) /\
  length v2 = Ok 6.2360679774997889 /\
  __add__ v1 (VNum (-7)) = Ok (VVec v3) /\
  __add__ v1 (VVec v3)
    = Ok (VVec (Vector3d_init 0 (-2.2609903369994111) (-1.1304951684997055))) /\
  __sub__ v1 (VVec v2)
    = Ok (VVec (Vector3d_init 0 (-3.577708763999663) (-1.7888543819998315))) /\
  __mul__ v1 (VVec v3) = Ok (VNum (-10.652475842498529)) /\
  __getitem__ v3 (KInt 0) = Ok (INum 0) /\
  __getitem__ v1 (KStr "x") = Ok (INum 0) /\
  __getitem__ v1 (KSlice (Slice None (Some 2%Z) None)) = Ok (ITuple [0; 2]) /\
  __getitem__ v3 (KInt (-1)) = Ok (INum (-2.1304951684997055)) /\
  cross v3 v2 = Ok v4 /\
  toLength v4 (VNum 1) = Raise ZeroDivisionError /\
  distanceTo p1 p2 = Ok 2002.5420312440888 /\
  vectorTo p2 p1
    = Ok (VVec (Vector3d_init (-3.4500000000000002) (-4.2709903369994109)
                              2002.5345048315003)) /\
  __sub__ p1 (VVec p2) = vectorTo p2 p1)%float.
Proof. cbv zeta. repeat split; vm_compute; reflexivity. Qed.

(** The doctests of the methods. *)
Example doctest_methods :
  (  length (Vector3d_init 0 2 1) = Ok 2.2360679774997898 /\
  dot (Vector3d_init 0 2 1) (Vector3d_init 5 1.20747670785 60)
    = 62.414953415699998 /\
  cross (Vector3d_init 0 2 1) (Vector3d_init 5 1.20747670785 60)
    = Ok (Vector3d_init 118.79252329214999 5 (-10)) /\
  __add__ (Vector3d_init 0 1.4472135954999579 2.8944271909999157)
          (VVec (Vector3d_init 0 1 2))
    = Ok (VVec (Vector3d_init 0 2.4472135954999579 4.8944271909999157)) /\
  __sub__ (Vector3d_init (-4) 1.2 3.5) (VVec (Vector3d_init 2 1.1 0))
    = Ok (VVec (Vector3d_init (-6) 0.099999999999999867 3.5)) /\
  __mul__ (Vector3d_init (-4) 1.2 3.5) (VNum 1.25)
    = Ok (VVec (Vector3d_init (-5) 1.5 4.375)) /\
  __mul__ (Vector3d_init (-4) 1.2 3.5) (VVec (Vector3d_init 2 1.1 0))
    = Ok (VNum (-6.6799999999999997)) /\
  distanceTo (Point3d_init (-2.2) (-0.5) 0.0034)
             (Point3d_init 3.45 0.01 (-2004.665))
    = Ok 2004.676426897508 /\
  vectorTo (Point3d_init 3.45 0.01 (-2004.665))
           (Point3d_init (-2.2) (-0.5) 0.0034)
    = Ok (VVec (Vector3d_init (-5.6500000000000004) (-0.51000000000000001)
                              2004.6684)))%float.
Proof. repeat split; vm_compute; reflexivity. Qed.

(* ------------------------------------------------------------------ *)
(** ** Indexing a sequence *)
(* ------------------------------------------------------------------ *)

Lemma seq_index_nat {A : Type} (l : list A) (j : nat) (a : A) :
  nth_error l j = Some a -> seq_index l (Z.of_nat j) = Ok a.
Proof.
  intros Hj. unfold seq_index.
  assert (Hlt : (j < List.length l)%nat) by (apply nth_error_Some; congruence).
  destruct (Z.of_nat j <? 0)%Z eqn:Hneg; [apply Z.ltb_lt in Hneg; lia | ].
  assert (Hin : ((Z.of_nat j <? 0) || (Z.of_nat (List.length l) <=? Z.of_nat j))%Z
                = false).
  { apply orb_false_iff. split; [exact Hneg | apply Z.leb_gt; lia]. }
  rewrite Hin, Nat2Z.id, Hj. reflexivity.
Qed.

(* ------------------------------------------------------------------ *)
(** ** Indexing a vector *)
(* ------------------------------------------------------------------ *)

Section GetitemFacts.
Context {num : Type}.
Variables (k : klass) (a b c x0 y0 z0 : num).

(** Any instance whose [coords] is [(a, b, c)], whatever its other
    attributes hold. *)
Let v : Vector3d num :=
  {| cls := k; coords := (a, b, c); x := x0; y := y0; z := z0 |}.

Lemma getitem_int :
  __getitem__ v (KInt 0) = Ok (INum a) /\
  __getitem__ v (KInt 1) = Ok (INum b) /\
  __getitem__ v (KInt 2) = Ok (INum c) /\
  __getitem__ v (KInt (-1)) = Ok (INum c) /\
  __getitem__ v (KInt (-2)) = Ok (INum b) /\
  __getitem__ v (KInt (-3)) = Ok (INum a).
Proof. repeat split; reflexivity. Qed.

Lemma getitem_int_out_of_range (i : Z) :
  (i < -3 \/ 3 <= i)%Z -> __getitem__ v (KInt i) = Raise IndexError.
Proof.
  intros Hi. unfold __getitem__, tuple_getitem, seq_index; simpl.
  destruct (i <? 0)%Z eqn:Hneg.
  - apply Z.ltb_lt in Hneg.
    assert (H : ((i + 3 <? 0) || (3 <=? i + 3))%Z = true).
    { apply orb_true_iff. left. apply Z.ltb_lt. lia. }
    rewrite H. reflexivity.
  - apply Z.ltb_ge in Hneg.
    assert (H : ((i <? 0) || (3 <=? i))%Z = true).
    { apply orb_true_iff. right. apply Z.leb_le. lia. }
    rewrite H. reflexivity.
Qed.

Lemma getitem_slice :
  __getitem__ v (KSlice (Slice (Some 0%Z) (Some 2%Z) None)) = Ok (ITuple [a; b]) /\
  __getitem__ v (KSlice (Slice None (Some 2%Z) None)) = Ok (ITuple [a; b]) /\
  __getitem__ v (KSlice (Slice (Some 1%Z) None None)) = Ok (ITuple [b; c]) /\
  __getitem__ v (KSlice (Slice (Some (-2)%Z) None None)) = Ok (ITuple [b; c]) /\
  __getitem__ v (KSlice (Slice None None None)) = Ok (ITuple [a; b; c]) /\
  __getitem__ v (KSlice (Slice None None (Some (-1)%Z))) = Ok (ITuple [c; b; a]) /\
  __getitem__ v (KSlice (Slice (Some 1%Z) (Some 1%Z) None)) = Ok (ITuple []).
Proof. repeat split; reflexivity. Qed.

Lemma getitem_axis :
  __getitem__ v (KStr "x") = Ok (INum a) /\
  __getitem__ v (KStr "y") = Ok (INum b) /\
  __getitem__ v (KStr "z") = Ok (INum c).
Proof. repeat split; reflexivity. Qed.

(** A name that is no axis falls through to the tuple, which accepts
    ints and slices only. *)
Lemma getitem_other_name : __getitem__ v (KStr "w") = Raise TypeError.
Proof. reflexivity. Qed.
End GetitemFacts.

(** C10: indexing reads the one stored triple in three ways.  For any
    instance whose [coords] is [(a, b, c)]: an int index [0..2] or
    [-3..-1] yields the coordinate at that position, a slice yields the
    sub-tuple, and the names ['x'], ['y'], ['z'] yield the first, second
    and third coordinate.  For [Vector3d(2.0, 1.0, 2.2)]: [v[0]] is
    [2.0], [v[-1]] is [2.2], [v[0:2]] is [(2.0, 1.0)], [v['y']] is
    [1.0]. *)
Theorem getitem_addressing_modes :
  (forall (num : Type) (k : klass) (a b c x0 y0 z0 : num),
     let v := {| cls := k; coords := (a, b, c); x := x0; y := y0; z := z0 |} in
     (__getitem__ v (KInt 0) = Ok (INum a) /\
      __getitem__ v (KInt 1) = Ok (INum b) /\
      __getitem__ v (KInt 2) = Ok (INum c) /\
      __getitem__ v (KInt (-1)) = Ok (INum c) /\
      __getitem__ v (KInt (-2)) = Ok (INum b) /\
      __getitem__ v (KInt (-3)) = Ok (INum a)) /\
     (__getitem__ v (KSlice (Slice (Some 0%Z) (Some 2%Z) None)) = Ok (ITuple [a; b]) /\
      __getitem__ v (KSlice (Slice None (Some 2%Z) None)) = Ok (ITuple [a; b]) /\
      __getitem__ v (KSlice (Slice (Some 1%Z) None None)) = Ok (ITuple [b; c])) /\
     (__getitem__ v (KStr "x") = Ok (INum a) /\
      __getitem__ v (KStr "y") = Ok (INum b) /\
      __getitem__ v (KStr "z") = Ok (INum c))) /\
  (let v := Vector3d_init 2.0%float 1.0%float 2.2%float in
   __getitem__ v (KInt 0) = Ok (INum 2.0%float) /\
   __getitem__ v (KInt (-1)) = Ok (INum 2.2%float) /\
   __getitem__ v (KSlice (Slice (Some 0%Z) (Some 2%Z) None))
     = Ok (ITuple [2.0%float; 1.0%float]) /\
   __getitem__ v (KStr "y") = Ok (INum 1.0%float)).
Proof.
  split.
  - intros num k a b c x0 y0 z0 v. repeat split; reflexivity.
  - repeat split; reflexivity.
Qed.

(* ------------------------------------------------------------------ *)
(** ** Operands that are neither numbers nor vectors *)
(* ------------------------------------------------------------------ *)

(** C7: for an operand that is neither a number nor a vector, [+]
    raises [NotImplementedError] and [-] raises an exception, but [*]
    raises nothing: [__mul__] has no [else] branch and returns
    [None]. *)
Theorem unsupported_operand :
  forall (num : Type) (E : PyEq num) (N : PyReal num)
         (self : Vector3d num) (other : value num),
    is_number_or_vector other = false ->
    __add__ self other = Raise NotImplementedError /\
    __mul__ self other = Ok VNone /\
    (exists e, __sub__ self other = Raise e).
Proof.
  intros num E N self other Hother.
  destruct other; simpl in Hother; try discriminate;
    (split; [reflexivity | split; [reflexivity | ]]);
    unfold __sub__; simpl; eauto.
Qed.

(** [Vector3d(1.0, 2.0, 3.0) * "abc"] is [None]. *)
Lemma unsupported_operand_example :
  is_number_or_vector (VStr "abc" : value float) = false /\
  __mul__ (Vector3d_init 1%float 2%float 3%float) (VStr "abc") = Ok VNone /\
  __add__ (Vector3d_init 1%float 2%float 3%float) (VStr "abc")
    = Raise NotImplementedError.
Proof.
  split; [reflexivity | ].
  pose proof (@unsupported_operand float _ _
                (Vector3d_init 1%float 2%float 3%float) (VStr "abc")
                eq_refl) as [Hadd [Hmul _]].
  split; [exact Hmul | exact Hadd].
Defined.

(* ------------------------------------------------------------------ *)
(** ** Equality and hash *)
(* ------------------------------------------------------------------ *)

Section EqualityFacts.
Context {num : Type} `{!PyEq num} `{!PyHash num}.

(** Between two instances both [__eq__] calls return [NotImplemented]
    and [==] is decided by identity. *)
Lemma py_eq_instances (p q : nat) (v w : Vector3d num) :
  py_eq (CObj p v) (CObj q w) = Nat.eqb p q.
Proof. reflexivity. Qed.

Lemma py_eq_instance_tuple (p : nat) (v : Vector3d num) (t : list num) :
  py_eq (CObj p v) (CTuple t) = tuple_eqb (items v) t /\
  py_eq (CTuple t) (CObj p v) = tuple_eqb (items v) t.
Proof. split; reflexivity. Qed.

Lemma py_hash_instance (p : nat) (v : Vector3d num) :
  py_hash (CObj p v) = py_hash (CTuple (items v)).
Proof. unfold py_hash, __hash__. reflexivity. Qed.

Lemma tuple_eqb_refl (t : list num) :
  (forall n, num_eqb n n = true) -> tuple_eqb t t = true.
Proof.
  intros Hrefl. induction t as [|a t IH]; simpl; [reflexivity | ].
  rewrite Hrefl, IH. reflexivity.
Qed.

Lemma py_is_instances (p q : nat) (v w : Vector3d num) :
  py_is (CObj p v) (CObj q w) = Nat.eqb p q.
Proof. reflexivity. Qed.

Lemma key_match_instances (p q : nat) (v w : Vector3d num) :
  key_match (CObj p v) (CObj q w) = true -> p = q.
Proof.
  unfold key_match. rewrite py_eq_instances, py_is_instances, orb_diag.
  intros H. apply andb_true_iff in H as [_ H].
  apply Nat.eqb_eq. exact H.
Qed.

Lemma key_match_same (p : nat) (v : Vector3d num) :
  key_match (CObj p v) (CObj p v) = true.
Proof.
  unfold key_match.
  rewrite Z.eqb_refl, py_eq_instances, py_is_instances, Nat.eqb_refl.
  reflexivity.
Qed.
End EqualityFacts.

(** On ints, item-wise [==] of two tuples is equality. *)
Lemma tuple_eqb_int (t u : list Z) : tuple_eqb t u = true <-> t = u.
Proof.
  revert u. induction t as [|a t IH]; intros [|b u]; simpl;
    try (split; [discriminate | discriminate]); [split; reflexivity | ].
  unfold num_eqb, PyEq_int. rewrite andb_true_iff, Z.eqb_eq, IH.
  split; [intros [-> ->]; reflexivity | intros [= -> ->]; split; reflexivity].
Qed.

(** C3: [hash(Vector3d(x,y,z))] is [hash((x,y,z))] and a vector
    compared with a tuple is compared item by item, in either order, so
    a vector of ints equals the tuple of its coordinates; but two
    instances are compared by identity: [==] between distinct objects
    is false even when their coordinates are identical. *)
Theorem Vector3d_eq_hash :
  (forall (num : Type) (E : PyEq num) (H : PyHash num)
          (a b c : num) (p q : nat),
     let v := Vector3d_init a b c in
     let w := Vector3d_init a b c in
     py_eq (CObj p v) (CObj q w) = Nat.eqb p q /\
     py_eq (CObj p v) (CTuple [a; b; c]) = tuple_eqb [a; b; c] [a; b; c] /\
     py_eq (CTuple [a; b; c]) (CObj p v) = tuple_eqb [a; b; c] [a; b; c] /\
     py_hash (CObj p v) = py_hash (CTuple [a; b; c])) /\
  (forall (a b c : Z) (p : nat),
     let v := Vector3d_init a b c in
     py_eq (CObj p v) (CTuple [a; b; c]) = true /\
     py_eq (CTuple [a; b; c]) (CObj p v) = true) /\
  (let v := Vector3d_init 1%Z 2%Z 3%Z in
   let w := Vector3d_init 1%Z 2%Z 3%Z in
   py_eq (CObj 0 v) (CObj 1 w) = false /\
   py_eq (CObj 0 v) (CTuple [1%Z; 2%Z; 3%Z]) = true /\
   py_hash (CObj 0 v) = py_hash (CObj 1 w)).
Proof.
  split; [ | split].
  - intros num E H a b c p q v w.
    split; [apply py_eq_instances | ].
    split; [apply (py_eq_instance_tuple p v) | ].
    split; [apply (py_eq_instance_tuple p v) | ].
    apply (py_hash_instance p v).
  - intros a b c p v.
    destruct (py_eq_instance_tuple p v [a; b; c]) as [-> ->].
    split; apply tuple_eqb_int; reflexivity.
  - cbv zeta. split; [reflexivity | ]. split; [reflexivity | ].
    rewrite !py_hash_instance. reflexivity.
Qed.

(* ------------------------------------------------------------------ *)
(** ** Building a PointSet *)
(* ------------------------------------------------------------------ *)

Section PointSetFacts.
Context {num : Type} `{!PyEq num} `{!PyHash num}.

Lemma to_point_readable (val : pointlike num) (p : Vector3d num) :
  point_of val = Some p -> to_point val = Ok p.
Proof.
  destruct val as [v | l]; unfold to_point, point_of.
  - destruct (coords v) as [[a b] c]. congruence.
  - destruct l as [|a [|b [|c l]]]; try discriminate.
    intros [= <-].
    pose proof (seq_index_nat (a :: b :: c :: l) 0 (a := a) eq_refl) as H0.
    pose proof (seq_index_nat (a :: b :: c :: l) 1 (a := b) eq_refl) as H1.
    pose proof (seq_index_nat (a :: b :: c :: l) 2 (a := c) eq_refl) as H2.
    change (Z.of_nat 0) with 0%Z in H0.
    change (Z.of_nat 1) with 1%Z in H1.
    change (Z.of_nat 2) with 2%Z in H2.
    rewrite H0, H1, H2. reflexivity.
Qed.

Lemma points_of_length (values : list (pointlike num)) :
  forall pts, points_of values = Some pts ->
              List.length pts = List.length values.
Proof.
  induction values as [|val rest IH]; simpl; intros pts Hpts.
  - injection Hpts as <-. reflexivity.
  - destruct (point_of val); [ | discriminate].
    destruct (points_of rest) as [ps|]; [ | discriminate].
    injection Hpts as <-. simpl. f_equal. apply IH. reflexivity.
Qed.

(** [d[k] = v] appends when no stored key matches [k]. *)
Lemma dict_setitem_miss (d : pydict num) (k : ckey num) (v : nat) :
  (forall k' v', In (k', v') d -> key_match k' k = false) ->
  dict_setitem d k v = d ++ [(k, v)].
Proof.
  induction d as [|[k' v'] d IH]; simpl; intros Hmiss; [reflexivity | ].
  rewrite (Hmiss k' v') by (left; reflexivity).
  rewrite IH; [reflexivity | ].
  intros k'' v'' Hin. apply (Hmiss k'' v''). right. exact Hin.
Qed.

Lemma dict_getitem_miss (d : pydict num) (k : ckey num) :
  (forall k' v', In (k', v') d -> key_match k' k = false) ->
  dict_getitem d k = Raise KeyError.
Proof.
  induction d as [|[k' v'] d IH]; simpl; intros Hmiss; [reflexivity | ].
  rewrite (Hmiss k' v') by (left; reflexivity).
  apply IH. intros k'' v'' Hin. apply (Hmiss k'' v''). right. exact Hin.
Qed.

(** A newly allocated object matches none of the stored keys. *)
Lemma keys_below_miss (d : pydict num) (next a : nat) (o : Vector3d num) :
  keys_below next d -> (next <= a)%nat ->
  forall k' v', In (k', v') d -> key_match k' (CObj a o) = false.
Proof.
  intros Hbelow Hle k' v' Hin.
  destruct (Hbelow k' v' Hin) as (a' & o' & -> & Hlt).
  destruct (key_match (CObj a' o') (CObj a o)) eqn:Hm; [ | reflexivity].
  apply key_match_instances in Hm. lia.
Qed.

Lemma keys_below_app (d : pydict num) (next : nat) (p : Vector3d num)
    (i : nat) :
  keys_below next d -> keys_below (S next) (d ++ [(CObj next p, i)]).
Proof.
  intros Hbelow k v Hin. apply in_app_or in Hin as [Hin | [Heq | []]].
  - destruct (Hbelow k v Hin) as (a & o & -> & Hlt).
    exists a, o. split; [reflexivity | lia].
  - injection Heq as <- <-. exists next, p. split; [reflexivity | lia].
Qed.

(** The loop appends one list entry and one dict entry per input. *)
Lemma points_loop_spec (values : list (pointlike num)) :
  forall (pts : list (Vector3d num)) (self : PointSet num) (next i : nat),
    points_of values = Some pts ->
    keys_below next (pointDict self) ->
    points_loop self next i values =
      Ok ({| pointList := pointList self ++ allocated next pts;
             pointDict := pointDict self ++ numbered next i pts |},
          (next + List.length pts)%nat).
Proof.
  induction values as [|val rest IH]; simpl; intros pts self next i Hpts Hbelow.
  - injection Hpts as <-. simpl. rewrite !app_nil_r, Nat.add_0_r.
    destruct self; reflexivity.
  - destruct (point_of val) as [p|] eqn:Hp; [ | discriminate].
    destruct (points_of rest) as [ps|] eqn:Hps; [ | discriminate].
    injection Hpts as <-.
    rewrite (to_point_readable val Hp). simpl.
    rewrite dict_setitem_miss
      by (apply keys_below_miss with (next := next); [exact Hbelow | lia]).
    rewrite (IH ps _ (S next) (S i) eq_refl)
      by (simpl; apply keys_below_app; exact Hbelow).
    simpl. rewrite <- !app_assoc. simpl.
    rewrite Nat.add_succ_r. reflexivity.
Qed.

Lemma PointSet_init_spec (values : list (pointlike num))
    (pts : list (Vector3d num)) (next : nat) :
  points_of values = Some pts ->
  PointSet_init (Some values) next =
    Ok ({| pointList := allocated next pts; pointDict := numbered next 0 pts |},
        (next + List.length pts)%nat).
Proof.
  intros Hpts. unfold PointSet_init.
  destruct values as [|val rest].
  - injection Hpts as <-. simpl. rewrite Nat.add_0_r. reflexivity.
  - unfold points_setter.
    rewrite (@points_loop_spec (val :: rest) pts _ next 0 Hpts).
    + reflexivity.
    + intros k v [].
Qed.

Lemma allocated_length (pts : list (Vector3d num)) :
  forall next, List.length (allocated next pts) = List.length pts.
Proof. induction pts as [|p pts IH]; simpl; intros; [ | rewrite IH]; reflexivity. Qed.

Lemma numbered_length (pts : list (Vector3d num)) :
  forall next i, List.length (numbered next i pts) = List.length pts.
Proof. induction pts as [|p pts IH]; simpl; intros; [ | rewrite IH]; reflexivity. Qed.

Lemma allocated_contents (pts : list (Vector3d num)) :
  forall next, map snd (allocated next pts) = pts.
Proof. induction pts as [|p pts IH]; simpl; intros; [ | rewrite IH]; reflexivity. Qed.

Lemma allocated_nth (pts : list (Vector3d num)) :
  forall next j p, nth_error pts j = Some p ->
                   nth_error (allocated next pts) j = Some ((next + j)%nat, p).
Proof.
  induction pts as [|q pts IH]; intros next [|j] p; simpl; try discriminate.
  - intros [= ->]. rewrite Nat.add_0_r. reflexivity.
  - intros Hj. rewrite (IH (S next) j p Hj). do 2 f_equal. lia.
Qed.

Lemma numbered_keys (pts : list (Vector3d num)) :
  forall next i k v,
    In (k, v) (numbered next i pts) ->
    exists a o, k = CObj a o /\ (next <= a < next + List.length pts)%nat.
Proof.
  induction pts as [|p pts IH]; simpl; intros next i k v; [intros [] | ].
  intros [Heq | Hin].
  - injection Heq as <- <-. exists next, p. split; [reflexivity | lia].
  - destruct (IH _ _ _ _ Hin) as (a & o & -> & Ha).
    exists a, o. split; [reflexivity | lia].
Qed.

(** Looking up the [j]-th stored object itself finds its own entry. *)
Lemma numbered_lookup_self (pts : list (Vector3d num)) :
  forall next i j p,
    nth_error pts j = Some p ->
    dict_getitem (numbered next i pts) (CObj (next + j) p) = Ok (i + j)%nat.
Proof.
  induction pts as [|q pts IH]; intros next i [|j] p; simpl; try discriminate.
  - intros [= ->]. rewrite !Nat.add_0_r, key_match_same. reflexivity.
  - intros Hj.
    destruct (key_match (CObj next q) (CObj (next + S j) p)) eqn:Hm.
    + apply key_match_instances in Hm. lia.
    + replace (next + S j)%nat with (S next + j)%nat by lia.
      rewrite (IH (S next) (S i) j p Hj). f_equal. lia.
Qed.

(** Looking up any object the constructor did not allocate fails,
    whatever its coordinates. *)
Lemma numbered_lookup_foreign (pts : list (Vector3d num))
    (next i a : nat) (o : Vector3d num) :
  (a < next \/ next + List.length pts <= a)%nat ->
  dict_getitem (numbered next i pts) (CObj a o) = Raise KeyError.
Proof.
  intros Ha. apply dict_getitem_miss. intros k' v' Hin.
  destruct (numbered_keys _ _ _ _ _ Hin) as (a' & o' & -> & Ha').
  destruct (key_match (CObj a' o') (CObj a o)) eqn:Hm; [ | reflexivity].
  apply key_match_instances in Hm. lia.
Qed.
End PointSetFacts.

Section IntKeys.

(** With int coordinates a stored point matches a tuple exactly when
    its coordinates are the items of the tuple. *)
Lemma key_match_int (a : nat) (p : Vector3d Z) (t : list Z) :
  key_match (CObj a p) (CTuple t) = true <-> items p = t.
Proof.
  unfold key_match. rewrite py_hash_instance.
  destruct (py_eq_instance_tuple a p t) as [-> _].
  change (py_is (CObj a p) (CTuple t)) with false. rewrite orb_false_l.
  rewrite andb_true_iff, tuple_eqb_int. split; [tauto | ].
  intros ->. split; [apply Z.eqb_refl | reflexivity].
Qed.

(** A tuple finds the entry of the first point with its coordinates. *)
Lemma numbered_lookup_tuple (pts : list (Vector3d Z)) (t : list Z) :
  forall next i,
    dict_getitem (numbered next i pts) (CTuple t) =
      match first_index t pts with
      | Some j => Ok (i + j)%nat
      | None => Raise KeyError
      end.
Proof.
  induction pts as [|p pts IH]; intros next i; [reflexivity | ].
  cbn [numbered dict_getitem first_index].
  destruct (list_eq_dec Z.eq_dec (items p) t) as [Heq | Hneq].
  - rewrite (proj2 (key_match_int next p t) Heq). f_equal. lia.
  - destruct (key_match (CObj next p) (CTuple t)) eqn:Hm.
    + apply key_match_int in Hm. contradiction.
    + rewrite IH. destruct (first_index t pts) as [j|]; cbn [option_map];
        [f_equal; lia | reflexivity].
Qed.
End IntKeys.

(** C1: the constructor appends one point to [pointList] and one entry
    to [pointDict] for every input, in order, duplicates included: each
    input becomes a new [Point3d] object, and since two distinct
    objects never compare equal no entry of the dict is overwritten.
    With int coordinates, a tuple then finds the index of the first
    point inserted with those coordinates. *)
Theorem PointSet_init_keeps_every_insertion :
  (forall (num : Type) (E : PyEq num) (H : PyHash num)
          (values : list (pointlike num)) (pts : list (Vector3d num))
          (next : nat),
     points_of values = Some pts ->
     exists ps,
       PointSet_init (Some values) next
         = Ok (ps, (next + List.length values)%nat) /\
       map snd (pointList ps) = pts /\
       List.length (pointList ps) = List.length values /\
       pointDict ps = numbered next 0 pts /\
       List.length (pointDict ps) = List.length values) /\
  (forall (values : list (pointlike Z)) (pts : list (Vector3d Z))
          (next : nat) (t : list Z),
     points_of values = Some pts ->
     exists ps,
       PointSet_init (Some values) next
         = Ok (ps, (next + List.length values)%nat) /\
       PointSet_getitem ps (KTuple t) =
         match first_index t pts with
         | Some j => Ok (FIndex j)
         | None => Raise KeyError
         end).
Proof.
  split.
  - intros num E H values pts next Hpts.
    exists {| pointList := allocated next pts;
              pointDict := numbered next 0 pts |}.
    rewrite (PointSet_init_spec values next Hpts). simpl.
    rewrite allocated_contents, allocated_length, numbered_length.
    rewrite (points_of_length values Hpts).
    repeat split; reflexivity.
  - intros values pts next t Hpts.
    exists {| pointList := allocated next pts;
              pointDict := numbered next 0 pts |}.
    rewrite (PointSet_init_spec values next Hpts).
    rewrite (points_of_length values Hpts).
    split; [reflexivity | ].
    unfold PointSet_getitem; cbn [pointDict].
    rewrite numbered_lookup_tuple.
    destruct (first_index t pts); reflexivity.
Qed.

(** Inserting [[(0,0,0), (1,0,0), (0,0,0)]]: the list has three points,
    the dict has three entries, and the tuple [(0,0,0)] finds the entry
    of the first insertion, index [0]. *)
Lemma PointSet_duplicate_scenario :
  let values := [PSeq [0; 0; 0]; PSeq [1; 0; 0]; PSeq [0; 0; 0]]%Z in
  points_of values
    = Some [Point3d_init 0 0 0; Point3d_init 1 0 0; Point3d_init 0 0 0]%Z /\
  exists ps,
    PointSet_init (Some values) 0 = Ok (ps, 3%nat) /\
    List.length (pointList ps) = 3%nat /\
    List.length (pointDict ps) = 3%nat /\
    PointSet_getitem ps (KTuple [0; 0; 0]%Z) = Ok (FIndex 0) /\
    PointSet_getitem ps (KTuple [1; 0; 0]%Z) = Ok (FIndex 1).
Proof.
  split; [reflexivity | ].
  destruct (proj1 PointSet_init_keeps_every_insertion Z _ _
              [PSeq [0; 0; 0]; PSeq [1; 0; 0]; PSeq [0; 0; 0]]%Z
              [Point3d_init 0 0 0; Point3d_init 1 0 0; Point3d_init 0 0 0]%Z
              0%nat eq_refl)
    as (ps & Hinit & _ & Hlen & Hdict & Hdlen).
  exists ps. split; [exact Hinit | ].
  split; [exact Hlen | ]. split; [exact Hdlen | ].
  unfold PointSet_getitem. rewrite Hdict.
  split; vm_compute; reflexivity.
Defined.

(** C6: indexing a [PointSet] built by the constructor.  An int key in
    range returns the point object inserted at that position and a
    slice is read from [pointList]; a tuple is looked up in
    [pointDict]; an object key that is one of the stored objects
    returns its own index; an object key that is any other instance,
    which the constructor did not allocate, raises [KeyError] whatever
    its coordinates. *)
Theorem PointSet_getitem_by_key_type :
  forall (num : Type) (E : PyEq num) (H : PyHash num)
         (values : list (pointlike num)) (pts : list (Vector3d num))
         (next : nat),
    points_of values = Some pts ->
    exists ps,
      PointSet_init (Some values) next = Ok (ps, (next + List.length values)%nat) /\
      (forall (j : nat) (p : Vector3d num),
         nth_error pts j = Some p ->
         PointSet_getitem ps (KInt (Z.of_nat j)) = Ok (FPoint ((next + j)%nat, p)) /\
         PointSet_getitem ps (KObj (next + j) p) = Ok (FIndex j)) /\
      (forall (a : nat) (o : Vector3d num),
         (a < next \/ next + List.length values <= a)%nat ->
         PointSet_getitem ps (KObj a o) = Raise KeyError) /\
      (forall t : list num,
         PointSet_getitem ps (KTuple t)
           = bind (dict_getitem (numbered next 0 pts) (CTuple t))
                  (fun i => Ok (FIndex i))) /\
      (forall s : slice,
         PointSet_getitem ps (KSlice s)
           = bind (seq_slice (allocated next pts) s)
                  (fun l => Ok (FPoints l))).
Proof.
  intros num E H values pts next Hpts.
  exists {| pointList := allocated next pts; pointDict := numbered next 0 pts |}.
  rewrite (PointSet_init_spec values next Hpts).
  pose proof (points_of_length values Hpts) as Hlen.
  rewrite Hlen. split; [reflexivity | ].
  split; [ | split; [ | split]].
  - intros j p Hj. split.
    + unfold PointSet_getitem; cbn [pointList].
      rewrite (seq_index_nat _ j (allocated_nth pts next j Hj)). reflexivity.
    + unfold PointSet_getitem; cbn [pointDict].
      rewrite (numbered_lookup_self pts next 0 j Hj). reflexivity.
  - intros a o Ha. unfold PointSet_getitem; cbn [pointDict].
    rewrite numbered_lookup_foreign by lia. reflexivity.
  - intros t. reflexivity.
  - intros s. reflexivity.
Qed.

(** In [PointSet([(0,0,0)])] the tuple [(0,0,0)] finds index [0], while
    a [Point3d(0,0,0)] or [Vector3d(0,0,0)] created by the caller
    raises [KeyError]. *)
Lemma PointSet_getitem_equal_point_scenario :
  let values := [PSeq [0; 0; 0]]%Z in
  points_of values = Some [Point3d_init 0 0 0]%Z /\
  exists ps,
    PointSet_init (Some values) 0 = Ok (ps, 1%nat) /\
    PointSet_getitem ps (KTuple [0; 0; 0]%Z) = Ok (FIndex 0) /\
    PointSet_getitem ps (KObj 7 (Point3d_init 0 0 0)%Z) = Raise KeyError /\
    PointSet_getitem ps (KObj 8 (Vector3d_init 0 0 0)%Z) = Raise KeyError.
Proof.
  split; [reflexivity | ].
  destruct (@PointSet_getitem_by_key_type Z _ _
              [PSeq [0; 0; 0]]%Z [Point3d_init 0 0 0]%Z 0%nat eq_refl)
    as (ps & Hinit & _ & Hforeign & Htuple & _).
  exists ps. split; [exact Hinit | ]. split; [ | split].
  - rewrite Htuple. vm_compute. reflexivity.
  - apply Hforeign. right. simpl. lia.
  - apply Hforeign. right. simpl. lia.
Defined.

(* ------------------------------------------------------------------ *)
(** ** When normalization raises ZeroDivisionError *)
(* ------------------------------------------------------------------ *)

Section ZeroDivision.
Context {num : Type} `{!PyEq num} `{!PyReal num} `{!ZeroDivisionLaws num}.

Lemma sum_squares_no_zero_division (v : Vector3d num) :
  sum_squares v <> Raise ZeroDivisionError.
Proof.
  unfold sum_squares. destruct (coords v) as [[a b] c].
  pose proof (pow2_no_zero_division a) as Ha.
  pose proof (pow2_no_zero_division b) as Hb.
  pose proof (pow2_no_zero_division c) as Hc.
  destruct (num_pow2 a) as [a2|ea]; simpl; [ | congruence].
  destruct (num_pow2 b) as [b2|eb]; simpl; [ | congruence].
  destruct (num_pow2 c) as [c2|ec]; simpl; [discriminate | congruence].
Qed.

Lemma normalized_raises_iff (v : Vector3d num) :
  normalized v = Raise ZeroDivisionError <-> squares_round_to_zero v.
Proof.
  unfold normalized, squares_round_to_zero, length.
  pose proof (sum_squares_no_zero_division v) as Hsum.
  destruct (sum_squares v) as [s|e]; simpl.
  - destruct (isRoughlyZero s) eqn:Hrough.
    + split; [intros _; exists s; split; reflexivity || assumption | reflexivity].
    + pose proof (sqrt_no_zero_division s) as Hsqrt.
      pose proof (sqrt_zero_is_rough s) as Hzero.
      destruct (num_sqrt s) as [l|e]; simpl.
      * destruct (num_eqb l (of_int 0)) eqn:Hl.
        -- rewrite (Hzero l eq_refl Hl) in Hrough. discriminate.
        -- destruct (div_by_nonzero (of_int 1) l Hl) as [q ->]. simpl.
           split; [discriminate | ].
           intros (s' & [= <-] & Hs'). congruence.
      * split; [congruence | ].
        intros (s' & [= <-] & Hs'). congruence.
  - split; [congruence | intros (s & Hs & _); discriminate].
Qed.

Lemma toLength_raises_iff (v : Vector3d num) (n : num) :
  toLength v (VNum n) = Raise ZeroDivisionError <->
  normalized v = Raise ZeroDivisionError.
Proof.
  unfold toLength. destruct (normalized v) as [u|e]; simpl.
  - split; discriminate.
  - split; intros [= ->]; reflexivity.
Qed.

Lemma add_number_raises_iff (v : Vector3d num) (n : num) :
  __add__ v (VNum n) = Raise ZeroDivisionError <->
  normalized v = Raise ZeroDivisionError.
Proof.
  unfold __add__. destruct (normalized v) as [u|e]; simpl.
  - split; discriminate.
  - split; intros [= ->]; reflexivity.
Qed.

Lemma sub_number_raises_iff (v : Vector3d num) (n : num) :
  __sub__ v (VNum n) = Raise ZeroDivisionError <->
  normalized v = Raise ZeroDivisionError.
Proof. unfold __sub__. simpl. apply add_number_raises_iff. Qed.
End ZeroDivision.

(** C2: in a number system with the laws above, [normalized] raises
    [ZeroDivisionError] exactly when the sum of the squares of the
    coordinates rounds to zero at 7 decimals, and so do [toLength],
    [+] and [-] with a number; when the sum rounds to something else,
    none of them raises it. *)
Theorem zero_division_iff_squares_round_to_zero :
  forall (num : Type) (E : PyEq num) (N : PyReal num)
         (L : ZeroDivisionLaws num) (v : Vector3d num) (n : num),
    (normalized v = Raise ZeroDivisionError <-> squares_round_to_zero v) /\
    (toLength v (VNum n) = Raise ZeroDivisionError <-> squares_round_to_zero v) /\
    (__add__ v (VNum n) = Raise ZeroDivisionError <-> squares_round_to_zero v) /\
    (__sub__ v (VNum n) = Raise ZeroDivisionError <-> squares_round_to_zero v) /\
    (forall s, sum_squares v = Ok s -> isRoughlyZero s = false ->
               normalized v <> Raise ZeroDivisionError /\
               toLength v (VNum n) <> Raise ZeroDivisionError /\
               __add__ v (VNum n) <> Raise ZeroDivisionError /\
               __sub__ v (VNum n) <> Raise ZeroDivisionError).
Proof.
  intros num E N L v n.
  pose proof (normalized_raises_iff v) as Hn.
  pose proof (toLength_raises_iff v n) as Ht.
  pose proof (add_number_raises_iff v n) as Ha.
  pose proof (sub_number_raises_iff v n) as Hs.
  assert (Hnot : forall s, sum_squares v = Ok s -> isRoughlyZero s = false ->
                           ~ squares_round_to_zero v).
  { intros s Hsum Hrough (s' & Hsum' & Hrough'). congruence. }
  repeat split; try tauto;
    intros Hraise; apply (Hnot s); tauto.
Qed.

(* ------------------------------------------------------------------ *)
(** ** Exact real arithmetic: rounding and the laws *)
(* ------------------------------------------------------------------ *)

Section RealNumbers.
Local Open Scope R_scope.

Lemma Reqb_true (a b : R) : Reqb a b = true <-> a = b.
Proof.
  unfold Reqb. destruct (Req_dec_T a b); split; intros; congruence.
Qed.

Lemma Reqb_false (a b : R) : Reqb a b = false <-> a <> b.
Proof.
  unfold Reqb. destruct (Req_dec_T a b); split; intros; congruence.
Qed.

(** Rounding to the nearest integer, ties to even, gives [0] exactly on
    the closed interval from [-1/2] to [1/2]. *)
Lemma R_round_half_even_zero (y : R) :
  R_round_half_even y = 0%Z <-> - (1 / 2) <= y <= 1 / 2.
Proof.
  unfold R_round_half_even.
  destruct (base_Int_part y) as [Hlo Hhi].
  remember (Int_part y) as f eqn:Hfdef. clear Hfdef.
  assert (Hcases : (f <= -2 \/ f = -1 \/ f = 0 \/ 1 <= f)%Z) by lia.
  assert (Hsmall : (f <= -2)%Z -> IZR f <= -2) by (intros; apply IZR_le; assumption).
  assert (Hbig : (1 <= f)%Z -> 1 <= IZR f) by (intros; apply IZR_le; assumption).
  destruct (Rlt_dec (y - IZR f) (1 / 2)) as [Hlt | Hge];
    [ | destruct (Rlt_dec (1 / 2) (y - IZR f)) as [Hgt | Hle]].
  - split.
    + intros ->. lra.
    + intros Hy. destruct Hcases as [Hc | [-> | [-> | Hc]]];
        [specialize (Hsmall Hc); lra | lra | reflexivity | specialize (Hbig Hc); lra].
  - split.
    + intros Hf. assert (f = (-1)%Z) as -> by lia. lra.
    + intros Hy. destruct Hcases as [Hc | [-> | [-> | Hc]]];
        [specialize (Hsmall Hc); lra | reflexivity | lra | specialize (Hbig Hc); lra].
  - assert (Heq : y - IZR f = 1 / 2) by lra.
    destruct (Z.even f) eqn:Heven; split.
    + intros ->. lra.
    + intros Hy. destruct Hcases as [Hc | [-> | [-> | Hc]]];
        [specialize (Hsmall Hc); lra | discriminate | reflexivity
        | specialize (Hbig Hc); lra].
    + intros Hf. assert (f = (-1)%Z) as -> by lia. lra.
    + intros Hy. destruct Hcases as [Hc | [-> | [-> | Hc]]];
        [specialize (Hsmall Hc); lra | reflexivity | discriminate
        | specialize (Hbig Hc); lra].
Qed.

Lemma tiny_pos : 0 < 5 / 10 ^ 8.
Proof. apply Rdiv_lt_0_compat; [lra | apply pow_lt; lra]. Qed.

(** On real numbers [isRoughlyZero] accepts exactly the numbers of
    absolute value at most [0.00000005]. *)
Lemma isRoughlyZero_R (s : R) :
  isRoughlyZero s = true <-> - (5 / 10 ^ 8) <= s <= 5 / 10 ^ 8.
Proof.
  unfold isRoughlyZero, num_eqb, PyEq_R. cbn [num_round7 of_int PyReal_R].
  rewrite Reqb_true. unfold R_round7.
  split.
  - intros Hzero.
    assert (Hk : IZR (R_round_half_even (s * 10 ^ 7)) = 0).
    { apply (Rmult_eq_reg_r (/ 10 ^ 7)).
      - unfold Rdiv in Hzero. rewrite Hzero. ring.
      - apply Rinv_neq_0_compat. lra. }
    apply eq_IZR in Hk. apply R_round_half_even_zero in Hk. lra.
  - intros Hs.
    assert (Hk : R_round_half_even (s * 10 ^ 7) = 0%Z)
      by (apply R_round_half_even_zero; lra).
    rewrite Hk. unfold Rdiv. ring.
Qed.

Lemma isRoughlyZero_R_false (s : R) :
  isRoughlyZero s = false <-> s < - (5 / 10 ^ 8) \/ 5 / 10 ^ 8 < s.
Proof.
  pose proof (isRoughlyZero_R s) as [Hto Hfrom].
  destruct (isRoughlyZero s); split; intros H; try discriminate; try reflexivity.
  - specialize (Hto eq_refl). lra.
  - destruct (Rle_dec (- (5 / 10 ^ 8)) s) as [Hlo | Hlo]; [ | lra].
    destruct (Rle_dec s (5 / 10 ^ 8)) as [Hhi | Hhi]; [ | lra].
    assert (false = true) by (apply Hfrom; lra). discriminate.
Qed.

Lemma R_math_sqrt_Ok (s : R) : 0 <= s -> R_math_sqrt s = Ok (sqrt s).
Proof. intros Hs. unfold R_math_sqrt. destruct (Rlt_dec s 0); [lra | reflexivity]. Qed.

Lemma R_div_Ok (a b : R) : b <> 0 -> R_div a b = Ok (a / b).
Proof. intros Hb. unfold R_div. destruct (Req_dec_T b 0); [contradiction | reflexivity]. Qed.

#[export] Instance ZeroDivisionLaws_R : ZeroDivisionLaws R.
Proof.
  constructor.
  - intros n. discriminate.
  - intros n. cbn [num_sqrt PyReal_R]. unfold R_math_sqrt.
    destruct (Rlt_dec n 0); discriminate.
  - intros a b Hb. apply Reqb_true in Hb. cbn [num_div of_int PyReal_R] in *.
    unfold R_div. destruct (Req_dec_T b 0); [reflexivity | contradiction].
  - intros a b Hb. apply Reqb_false in Hb. cbn [num_div of_int PyReal_R] in *.
    exists (a / b). apply R_div_Ok. exact Hb.
  - intros s l Hsqrt Hl. apply Reqb_true in Hl.
    cbn [num_sqrt of_int PyReal_R] in *. unfold R_math_sqrt in Hsqrt.
    destruct (Rlt_dec s 0) as [Hneg | Hpos]; [discriminate | ].
    injection Hsqrt as <-.
    apply sqrt_eq_0 in Hl; [ | lra].
    apply isRoughlyZero_R. rewrite Hl.
    pose proof tiny_pos. lra.
Qed.
End RealNumbers.

(* ------------------------------------------------------------------ *)
(** ** binary64: the laws *)
(* ------------------------------------------------------------------ *)

Section FloatNumbers.
Local Open Scope Z_scope.

(** The float specification is written with the kernel's copies of the
    integer operations; [lia] wants the library's. *)
Ltac float_consts :=
  unfold fexp, SpecFloat.emin, prec, emax in *;
  change IntDef.Z.add with Z.add in *;
  change IntDef.Z.sub with Z.sub in *;
  change IntDef.Z.max with Z.max in *;
  change IntDef.Z.min with Z.min in *.

(** A right shift by one bit halves the mantissa. *)
Lemma shr_1_m (mrs : shr_record) :
  0 <= shr_m mrs -> shr_m (shr_1 mrs) = shr_m mrs / 2.
Proof.
  destruct mrs as [m r s]. cbn [shr_m]. intros Hm.
  rewrite <- Z.div2_div.
  destruct m as [|[p|p|]|p]; try reflexivity; lia.
Qed.

Lemma pow2_xO (p : positive) : 2 ^ Zpos p~0 = 2 ^ Zpos p * 2 ^ Zpos p.
Proof. rewrite <- Z.pow_add_r by lia. f_equal. lia. Qed.

Lemma pow2_xI (p : positive) : 2 ^ Zpos p~1 = 2 * (2 ^ Zpos p * 2 ^ Zpos p).
Proof.
  rewrite <- Z.pow_add_r by lia.
  rewrite <- (Z.pow_1_r 2) at 2. rewrite <- Z.pow_add_r by lia.
  f_equal. lia.
Qed.

Lemma iter_shr_1_m (p : positive) :
  forall mrs : shr_record,
    0 <= shr_m mrs ->
    shr_m (SpecFloat.iter_pos shr_1 p mrs) = shr_m mrs / 2 ^ Zpos p.
Proof.
  induction p as [p IH | p IH | ]; intros mrs Hm; cbn [SpecFloat.iter_pos].
  - assert (H1 : 0 <= shr_m (shr_1 mrs))
      by (rewrite shr_1_m by exact Hm; apply Z.div_pos; lia).
    assert (H2 : 0 <= shr_m (SpecFloat.iter_pos shr_1 p (shr_1 mrs)))
      by (rewrite IH by exact H1; apply Z.div_pos; [exact H1 | lia]).
    rewrite (IH _ H2), (IH _ H1), shr_1_m by exact Hm.
    rewrite pow2_xI, <- !Z.div_div by lia. reflexivity.
  - assert (H1 : 0 <= shr_m (SpecFloat.iter_pos shr_1 p mrs))
      by (rewrite IH by exact Hm; apply Z.div_pos; [exact Hm | lia]).
    rewrite (IH _ H1), (IH _ Hm).
    rewrite pow2_xO, <- Z.div_div by lia. reflexivity.
  - rewrite shr_1_m by exact Hm. reflexivity.
Qed.

(** A number of [d] binary digits is at least [2^(d-1)]. *)
Lemma digits2_pos_lower (p : positive) :
  2 ^ (Zpos (digits2_pos p) - 1) <= Zpos p.
Proof.
  induction p as [p IH | p IH | ]; cbn [digits2_pos].
  - rewrite Pos2Z.inj_succ.
    replace (Z.succ (Zpos (digits2_pos p)) - 1)
      with (1 + (Zpos (digits2_pos p) - 1)) by lia.
    rewrite Z.pow_add_r by lia. lia.
  - rewrite Pos2Z.inj_succ.
    replace (Z.succ (Zpos (digits2_pos p)) - 1)
      with (1 + (Zpos (digits2_pos p) - 1)) by lia.
    rewrite Z.pow_add_r by lia. lia.
  - reflexivity.
Qed.

Lemma shr_record_of_loc_m (m : Z) (l : location) :
  shr_m (shr_record_of_loc m l) = m.
Proof. destruct l as [|[| |]]; reflexivity. Qed.

(** Shifting a positive mantissa to its canonical exponent keeps it
    positive, as long as the exponent is not below [emin]. *)
Lemma shr_fexp_positive (m e : Z) (l : location) :
  0 < m -> emin <= e ->
  0 < shr_m (fst (shr_fexp prec emax m e l)) /\
  emin <= snd (shr_fexp prec emax m e l).
Proof.
  intros Hm He. unfold shr_fexp, shr.
  destruct m as [|p|p]; try lia. cbn [Zdigits2].
  pose proof (digits2_pos_lower p) as Hdig.
  set (d := Zpos (digits2_pos p)) in *.
  assert (Hd : 1 <= d) by (unfold d; lia).
  assert (Hn : fexp prec emax (d + e) - e <= d - 1).
  { float_consts. lia. }
  destruct (fexp prec emax (d + e) - e) as [|n|n] eqn:Hshift; cbn [fst snd].
  - rewrite shr_record_of_loc_m. lia.
  - rewrite iter_shr_1_m by (rewrite shr_record_of_loc_m; lia).
    rewrite shr_record_of_loc_m. split; [ | lia].
    apply Z.div_str_pos. split; [apply Z.pow_pos_nonneg; lia | ].
    apply Z.le_trans with (2 ^ (d - 1)); [ | exact Hdig].
    apply Z.pow_le_mono_r; lia.
  - rewrite shr_record_of_loc_m. lia.
Qed.

Lemma round_nearest_even_ge (m : Z) (l : location) :
  m <= round_nearest_even m l.
Proof.
  unfold round_nearest_even.
  destruct l as [|[| |]]; try destruct (Z.even m); lia.
Qed.

(** Rounding a positive mantissa never produces a zero. *)
Lemma binary_round_aux_nonzero (sx : bool) (mx ex : Z) (lx : location) :
  0 < mx -> emin <= ex ->
  forall b, binary_round_aux prec emax sx mx ex lx <> S754_zero b.
Proof.
  intros Hm He b. unfold binary_round_aux.
  pose proof (@shr_fexp_positive mx ex lx Hm He) as [Hm1 He1].
  destruct (shr_fexp prec emax mx ex lx) as [mrs' e'].
  cbn [fst snd] in *.
  pose proof (round_nearest_even_ge (shr_m mrs') (loc_of_shr_record mrs'))
    as Hround.
  assert (Hm2 : 0 < round_nearest_even (shr_m mrs') (loc_of_shr_record mrs'))
    by lia.
  pose proof (@shr_fexp_positive _ e' loc_Exact Hm2 He1) as [Hm3 _].
  destruct (shr_fexp prec emax _ e' loc_Exact) as [mrs'' e''].
  cbn [fst snd] in *.
  destruct (shr_m mrs'') as [|p|p]; try lia.
  destruct (e'' <=? emax - prec); discriminate.
Qed.

(** The square root of a positive finite float is not a zero. *)
Lemma SFsqrt_finite_nonzero (m : positive) (e : Z) :
  SpecFloat.valid_binary prec emax (S754_finite false m e) = true ->
  forall b, SFsqrt prec emax (S754_finite false m e) <> S754_zero b.
Proof.
  intros Hvalid b. cbn [SFsqrt].
  destruct (SFsqrt_core_binary prec emax (Zpos m) e) as [[mz ez] lz] eqn:Hcore.
  assert (He : emin <= e).
  { cbn [SpecFloat.valid_binary] in Hvalid. unfold SpecFloat.bounded in Hvalid.
    apply andb_true_iff in Hvalid as [Hcanon _].
    unfold canonical_mantissa in Hcanon. apply Z.eqb_eq in Hcanon.
    float_consts. lia. }
  unfold SFsqrt_core_binary in Hcore.
  set (e' := Z.min (fexp prec emax (Z.div2 (Zdigits2 (Zpos m) + e + 1)))
                   (Z.div2 e)) in *.
  assert (He'lo : emin <= e').
  { unfold e'. float_consts. rewrite !Z.div2_div.
    apply Z.min_glb; [apply Z.le_max_r | ].
    apply Z.div_le_lower_bound; lia. }
  assert (He'hi : 2 * e' <= e).
  { pose proof (Z.le_min_r (fexp prec emax (Z.div2 (Zdigits2 (Zpos m) + e + 1)))
                           (Z.div2 e)) as Hmin.
    fold e' in Hmin. rewrite Z.div2_div in Hmin.
    pose proof (Z.mul_div_le e 2 ltac:(lia)). lia. }
  set (m' := match e - 2 * e' with
             | Zpos _ => Z.shiftl (Zpos m) (e - 2 * e')
             | Z0 => Zpos m
             | Zneg _ => 0
             end) in *.
  assert (Hm' : 0 < m').
  { unfold m'. destruct (e - 2 * e') as [|s|s] eqn:Hs; try lia.
    rewrite Z.shiftl_mul_pow2 by lia.
    apply Z.mul_pos_pos; [lia | apply Z.pow_pos_nonneg; lia]. }
  pose proof (Z.sqrtrem_sqrt m') as Hsqrt.
  destruct (Z.sqrtrem m') as [q r]. cbn [fst] in Hsqrt.
  injection Hcore as <- <- <-.
  apply binary_round_aux_nonzero; [ | exact He'lo].
  rewrite Hsqrt. apply Z.sqrt_pos. exact Hm'.
Qed.

(** Only the square root of a zero compares equal to zero. *)
Lemma float_sqrt_eqb_zero (s : float) :
  PrimFloat.eqb (PrimFloat.sqrt s) 0 = true ->
  exists b, Prim2SF s = S754_zero b.
Proof.
  rewrite FloatAxioms.eqb_spec, sqrt_spec. unfold SF64sqrt.
  pose proof (Prim2SF_valid s) as Hvalid.
  destruct (Prim2SF s) as [b | [|] | | [|] m e] eqn:Hs;
    try (cbn; discriminate).
  - intros _. exists b. reflexivity.
  - pose proof (@SFsqrt_finite_nonzero m e Hvalid) as Hnz.
    destruct (SFsqrt prec emax (S754_finite false m e)) as [b | [|] | | [|] m' e'];
      try (cbn; discriminate).
    exfalso. apply (Hnz b). reflexivity.
Qed.

Lemma float_isRoughlyZero_zero (s : float) (b : bool) :
  Prim2SF s = S754_zero b -> isRoughlyZero s = true.
Proof.
  intros Hs. unfold isRoughlyZero, num_eqb, PyEq_float.
  cbn [num_round7 of_int PyReal_float]. unfold float_round7.
  rewrite Hs, FloatAxioms.eqb_spec, Hs.
  destruct b; reflexivity.
Qed.

#[export] Instance ZeroDivisionLaws_float : ZeroDivisionLaws float.
Proof.
  constructor.
  - intros n. cbn [num_pow2 PyReal_float]. unfold float_pow2.
    destruct (is_infinity (n * n) && negb (is_infinity n)); discriminate.
  - intros n. cbn [num_sqrt PyReal_float]. unfold float_math_sqrt.
    destruct (n <? 0)%float; discriminate.
  - intros a b Hb. cbn [num_div PyReal_float]. unfold float_div.
    unfold num_eqb, PyEq_float in Hb. cbn [of_int PyReal_float] in Hb.
    change (float_of_Z 0) with 0%float in Hb. rewrite Hb. reflexivity.
  - intros a b Hb. cbn [num_div PyReal_float]. unfold float_div.
    unfold num_eqb, PyEq_float in Hb. cbn [of_int PyReal_float] in Hb.
    change (float_of_Z 0) with 0%float in Hb. rewrite Hb. eauto.
  - intros s l Hsqrt Hl. cbn [num_sqrt PyReal_float] in Hsqrt.
    unfold float_math_sqrt in Hsqrt.
    destruct (s <? 0)%float; [discriminate | ]. injection Hsqrt as <-.
    unfold num_eqb, PyEq_float in Hl. cbn [of_int PyReal_float] in Hl.
    change (float_of_Z 0) with 0%float in Hl.
    destruct (@float_sqrt_eqb_zero s Hl) as [b Hb].
    apply (@float_isRoughlyZero_zero s b Hb).
Qed.
(** Multiplication of binary64 floats is commutative, bit for bit. *)
Lemma float_mul_comm (a b : float) : (a * b = b * a)%float.
Proof.
  apply Prim2SF_inj. rewrite !mul_spec. unfold SF64mul, SFmul.
  destruct (Prim2SF a) as [sa | sa | | sa ma ea],
           (Prim2SF b) as [sb | sb | | sb mb eb];
    try reflexivity; rewrite (xorb_comm sa sb); try reflexivity.
  rewrite (Pos.mul_comm ma mb), (Z.add_comm ea eb). reflexivity.
Qed.

Lemma dot_comm_float (u v : Vector3d float) : dot u v = dot v u.
Proof.
  unfold dot. destruct (coords u) as [[a b] c], (coords v) as [[a' b'] c'].
  cbn [num_mul PyReal_float].
  rewrite (float_mul_comm a a'), (float_mul_comm b b'), (float_mul_comm c c').
  reflexivity.
Qed.
End FloatNumbers.

(* ------------------------------------------------------------------ *)
(** ** Vectors of real numbers *)
(* ------------------------------------------------------------------ *)

Section RealVectors.
Local Open Scope R_scope.

Implicit Types (u v w : Vector3d R) (s : R).

Lemma norm2_nonneg v : 0 <= norm2 v.
Proof. unfold norm2. destruct (coords v) as [[a b] c]. nra. Qed.

Lemma norm_nonneg v : 0 <= norm v.
Proof. apply sqrt_pos. Qed.

Lemma norm_square v : norm v * norm v = norm2 v.
Proof. apply sqrt_sqrt, norm2_nonneg. Qed.

Lemma sum_squares_R v : sum_squares v = Ok (norm2 v).
Proof.
  unfold sum_squares, norm2. destruct (coords v) as [[a b] c].
  cbn. f_equal. ring.
Qed.

Lemma length_R v : length v = Ok (norm v).
Proof.
  unfold length. rewrite sum_squares_R. cbn.
  apply R_math_sqrt_Ok, norm2_nonneg.
Qed.

Lemma squares_round_to_nonzero_R v :
  squares_round_to_nonzero v <-> 5 / 10 ^ 8 < norm2 v.
Proof.
  unfold squares_round_to_nonzero. rewrite sum_squares_R.
  pose proof (norm2_nonneg v) as Hpos.
  pose proof tiny_pos as Htiny.
  split.
  - intros (q & [= <-] & Hq). apply isRoughlyZero_R_false in Hq. lra.
  - intros Hlt. exists (norm2 v). split; [reflexivity | ].
    apply isRoughlyZero_R_false. right. exact Hlt.
Qed.

Lemma squares_round_to_zero_R v :
  squares_round_to_zero v <-> norm2 v <= 5 / 10 ^ 8.
Proof.
  unfold squares_round_to_zero. rewrite sum_squares_R.
  pose proof (norm2_nonneg v) as Hpos.
  pose proof tiny_pos as Htiny.
  split.
  - intros (q & [= <-] & Hq). apply isRoughlyZero_R in Hq. lra.
  - intros Hle. exists (norm2 v). split; [reflexivity | ].
    apply isRoughlyZero_R. lra.
Qed.

Lemma norm_pos v : squares_round_to_nonzero v -> 0 < norm v.
Proof.
  intros Hv. apply squares_round_to_nonzero_R in Hv.
  pose proof tiny_pos as Htiny.
  apply sqrt_lt_R0. lra.
Qed.

(** [normalized] divides every coordinate by the norm. *)
Lemma normalized_R v :
  squares_round_to_nonzero v ->
  normalized v = Ok (scale v (1 / norm v)).
Proof.
  intros Hv. pose proof (norm_pos Hv) as Hpos.
  destruct Hv as (q & Hq & Hrough).
  unfold normalized. rewrite Hq. cbn [bind]. rewrite Hrough.
  rewrite length_R. cbn [bind num_div of_int PyReal_R].
  rewrite R_div_Ok by lra. reflexivity.
Qed.

Lemma scale_R v s : scale v s = scaled s v.
Proof.
  unfold scale, scaled. destruct (coords v) as [[a b] c]. cbn.
  f_equal; ring.
Qed.

Lemma add_vector_R u v :
  add_vector u v =
    (let '(a, b, c) := coords u in
     let '(a', b', c') := coords v in
     Vector3d_init (a + a') (b + b') (c + c')).
Proof.
  unfold add_vector. destruct (coords u) as [[a b] c].
  destruct (coords v) as [[a' b'] c']. cbn. f_equal; ring.
Qed.

(** [v + s] stretches [v] by the factor [(norm v + s) / norm v]. *)
Lemma add_number_R v s :
  squares_round_to_nonzero v ->
  __add__ v (VNum s) = Ok (VVec (scaled ((norm v + s) / norm v) v)).
Proof.
  intros Hv. pose proof (norm_pos Hv) as Hpos.
  unfold __add__. rewrite (normalized_R Hv). cbn [bind].
  rewrite add_vector_R, !scale_R. unfold scaled.
  destruct (coords v) as [[a b] c]. cbn.
  do 2 f_equal. f_equal; field; lra.
Qed.

Lemma norm2_scaled k v : norm2 (scaled k v) = (k * k) * norm2 v.
Proof.
  unfold norm2, scaled. destruct (coords v) as [[a b] c]. cbn. ring.
Qed.

Lemma norm_scaled k v : norm (scaled k v) = Rabs k * norm v.
Proof.
  unfold norm. rewrite norm2_scaled.
  rewrite sqrt_mult_alt by nra.
  f_equal. change (k * k) with (Rsqr k). apply sqrt_Rsqr_abs.
Qed.

(** The length of [v + s] is the absolute value of [norm v + s]. *)
Lemma norm_add_number v s :
  0 < norm v ->
  norm (scaled ((norm v + s) / norm v) v) = Rabs (norm v + s).
Proof.
  intros Hpos. rewrite norm_scaled.
  unfold Rdiv. rewrite Rabs_mult, Rabs_inv.
  rewrite (Rabs_pos_eq (norm v)) by lra.
  field. lra.
Qed.
End RealVectors.

(* ------------------------------------------------------------------ *)
(** ** binary64: differences and negation *)
(* ------------------------------------------------------------------ *)

Section FloatCross.
Local Open Scope float_scope.

(** [is_finite] singles out the zeros and the finite numbers. *)
Lemma float_is_finite (p : float) :
  is_finite p =
    match Prim2SF p with
    | S754_zero _ | S754_finite _ _ _ => true
    | _ => false
    end.
Proof.
  unfold is_finite, is_nan, is_infinity.
  rewrite !FloatAxioms.eqb_spec, abs_spec.
  change (Prim2SF infinity) with (S754_infinity false).
  destruct (Prim2SF p) as [[ | ] | [ | ] | | s m e]; try reflexivity.
  unfold SFeqb, SFcompare. cbn [SFabs].
  rewrite Z.compare_refl.
  destruct s; rewrite ?Pos.compare_cont_refl; cbn;
    rewrite ?Pos.compare_refl; reflexivity.
Qed.

(** [p - p] is [0.0] for a finite [p] and NaN otherwise. *)
Lemma float_sub_self (p : float) :
  p - p = if is_finite p then 0 else nan.
Proof.
  apply Prim2SF_inj. rewrite sub_spec, float_is_finite.
  unfold SF64sub, SFsub.
  destruct (Prim2SF p) as [[ | ] | [ | ] | | s m e]; try reflexivity.
  cbv zeta. change IntDef.Z.sub with Z.sub. rewrite Z.sub_diag. reflexivity.
Qed.
End FloatCross.

Section FloatNegation.
Local Open Scope Z_scope.

(** Rounding does not look at the sign. *)
Lemma binary_round_aux_opp (s : bool) (m e : Z) (l : location) :
  binary_round_aux prec emax (negb s) m e l
  = SFopp (binary_round_aux prec emax s m e l).
Proof.
  unfold binary_round_aux.
  destruct (shr_fexp prec emax m e l) as [mrs' e'].
  destruct (shr_fexp prec emax _ e' loc_Exact) as [mrs'' e''].
  destruct (shr_m mrs'') as [ | p | p]; try reflexivity.
  destruct (e'' <=? emax - prec); reflexivity.
Qed.

Lemma binary_round_opp (s : bool) (m : positive) (e : Z) :
  binary_round prec emax (negb s) m e = SFopp (binary_round prec emax s m e).
Proof.
  unfold binary_round.
  destruct (shl_align m e (fexp prec emax (Z.pos (digits2_pos m) + e)))
    as [mz ez].
  apply binary_round_aux_opp.
Qed.

Lemma binary_normalize_opp (m e : Z) :
  SF_same (binary_normalize prec emax (- m) e false)
          (SFopp (binary_normalize prec emax m e false)).
Proof.
  destruct m as [ | p | p]; cbn [Z.opp binary_normalize].
  - apply SF_same_zero.
  - rewrite <- (binary_round_opp false). apply SF_same_refl.
  - change true with (negb false). rewrite binary_round_opp.
    destruct (binary_round prec emax false p e) as [[ | ] | [ | ] | | [ | ] ? ?];
      apply SF_same_refl.
Qed.

(** [p - q] is the negation of [q - p], up to the sign of a zero. *)
Lemma SFsub_swap (p q : spec_float) :
  SF_same (SFsub prec emax p q) (SFopp (SFsub prec emax q p)).
Proof.
  destruct p as [[ | ] | [ | ] | | sp mp ep], q as [[ | ] | [ | ] | | sq mq eq];
    try (cbn; destruct sp; apply SF_same_refl);
    try (cbn; destruct sq; apply SF_same_refl);
    try (cbn; apply SF_same_refl); try (cbn; apply SF_same_zero).
  cbn [SFsub]. cbv zeta. change IntDef.Z.min with Z.min.
  rewrite (Z.min_comm eq ep).
  set (A := cond_Zopp sp (Z.pos (fst (shl_align mp ep (Z.min ep eq))))).
  set (B := cond_Zopp sq (Z.pos (fst (shl_align mq eq (Z.min ep eq))))).
  replace (A - B) with (- (B - A)) by lia.
  apply binary_normalize_opp.
Qed.

(** Shifting a mantissa that ends in 52 zero bits right by 52 bits. *)
Lemma shift_52 (m : positive) :
  SpecFloat.iter_pos shr_1 52
    {| shr_m := Z.pos (4503599627370496 * m); shr_r := false; shr_s := false |}
  = {| shr_m := Z.pos m; shr_r := false; shr_s := false |}.
Proof. reflexivity. Qed.

Lemma digits2_shift_52 (m : positive) :
  Z.pos (digits2_pos (4503599627370496 * m)) = Z.pos (digits2_pos m) + 52.
Proof.
  cbn [Pos.mul digits2_pos]. change PosDef.Pos.succ with Pos.succ.
  rewrite !Pos2Z.inj_succ. lia.
Qed.

(** Multiplying by [-1.0] only flips the sign. *)
Lemma SFmul_minus_one (x : spec_float) :
  SpecFloat.valid_binary prec emax x = true ->
  SFmul prec emax x (S754_finite true 4503599627370496 (-52)) = SFopp x.
Proof.
  destruct x as [[ | ] | [ | ] | | s m e]; try reflexivity.
  intros Hvalid. cbn [SFmul SFopp SpecFloat.valid_binary] in *.
  unfold bounded, canonical_mantissa in Hvalid.
  apply andb_true_iff in Hvalid. destruct Hvalid as [Hcanon Hbound].
  apply Z.eqb_eq in Hcanon.
  rewrite xorb_true_r, (Pos.mul_comm m).
  unfold binary_round_aux, shr_fexp.
  cbn [Zdigits2]. rewrite digits2_shift_52.
  replace (Z.pos (digits2_pos m) + 52 + (e + -52))
    with (Z.pos (digits2_pos m) + e) by lia.
  rewrite Hcanon.
  replace (e - (e + -52)) with 52 by lia.
  cbn [shr shr_record_of_loc]. rewrite shift_52.
  cbn [shr_m loc_of_shr_record round_nearest_even Zdigits2].
  replace (e + -52 + 52) with e by lia.
  rewrite Hcanon, Z.sub_diag. cbn [shr shr_m].
  rewrite Hbound. reflexivity.
Qed.
End FloatNegation.

Section FloatNegationFacts.
Local Open Scope float_scope.

(** [x * -1] is [-x], bit for bit. *)
Lemma float_mul_minus_one (x : float) : x * (-1) = - x.
Proof.
  apply Prim2SF_inj. rewrite mul_spec, opp_spec.
  change (Prim2SF (-1)) with (S754_finite true 4503599627370496 (-52)).
  apply SFmul_minus_one. apply Prim2SF_valid.
Qed.

(** A float compares equal to itself unless it is NaN. *)
Lemma same_number_refl (x : float) : same_number x x.
Proof.
  unfold same_number, is_nan.
  destruct (x =? x); [left; reflexivity | right; split; reflexivity].
Qed.

Lemma SF_same_number (x y : float) :
  SF_same (Prim2SF x) (Prim2SF y) -> same_number x y.
Proof.
  intros H.
  remember (Prim2SF x) as sx eqn:Hx. remember (Prim2SF y) as sy eqn:Hy.
  destruct H as [s | b b'].
  - rewrite Hx in Hy. apply Prim2SF_inj in Hy. subst y.
    apply same_number_refl.
  - left. rewrite FloatAxioms.eqb_spec, <- Hx, <- Hy. reflexivity.
Qed.

(** [p - q] and [(q - p) * -1] are equal numbers, or both NaN. *)
Lemma float_sub_swap (p q : float) : same_number (p - q) ((q - p) * (-1)).
Proof.
  apply SF_same_number. rewrite float_mul_minus_one, opp_spec, !sub_spec.
  apply SFsub_swap.
Qed.

Lemma float_nan_not_zero : nan <> 0.
Proof.
  intros H. apply (f_equal Prim2SF) in H. vm_compute in H. discriminate H.
Qed.
End FloatNegationFacts.

(* ------------------------------------------------------------------ *)
(** ** Dot and cross product, distance and displacement *)
(* ------------------------------------------------------------------ *)

Section ArithmeticFacts.
Context {num : Type} `{!PyEq num} `{!PyReal num}.

(** [cross] reads the six coordinates and never raises. *)
Lemma cross_coords (u v : Vector3d num) :
  cross u v =
    Ok (let '(a, b, c) := coords u in
        let '(a', b', c') := coords v in
        Vector3d_init (num_sub (num_mul b c') (num_mul c b'))
                      (num_sub (num_mul c a') (num_mul a c'))
                      (num_sub (num_mul a b') (num_mul b a'))).
Proof.
  destruct u as [ku [[a b] c] xu yu zu], v as [kv [[a' b'] c'] xv yv zv].
  reflexivity.
Qed.

(** [p - q] for two instances: [q] is scaled by [-1] and added. *)
Lemma sub_vector (p q : Vector3d num) :
  __sub__ p (VVec q) = Ok (VVec (add_vector p (scale q (of_int (-1))))).
Proof. reflexivity. Qed.
End ArithmeticFacts.

(** C9, as the code has it.  Over the real numbers the dot product is
    commutative, the cross product is anti-commutative ([u.cross(v)] is
    [v.cross(u) * -1], the way [__sub__] negates) and [u.cross(u)] is
    the zero vector.  In binary64 the two dot products are the same
    float; each coordinate of [u.cross(v)] and of [v.cross(u) * -1]
    holds the same number ([==], or both NaN); and each coordinate of
    [u.cross(u)] is [p - p] for a product [p] of two coordinates, [0.0]
    when [p] is finite and NaN when it is not, so that [u.cross(u)] is
    the zero vector exactly when the three products are finite. *)
Theorem dot_cross_laws :
  (forall u v : Vector3d R,
     dot u v = dot v u /\
     (exists w w',
        cross u v = Ok w /\ cross v u = Ok w' /\
        __mul__ w' (VNum (-1)%R) = Ok (VVec w)) /\
     cross u u = Ok (Vector3d_init 0 0 0)%R) /\
  (forall u v : Vector3d float,
     dot u v = dot v u /\
     (exists w w' n,
        cross u v = Ok w /\ cross v u = Ok w' /\
        __mul__ w' (VNum (-1)%float) = Ok (VVec n) /\
        same_numbers w n)) /\
  (forall (u : Vector3d float) (a b c : float),
     coords u = (a, b, c) ->
     let diff (p : float) := if is_finite p then 0%float else nan in
     cross u u =
       Ok (Vector3d_init (diff (b * c)%float) (diff (c * a)%float)
                         (diff (a * b)%float)) /\
     (cross u u = Ok (Vector3d_init 0%float 0%float 0%float) <->
      is_finite (b * c) = true /\ is_finite (c * a) = true /\
      is_finite (a * b) = true)).
Proof.
  split; [ | split].
  - intros u v. rewrite !cross_coords.
    destruct u as [ku [[a b] c] xu yu zu], v as [kv [[a' b'] c'] xv yv zv].
    split; [ | split].
    + unfold dot. cbn. ring.
    + eexists. eexists. split; [reflexivity | split; [reflexivity | ]].
      cbn. do 2 f_equal. f_equal; ring.
    + cbn. f_equal. f_equal; ring.
  - intros u v. split; [apply dot_comm_float | ].
    rewrite !cross_coords.
    destruct u as [ku [[a b] c] xu yu zu], v as [kv [[a' b'] c'] xv yv zv].
    do 3 eexists.
    split; [reflexivity | split; [reflexivity | split; [reflexivity | ]]].
    unfold same_numbers. cbn [coords scale Vector3d_init num_sub num_mul of_int
                              PyReal_float].
    rewrite (float_mul_comm b' c), (float_mul_comm c' b),
            (float_mul_comm c' a), (float_mul_comm a' c),
            (float_mul_comm a' b), (float_mul_comm b' a).
    repeat split; apply float_sub_swap.
  - intros u a b c Hu diff.
    assert (Hcross : cross u u =
              Ok (Vector3d_init (diff (b * c)%float) (diff (c * a)%float)
                                (diff (a * b)%float))).
    { rewrite cross_coords, Hu. cbn [num_sub num_mul PyReal_float].
      rewrite (float_mul_comm c b), (float_mul_comm a c), (float_mul_comm b a).
      rewrite !float_sub_self. reflexivity. }
    split; [exact Hcross | ].
    rewrite Hcross. unfold diff. split.
    + intros [= Hx Hy Hz].
      destruct (is_finite (b * c)); [ | destruct (float_nan_not_zero Hx)].
      destruct (is_finite (c * a)); [ | destruct (float_nan_not_zero Hy)].
      destruct (is_finite (a * b)); [ | destruct (float_nan_not_zero Hz)].
      repeat split.
    + intros [-> [-> ->]]. reflexivity.
Qed.

(** C9 fails in binary64 where a product of coordinates overflows: for
    [u = Vector3d(1e200, 1e200, 0.5)] the third coordinate of
    [u.cross(u)] is [inf - inf], NaN, and the result is not the zero
    vector. *)
Lemma cross_self_counterexample :
  cross (Vector3d_init 1e200%float 1e200%float 0.5%float)
        (Vector3d_init 1e200%float 1e200%float 0.5%float)
    = Ok (Vector3d_init 0%float 0%float nan) /\
  is_finite (1e200 * 1e200)%float = false /\
  is_nan nan = true /\
  PrimFloat.eqb nan 0%float = false /\
  cross (Vector3d_init 1e200%float 1e200%float 0.5%float)
        (Vector3d_init 1e200%float 1e200%float 0.5%float)
    <> Ok (Vector3d_init 0%float 0%float 0%float).
Proof.
  split; [vm_compute; reflexivity | ].
  split; [vm_compute; reflexivity | ].
  split; [vm_compute; reflexivity | ].
  split; [vm_compute; reflexivity | ].
  intros H.
  apply (f_equal (fun r : result (Vector3d float) =>
                    match r with
                    | Ok w => let '(_, _, c) := coords w in is_nan c
                    | Raise _ => false
                    end)) in H.
  vm_compute in H. discriminate H.
Qed.

(** C8: over the real numbers [distanceTo] is symmetric, [vectorTo]
    in one direction is [vectorTo] in the other direction times [-1],
    and [p2.vectorTo(p1)] is [p1 - p2]. *)
Theorem point_distance_vector_laws :
  forall p1 p2 : Vector3d R,
    (exists d, distanceTo p1 p2 = Ok d /\ distanceTo p2 p1 = Ok d) /\
    (exists w w',
       vectorTo p1 p2 = Ok (VVec w) /\ vectorTo p2 p1 = Ok (VVec w') /\
       __mul__ w' (VNum (-1)%R) = Ok (VVec w)) /\
    vectorTo p2 p1 = __sub__ p1 (VVec p2).
Proof.
  intros p1 p2. unfold distanceTo, vectorTo. rewrite !sub_vector.
  cbn [bind]. rewrite !length_R.
  destruct p1 as [k1 [[a b] c] x1 y1 z1], p2 as [k2 [[a' b'] c'] x2 y2 z2].
  split; [ | split].
  - eexists. split; [reflexivity | ].
    f_equal. unfold norm, norm2. f_equal. cbn. ring.
  - eexists. eexists. split; [reflexivity | split; [reflexivity | ]].
    cbn. do 2 f_equal. f_equal; ring.
  - reflexivity.
Qed.

(* ------------------------------------------------------------------ *)
(** ** Adding a number to a vector *)
(* ------------------------------------------------------------------ *)

Section Sqrt5.
Local Open Scope R_scope.

Lemma sqrt5_bounds : 2236067977 / 10 ^ 9 < sqrt 5 < 2236067978 / 10 ^ 9.
Proof.
  split.
  - rewrite <- (sqrt_square (2236067977 / 10 ^ 9)) by lra.
    apply sqrt_lt_1; lra.
  - rewrite <- (sqrt_square (2236067978 / 10 ^ 9)) by lra.
    apply sqrt_lt_1; lra.
Qed.

Lemma sqrt5_square : sqrt 5 * sqrt 5 = 5.
Proof. apply sqrt_sqrt. lra. Qed.

Lemma norm_012 : norm (Vector3d_init 0 1 2) = sqrt 5.
Proof. unfold norm, norm2. cbn. f_equal. ring. Qed.

Lemma norm_021 : norm (Vector3d_init 0 2 1) = sqrt 5.
Proof. unfold norm, norm2. cbn. f_equal. ring. Qed.

Lemma nonzero_012 : squares_round_to_nonzero (Vector3d_init 0 1 2).
Proof. apply squares_round_to_nonzero_R. unfold norm2. cbn. lra. Qed.

Lemma nonzero_021 : squares_round_to_nonzero (Vector3d_init 0 2 1).
Proof. apply squares_round_to_nonzero_R. unfold norm2. cbn. lra. Qed.
End Sqrt5.

(** C4: [v + s] is [normalized(v) * s + v], in any number system.
    Over the real numbers, for a vector whose squared magnitude does
    not round to zero, [normalized] returns and the result is [v]
    stretched along its own direction by the factor
    [(norm v + s) / norm v].  In binary64, [Vector3d(0,1,2) + 1] is
    [(0, 1.4472135954999579, 2.8944271909999157)], which is not the
    elementwise sum [(1, 2, 3)], and its length exceeds the length of
    [Vector3d(0,1,2)] by [0.99999999999999956]. *)
Theorem add_number_extends_length :
  (forall (num : Type) (E : PyEq num) (N : PyReal num)
          (v u : Vector3d num) (s : num),
     normalized v = Ok u ->
     __mul__ u (VNum s) = Ok (VVec (scale u s)) /\
     __add__ (scale u s) (VVec v) = Ok (VVec (add_vector (scale u s) v)) /\
     __add__ v (VNum s) = Ok (VVec (add_vector (scale u s) v))) /\
  (forall (v : Vector3d R) (s : R),
     squares_round_to_nonzero v ->
     exists u,
       normalized v = Ok u /\
       __add__ v (VNum s) = Ok (VVec (add_vector (scale u s) v)) /\
       add_vector (scale u s) v = scaled ((norm v + s) / norm v)%R v) /\
  (let v := Vector3d_init 0 1 2 in
   let w := Vector3d_init 0 1.4472135954999579 2.8944271909999157 in
   __add__ v (VNum 1) = Ok (VVec w) /\
   (abs (1.4472135954999579 - 1.4472135955) <? 1e-10) = true /\
   (abs (2.8944271909999157 - 2.894427191) <? 1e-10) = true /\
   length v = Ok 2.2360679774997898 /\
   length w = Ok 3.2360679774997894 /\
   3.2360679774997894 - 2.2360679774997898 = 0.99999999999999956 /\
   (abs (0.99999999999999956 - 1) <? 1e-15) = true /\
   w <> Vector3d_init 1 2 3)%float.
Proof.
  split; [ | split].
  - intros num E N v u s Hu.
    split; [reflexivity | ]. split; [reflexivity | ].
    unfold __add__. rewrite Hu. reflexivity.
  - intros v s Hv. exists (scale v (1 / norm v)%R).
    split; [apply (normalized_R Hv) | ].
    pose proof (add_number_R s Hv) as Hadd.
    unfold __add__ in *. rewrite (normalized_R Hv) in *. cbn [bind] in *.
    split; [reflexivity | ]. congruence.
  - cbv zeta. repeat split; try (vm_compute; reflexivity).
    intros Heq. apply (f_equal (fun o => PrimFloat.eqb (x o) 1)) in Heq.
    vm_compute in Heq. discriminate.
Qed.

(** [Vector3d(0,1,2) + 1] over the real numbers: the result is within
    [1e-9] of [(0, 1.4472135955, 2.894427191)]. *)
Lemma add_number_example_R :
  squares_round_to_nonzero (Vector3d_init 0 1 2)%R /\
  exists y z : R,
    __add__ (Vector3d_init 0 1 2)%R (VNum 1%R)
      = Ok (VVec (Vector3d_init 0 y z)%R) /\
    (Rabs (y - 14472135955 / 10 ^ 10) < 1 / 10 ^ 9)%R /\
    (Rabs (z - 2894427191 / 10 ^ 9) < 1 / 10 ^ 9)%R.
Proof.
  split; [exact nonzero_012 | ].
  destruct (proj1 (proj2 add_number_extends_length)
              (Vector3d_init 0 1 2)%R 1%R nonzero_012)
    as (u & _ & Hadd & Hform).
  rewrite Hform, norm_012 in Hadd.
  pose proof sqrt5_bounds as [Hlo Hhi]. pose proof sqrt5_square as Hsq.
  assert (Hk : ((sqrt 5 + 1) / sqrt 5 = 1 + sqrt 5 / 5)%R).
  { apply (Rmult_eq_reg_r (sqrt 5)); [ | lra].
    unfold Rdiv. rewrite Rmult_assoc, Rinv_l by lra. lra. }
  exists ((sqrt 5 + 1) / sqrt 5 * 1)%R, ((sqrt 5 + 1) / sqrt 5 * 2)%R.
  split; [ | split].
  - rewrite Hadd. unfold scaled. cbn. do 2 f_equal. f_equal. ring.
  - rewrite Hk. apply Rabs_def1; lra.
  - rewrite Hk. apply Rabs_def1; lra.
Defined.

(** C5 fails for a number below [- norm v]: for [v = Vector3d(0,2,1)]
    and [s = -7] the length of [v + s] is positive, more than [9] away
    from [v.length + s], both over the real numbers and in binary64;
    and [v + s - s] is not [v]. *)
Lemma add_number_length_counterexample :
  (exists k lw lv : R,
     __add__ (Vector3d_init 0 2 1)%R (VNum (-7)%R)
       = Ok (VVec (scaled k (Vector3d_init 0 2 1)%R)) /\
     length (scaled k (Vector3d_init 0 2 1)%R) = Ok lw /\
     length (Vector3d_init 0 2 1)%R = Ok lv /\
     (9 < lw - (lv + -7))%R) /\
  (let v := Vector3d_init 0 2 1 in
   let w := Vector3d_init 0 (-4.2609903369994111) (-2.1304951684997055) in
   __add__ v (VNum (-7)) = Ok (VVec w) /\
   length w = Ok 4.7639320225002102 /\
   length v = Ok 2.2360679774997898 /\
   2.2360679774997898 + -7 = -4.7639320225002102 /\
   __sub__ w (VNum (-7))
     = Ok (VVec (Vector3d_init 0 (-10.521980673998822) (-5.2609903369994111))))%float.
Proof.
  split.
  - pose proof sqrt5_bounds as [Hlo Hhi].
    exists ((norm (Vector3d_init 0 2 1) + -7) / norm (Vector3d_init 0 2 1))%R,
           (Rabs (norm (Vector3d_init 0 2 1)%R + -7))%R,
           (norm (Vector3d_init 0 2 1)%R).
    split; [apply add_number_R, nonzero_021 | ].
    split; [ | split; [apply length_R | ]].
    + rewrite length_R. f_equal. apply norm_add_number.
      rewrite norm_021. lra.
    + rewrite norm_021. rewrite Rabs_left by lra. lra.
  - cbv zeta. repeat split; vm_compute; reflexivity.
Qed.

(** C5, amended: over the real numbers, for a vector [v] whose squared
    magnitude does not round to zero at 7 decimals and any number [s],
    the length of [v + s] is the absolute value of [norm v + s]; it is
    [norm v + s] when that sum is not negative.  When the sum is
    positive and the squared magnitude of [v + s] does not round to
    zero either, [v + s - s] has the coordinates of [v]. *)
Theorem add_number_length_roundtrip :
  forall (v : Vector3d R) (s : R),
    squares_round_to_nonzero v ->
    exists w,
      __add__ v (VNum s) = Ok (VVec w) /\
      length w = Ok (Rabs (norm v + s)) /\
      ((0 <= norm v + s)%R -> length w = Ok (norm v + s)%R) /\
      ((0 < norm v + s)%R -> squares_round_to_nonzero w ->
       exists v', __sub__ w (VNum s) = Ok (VVec v') /\ coords v' = coords v).
Proof.
  intros v s Hv. pose proof (norm_pos Hv) as Hpos.
  exists (scaled ((norm v + s) / norm v)%R v).
  assert (Hlen : length (scaled ((norm v + s) / norm v)%R v)
                 = Ok (Rabs (norm v + s))).
  { rewrite length_R. f_equal. apply norm_add_number. exact Hpos. }
  split; [apply add_number_R; exact Hv | ].
  split; [exact Hlen | ].
  split.
  - intros Hge. rewrite Hlen, Rabs_pos_eq by exact Hge. reflexivity.
  - intros Hgt Hw.
    unfold __sub__. cbn [times_minus_one bind num_mul of_int PyReal_R].
    rewrite (add_number_R _ Hw), norm_add_number by exact Hpos.
    rewrite Rabs_pos_eq by lra.
    eexists. split; [reflexivity | ].
    unfold scaled. destruct (coords v) as [[a b] c]. cbn.
    f_equal; [f_equal | ]; field; lra.
Qed.

(** [Vector3d(0,2,1) + 4] has length [sqrt 5 + 4], and subtracting [4]
    again gives back [(0, 2, 1)]. *)
Lemma add_number_roundtrip_example :
  squares_round_to_nonzero (Vector3d_init 0 2 1)%R /\
  exists w,
    __add__ (Vector3d_init 0 2 1)%R (VNum 4%R) = Ok (VVec w) /\
    length w = Ok (sqrt 5 + 4)%R /\
    exists v', __sub__ w (VNum 4%R) = Ok (VVec v') /\ coords v' = (0, 2, 1)%R.
Proof.
  split; [exact nonzero_021 | ].
  destruct (@add_number_length_roundtrip (Vector3d_init 0 2 1)%R 4%R nonzero_021)
    as (w & Hadd & Hlen & Hpos & Hback).
  pose proof sqrt5_bounds as [Hlo Hhi].
  rewrite norm_021 in *.
  exists w. split; [exact Hadd | ]. split; [apply Hpos; lra | ].
  apply Hback; [lra | ].
  apply squares_round_to_nonzero_R.
  pose proof (length_R w) as Hw. rewrite (Hpos ltac:(lra)) in Hw.
  injection Hw as Hw. rewrite <- norm_square, <- Hw.
  pose proof tiny_pos. nra.
Defined.

(** The docstring's [v4 = Vector3d(0.0, -0.0, 0.0)], in binary64: the
    sum of its squares is [0.0], and [normalized], [toLength], [+ 1]
    and [- 1] raise [ZeroDivisionError] ("this is a vector of length 0
    so its length can't be adjusted"). *)
Lemma zero_division_example :
  let v4 := Vector3d_init 0%float (-0)%float 0%float in
  squares_round_to_zero v4 /\
  normalized v4 = Raise ZeroDivisionError /\
  toLength v4 (VNum 1%float) = Raise ZeroDivisionError /\
  __add__ v4 (VNum 1%float) = Raise ZeroDivisionError /\
  __sub__ v4 (VNum 1%float) = Raise ZeroDivisionError.
Proof.
  cbv zeta.
  assert (Hzero : squares_round_to_zero
                    (Vector3d_init 0%float (-0)%float 0%float)).
  { exists 0%float. split; vm_compute; reflexivity. }
  destruct (@zero_division_iff_squares_round_to_zero float _ _ _
              (Vector3d_init 0%float (-0)%float 0%float) 1%float)
    as (Hn & Ht & Ha & Hs & _).
  split; [exact Hzero | ].
  split; [apply Hn; exact Hzero | ].
  split; [apply Ht; exact Hzero | ].
  split; [apply Ha; exact Hzero | apply Hs; exact Hzero].
Defined.

(* ================================================================== *)
(** * Further properties of the code *)
(* ================================================================== *)

(** What follows is read off [core.py] itself: how the methods behave
    at the edges (indices out of range, keys of the wrong kind, empty
    and short inputs, NaN and overflow), the algebraic laws the
    operators satisfy over the real numbers, and how the operations of
    [PointSet] compose. *)

(* ------------------------------------------------------------------ *)
(** ** Sequences: index ranges and slices *)
(* ------------------------------------------------------------------ *)

Section SequenceFacts.
Context {A : Type}.
Local Open Scope Z_scope.

(** [seq[i]] raises [IndexError] exactly outside [-len .. len - 1]. *)
Lemma seq_index_raises (l : list A) (i : Z) :
  seq_index l i = Raise IndexError <->
  i < - Z.of_nat (List.length l) \/ Z.of_nat (List.length l) <= i.
Proof.
  unfold seq_index.
  set (len := Z.of_nat (List.length l)).
  set (j := if i <? 0 then i + len else i).
  destruct ((j <? 0) || (len <=? j)) eqn:Hout.
  - split; [intros _ | reflexivity].
    apply orb_true_iff in Hout. subst j.
    destruct (Z.ltb_spec i 0); destruct Hout as [Hj | Hj];
      [apply Z.ltb_lt in Hj | apply Z.leb_le in Hj
      | apply Z.ltb_lt in Hj | apply Z.leb_le in Hj]; lia.
  - apply orb_false_iff in Hout. destruct Hout as [Hlo Hhi].
    apply Z.ltb_ge in Hlo. apply Z.leb_gt in Hhi.
    assert (Hn : (Z.to_nat j < List.length l)%nat) by (subst len; lia).
    apply nth_error_Some in Hn.
    destruct (nth_error l (Z.to_nat j)) as [a | ]; [ | congruence].
    split; [discriminate | ].
    subst j. destruct (Z.ltb_spec i 0); lia.
Qed.

(** Inside the range an element of the sequence is returned; a
    negative index counts from the end. *)
Lemma seq_index_in_range (l : list A) (i : Z) :
  - Z.of_nat (List.length l) <= i < Z.of_nat (List.length l) ->
  exists a, seq_index l i = Ok a /\ In a l /\
            nth_error l (Z.to_nat (i mod Z.of_nat (List.length l))) = Some a.
Proof.
  intros Hi. unfold seq_index.
  set (len := Z.of_nat (List.length l)) in *.
  set (j := if i <? 0 then i + len else i).
  assert (Hj : 0 <= j < len) by (subst j; destruct (Z.ltb_spec i 0); lia).
  assert (Hmod : i mod len = j).
  { subst j. destruct (Z.ltb_spec i 0).
    - symmetry. apply Z.mod_unique with (q := -1); lia.
    - apply Z.mod_small. lia. }
  replace ((j <? 0) || (len <=? j)) with false.
  2:{ symmetry. apply orb_false_iff. split; [apply Z.ltb_ge | apply Z.leb_gt]; lia. }
  rewrite Hmod.
  assert (Hn : (Z.to_nat j < List.length l)%nat) by (subst len; lia).
  apply nth_error_Some in Hn.
  destruct (nth_error l (Z.to_nat j)) as [a | ] eqn:Hnth; [ | congruence].
  exists a. split; [reflexivity | split; [ | reflexivity]].
  eapply nth_error_In; eassumption.
Qed.

Lemma seq_index_negative (l : list A) (i : Z) :
  - Z.of_nat (List.length l) <= i < 0 ->
  seq_index l i = seq_index l (i + Z.of_nat (List.length l)).
Proof.
  intros Hi. unfold seq_index.
  set (len := Z.of_nat (List.length l)) in *.
  assert (E1 : (i <? 0) = true) by (apply Z.ltb_lt; lia).
  assert (E2 : (i + len <? 0) = false) by (apply Z.ltb_ge; lia).
  rewrite E1, E2. cbv iota. rewrite E2. reflexivity.
Qed.

(** A slice holds at most as many indices as it has fuel. *)
Lemma slice_range_length (fuel : nat) :
  forall start stop step,
    (List.length (slice_range fuel start stop step) <= fuel)%nat.
Proof.
  induction fuel as [ | fuel IH]; intros start stop step; cbn; [lia | ].
  destruct (if 0 <? step then start <? stop else stop <? start); cbn; [ | lia].
  specialize (IH (start + step) stop step). lia.
Qed.

Lemma flat_map_nth_length (l : list A) (js : list Z) :
  (List.length (flat_map (fun j => match nth_error l (Z.to_nat j) with
                                   | Some a => [a]
                                   | None => []
                                   end) js) <= List.length js)%nat.
Proof.
  induction js as [ | j js IH]; cbn; [lia | ].
  rewrite length_app. destruct (nth_error l (Z.to_nat j)); cbn; lia.
Qed.

Lemma flat_map_nth_In (l : list A) (js : list Z) (a : A) :
  In a (flat_map (fun j => match nth_error l (Z.to_nat j) with
                           | Some a => [a]
                           | None => []
                           end) js) -> In a l.
Proof.
  intros Hin. apply in_flat_map in Hin. destruct Hin as [j [_ Hj]].
  destruct (nth_error l (Z.to_nat j)) as [b | ] eqn:Hnth; [ | contradiction].
  destruct Hj as [<- | []]. eapply nth_error_In; eassumption.
Qed.

(** [seq[start:stop:step]] raises [ValueError] for a zero step and
    nothing else: bounds out of range are clamped. *)
Lemma seq_slice_zero_step (l : list A) (s : slice) :
  slice_step s = Some 0 -> seq_slice l s = Raise ValueError.
Proof. intros Hs. unfold seq_slice, slice_indices. rewrite Hs. reflexivity. Qed.

Lemma seq_slice_returns (l : list A) (s : slice) :
  slice_step s <> Some 0 ->
  exists r, seq_slice l s = Ok r /\
            (List.length r <= List.length l)%nat /\
            forall a, In a r -> In a l.
Proof.
  intros Hs. unfold seq_slice, slice_indices.
  destruct (Z.eqb_spec (match slice_step s with None => 1 | Some k => k end) 0)
    as [H0 | H0].
  - destruct (slice_step s) as [k | ]; [subst k; congruence | discriminate].
  - cbn [bind]. eexists. split; [reflexivity | split].
    + etransitivity; [apply flat_map_nth_length | apply slice_range_length].
    + intros a. apply flat_map_nth_In.
Qed.
End SequenceFacts.

(* ------------------------------------------------------------------ *)
(** ** Indexing a vector: errors *)
(* ------------------------------------------------------------------ *)

Lemma items_length {num : Type} (v : Vector3d num) :
  List.length (items v) = 3%nat.
Proof. unfold items. destruct (coords v) as [[a b] c]. reflexivity. Qed.

Lemma getitem_int_is_seq_index {num : Type} (v : Vector3d num) (i : Z) :
  __getitem__ v (KInt i) = (n <- seq_index (items v) i ;; Ok (INum n)).
Proof. reflexivity. Qed.

Lemma getitem_slice_is_seq_slice {num : Type} (v : Vector3d num) (s : slice) :
  __getitem__ v (KSlice s) = (l <- seq_slice (items v) s ;; Ok (ITuple l)).
Proof. reflexivity. Qed.

(** X1: an int index into a vector raises [IndexError] exactly outside
    [-3 .. 2]; inside that range it returns a coordinate, and a negative
    index counts from the end ([v[-1]] is [v[2]]). *)
Theorem Vector3d_getitem_int_range :
  forall (num : Type) (v : Vector3d num) (i : Z),
    (__getitem__ v (KInt i) = Raise IndexError <-> (i < -3 \/ 3 <= i)%Z) /\
    ((-3 <= i < 3)%Z ->
     exists n, __getitem__ v (KInt i) = Ok (INum n) /\
               nth_error (asList v) (Z.to_nat (i mod 3)) = Some n) /\
    ((-3 <= i < 0)%Z ->
     __getitem__ v (KInt i) = __getitem__ v (KInt (i + 3))).
Proof.
  intros num v i. rewrite !getitem_int_is_seq_index.
  pose proof (items_length v) as Hlen.
  split; [ | split].
  - pose proof (seq_index_raises (items v) i) as Hr. rewrite Hlen in Hr.
    change (Z.of_nat 3) with 3%Z in Hr. change (- (3))%Z with (-3)%Z in Hr.
    rewrite <- Hr.
    destruct (seq_index (items v) i); cbn [bind]; split; congruence.
  - intros Hi.
    destruct (@seq_index_in_range _ (items v) i) as [n [Hn [_ Hnth]]].
    { rewrite Hlen. exact Hi. }
    exists n. rewrite Hn. split; [reflexivity | ].
    rewrite Hlen in Hnth. exact Hnth.
  - intros Hi. rewrite (@seq_index_negative _ (items v) i).
    + rewrite Hlen. reflexivity.
    + rewrite Hlen. exact Hi.
Qed.

(** X2: a slice of a vector never raises [IndexError]: bounds out of
    range are clamped, so any slice with a non-zero step returns a tuple
    of at most three of the coordinates; a zero step raises
    [ValueError]. *)
Theorem Vector3d_getitem_slice_clamps :
  forall (num : Type) (v : Vector3d num) (s : slice),
    (slice_step s = Some 0%Z ->
     __getitem__ v (KSlice s) = Raise ValueError) /\
    (slice_step s <> Some 0%Z ->
     exists t, __getitem__ v (KSlice s) = Ok (ITuple t) /\
               (List.length t <= 3)%nat /\
               forall n, In n t -> In n (asList v)).
Proof.
  intros num v s. rewrite getitem_slice_is_seq_slice. split; intros Hs.
  - rewrite seq_slice_zero_step by exact Hs. reflexivity.
  - destruct (@seq_slice_returns _ (items v) s Hs) as [t [Ht [Hlen Hin]]].
    exists t. rewrite Ht. rewrite items_length in Hlen.
    split; [reflexivity | split; assumption].
Qed.

Lemma is_axis_name_In {num : Type} (s : string) :
  is_axis_name (KStr s : key num) = true <->
  In s ["x"%string; "y"%string; "z"%string].
Proof.
  cbn. rewrite !orb_true_iff, !String.eqb_eq. intuition congruence.
Qed.

(** X3: the only string keys a vector accepts are ['x'], ['y'] and
    ['z'], answered from [asDict]; any other string, a tuple or an
    instance used as key raises [TypeError]. *)
Theorem Vector3d_getitem_key_kinds :
  forall (num : Type) (v : Vector3d num),
    (forall s : string,
       In s ["x"%string; "y"%string; "z"%string] ->
       exists n, __getitem__ v (KStr s) = Ok (INum n) /\
                 strdict_getitem (asDict v) s = Ok n) /\
    (forall s : string,
       ~ In s ["x"%string; "y"%string; "z"%string] ->
       __getitem__ v (KStr s) = Raise TypeError) /\
    (forall t : list num, __getitem__ v (KTuple t) = Raise TypeError) /\
    (forall (a : nat) (o : Vector3d num),
       __getitem__ v (KObj a o) = Raise TypeError).
Proof.
  intros num v. split; [ | split; [ | split]].
  - intros s Hs. unfold __getitem__.
    rewrite (proj2 (@is_axis_name_In num s) Hs).
    unfold asDict, items. destruct (coords v) as [[a b] c].
    destruct Hs as [<- | [<- | [<- | []]]]; eexists; split; reflexivity.
  - intros s Hs. unfold __getitem__.
    destruct (is_axis_name (KStr s : key num)) eqn:Hax; [ | reflexivity].
    apply is_axis_name_In in Hax. contradiction.
  - reflexivity.
  - reflexivity.
Qed.

(** X4: [asList], iteration, [asDict] and indexing agree: [asList] is
    the iteration of the vector and has three items, item [i] of it is
    [v[i]], [asDict] has the keys ['x'], ['y'], ['z'] in that order with
    the items of [asList] as values, and a lookup in [asDict] returns
    what [v[name]] returns. *)
Theorem asList_asDict_agree :
  forall (num : Type) (v : Vector3d num),
    asList v = __iter__ v /\
    List.length (asList v) = 3%nat /\
    map fst (asDict v) = ["x"%string; "y"%string; "z"%string] /\
    map snd (asDict v) = asList v /\
    (forall (i : nat) (n : num),
       nth_error (asList v) i = Some n <->
       (i < 3)%nat /\ __getitem__ v (KInt (Z.of_nat i)) = Ok (INum n)) /\
    (forall (s : string) (n : num),
       strdict_getitem (asDict v) s = Ok n <->
       __getitem__ v (KStr s) = Ok (INum n)).
Proof.
  intros num v.
  split; [reflexivity | split; [apply items_length | ]].
  split; [ | split; [ | split]].
  - unfold asDict, items. destruct (coords v) as [[a b] c]. reflexivity.
  - unfold asDict, asList, __iter__, items.
    destruct (coords v) as [[a b] c]. reflexivity.
  - intros i n. unfold asList, __iter__, __getitem__, items.
    destruct (coords v) as [[a b] c].
    destruct i as [ | [ | [ | i]]]; cbn.
    + split; [intros [= ->]; split; [lia | reflexivity] | intros [_ [= ->]]; reflexivity].
    + split; [intros [= ->]; split; [lia | reflexivity] | intros [_ [= ->]]; reflexivity].
    + split; [intros [= ->]; split; [lia | reflexivity] | intros [_ [= ->]]; reflexivity].
    + split; [destruct i; discriminate | intros [Hi _]; lia].
  - intros s n. unfold __getitem__.
    destruct (is_axis_name (KStr s : key num)) eqn:Hax.
    + destruct (strdict_getitem (asDict v) s); cbn [bind];
        split; intros [= ->]; reflexivity.
    + cbn [is_axis_name existsb] in Hax. apply orb_false_iff in Hax. destruct Hax as [Hx Hax].
      apply orb_false_iff in Hax. destruct Hax as [Hy Hax].
      apply orb_false_iff in Hax. destruct Hax as [Hz _].
      unfold asDict, items. destruct (coords v) as [[a b] c].
      cbn [combine strdict_getitem]. rewrite (String.eqb_sym "x" s), Hx.
      rewrite (String.eqb_sym "y" s), Hy. rewrite (String.eqb_sym "z" s), Hz.
      split; discriminate.
Qed.

(** X5: [toX], [toY] and [toZ] never raise and replace exactly one
    coordinate; the result is a [Vector3d] even when [self] is a
    [Point3d]; the three in a row give [Vector3d(n1, n2, n3)] whatever
    the vector was, and [toX] and [toY] commute. *)
Theorem toX_toY_toZ_replace_one_coordinate :
  forall (num : Type) (v : Vector3d num) (n n1 n2 n3 : num),
    (exists a b c,
       coords v = (a, b, c) /\
       toX v n = Ok (Vector3d_init n b c) /\
       toY v n = Ok (Vector3d_init a n c) /\
       toZ v n = Ok (Vector3d_init a b n)) /\
    (forall w, toX v n = Ok w \/ toY v n = Ok w \/ toZ v n = Ok w ->
               cls w = CVector3d) /\
    (w1 <- toX v n1 ;; w2 <- toY w1 n2 ;; toZ w2 n3)
      = Ok (Vector3d_init n1 n2 n3) /\
    (w1 <- toX v n1 ;; toY w1 n2) = (w1 <- toY v n2 ;; toX w1 n1).
Proof.
  intros num v n n1 n2 n3.
  destruct v as [k [[a b] c] x0 y0 z0].
  split; [ | split; [ | split]].
  - exists a, b, c. repeat split.
  - intros w [H | [H | H]]; cbn in H; injection H as <-; reflexivity.
  - reflexivity.
  - reflexivity.
Qed.

(* ------------------------------------------------------------------ *)
(** ** Real vectors: length, normalization, the operators *)
(* ------------------------------------------------------------------ *)

Section RealLaws.
Local Open Scope R_scope.

Implicit Types (u v w : Vector3d R) (s : R).

Lemma dot_R u v :
  dot u v =
    (let '(a, b, c) := coords u in
     let '(a', b', c') := coords v in a * a' + b * b' + c * c').
Proof.
  unfold dot. destruct (coords u) as [[a b] c], (coords v) as [[a' b'] c'].
  cbn. ring.
Qed.

Lemma dot_self v : dot v v = norm2 v.
Proof.
  rewrite dot_R. unfold norm2. destruct (coords v) as [[a b] c]. reflexivity.
Qed.

Lemma norm2_zero v : norm2 v = 0 <-> coords v = (0, 0, 0).
Proof.
  unfold norm2. destruct (coords v) as [[a b] c]. split.
  - intros H.
    assert (a = 0) by nra. assert (b = 0) by nra. assert (c = 0) by nra.
    congruence.
  - intros [= -> -> ->]. ring.
Qed.

Lemma norm_zero v : norm v = 0 <-> coords v = (0, 0, 0).
Proof.
  rewrite <- norm2_zero. unfold norm. split.
  - intros H. apply sqrt_eq_0; [apply norm2_nonneg | exact H].
  - intros ->. apply sqrt_0.
Qed.

Lemma nonzero_of_threshold v : 5 / 10 ^ 8 < norm2 v -> 0 < norm v.
Proof.
  intros H. apply norm_pos. apply squares_round_to_nonzero_R. exact H.
Qed.

Lemma norm_scale v s : norm (scale v s) = Rabs s * norm v.
Proof. rewrite scale_R. apply norm_scaled. Qed.

(** The Cauchy-Schwarz inequality for triples. *)
Lemma dot_square_le u v : dot u v * dot u v <= norm2 u * norm2 v.
Proof.
  rewrite dot_R. unfold norm2.
  destruct (coords u) as [[a b] c], (coords v) as [[a' b'] c'].
  pose proof (Rle_0_sqr (a * b' - b * a')) as H1.
  pose proof (Rle_0_sqr (a * c' - c * a')) as H2.
  pose proof (Rle_0_sqr (b * c' - c * b')) as H3.
  unfold Rsqr in *. nra.
Qed.

Lemma dot_le_norms u v : Rabs (dot u v) <= norm u * norm v.
Proof.
  pose proof (dot_square_le u v) as H.
  pose proof (norm_nonneg u) as Hu. pose proof (norm_nonneg v) as Hv.
  rewrite <- (norm_square u), <- (norm_square v) in H.
  assert (Hs : Rsqr (dot u v) <= Rsqr (norm u * norm v))
    by (unfold Rsqr; nra).
  apply Rsqr_le_abs_0 in Hs.
  rewrite (Rabs_pos_eq (norm u * norm v)) in Hs by nra. exact Hs.
Qed.

(** The triangle inequality for the Euclidean norm. *)
Lemma norm_add_vector u v : norm (add_vector u v) <= norm u + norm v.
Proof.
  pose proof (dot_le_norms u v) as Hd.
  pose proof (Rle_abs (dot u v)) as Ha.
  pose proof (norm_nonneg u) as Hu. pose proof (norm_nonneg v) as Hv.
  pose proof (norm_square u) as Hu2. pose proof (norm_square v) as Hv2.
  assert (Hn : norm2 (add_vector u v) = norm2 u + 2 * dot u v + norm2 v).
  { rewrite add_vector_R, dot_R. unfold norm2.
    destruct (coords u) as [[a b] c], (coords v) as [[a' b'] c']. cbn. ring. }
  unfold norm at 1. rewrite Hn.
  rewrite <- (sqrt_square (norm u + norm v)) by lra.
  apply sqrt_le_1_alt. nra.
Qed.

(** X6: over the real numbers [length] always returns; the result is
    not negative, its square is [v.dot(v)], it is zero only for the zero
    vector, and scaling a vector by [k] scales its length by [|k|]. *)
Theorem length_is_euclidean_norm :
  forall v : Vector3d R,
    exists l : R,
      length v = Ok l /\
      (0 <= l)%R /\
      (l * l)%R = dot v v /\
      (l = 0%R <-> coords v = (0, 0, 0)%R) /\
      (forall k : R, length (scale v k) = Ok (Rabs k * l)%R).
Proof.
  intros v. exists (norm v). split; [apply length_R | ].
  split; [apply norm_nonneg | ].
  split; [rewrite dot_self; apply norm_square | ].
  split; [apply norm_zero | ].
  intros k. rewrite length_R, norm_scale. reflexivity.
Qed.

(** X7: over the real numbers [isRoughlyZero] accepts exactly the
    numbers of absolute value at most [5e-8]; [normalized] tests the
    SQUARED length with it, so it raises [ZeroDivisionError] exactly when
    [v.dot(v) <= 5e-8] and returns otherwise.  A vector shorter than
    about [2.2e-4] cannot be normalized although its length is not zero:
    in binary64 [Vector3d(0.0002, 0, 0)] has length [0.0002] and both
    [normalized] and [toLength] raise. *)
Theorem normalized_threshold :
  (forall s : R, isRoughlyZero s = true <-> (Rabs s <= 5 / 10 ^ 8)%R) /\
  (forall v : Vector3d R,
     (normalized v = Raise ZeroDivisionError <-> (dot v v <= 5 / 10 ^ 8)%R) /\
     ((exists u, normalized v = Ok u) <-> (5 / 10 ^ 8 < dot v v)%R)) /\
  (let v := Vector3d_init 0.0002%float 0%float 0%float in
   length v = Ok 0.0002%float /\
   normalized v = Raise ZeroDivisionError /\
   toLength v (VNum 1%float) = Raise ZeroDivisionError).
Proof.
  split; [ | split].
  - intros s. rewrite isRoughlyZero_R. split.
    + intros H. apply Rabs_le. exact H.
    + intros H. unfold Rabs in H. destruct (Rcase_abs s); lra.
  - intros v. rewrite dot_self. split.
    + rewrite <- squares_round_to_zero_R.
      apply (@normalized_raises_iff R _ _ _).
    + rewrite <- squares_round_to_nonzero_R. split.
      * intros [u Hu].
        destruct (Rle_or_lt (norm2 v) (5 / 10 ^ 8)) as [Hle | Hlt].
        -- apply squares_round_to_zero_R in Hle.
           apply (@normalized_raises_iff R _ _ _) in Hle. congruence.
        -- apply squares_round_to_nonzero_R. exact Hlt.
      * intros H. eexists. apply normalized_R. exact H.
  - vm_compute. repeat split.
Qed.

(** X8: over the real numbers, when the squared length exceeds the
    threshold [5e-8], [normalized] returns [self * (1 / length)], a
    [Vector3d] of length [1] that gives the coordinates of [self] back
    when multiplied by the length; normalizing it again changes
    nothing. *)
Theorem normalized_has_unit_length :
  forall v : Vector3d R,
    (5 / 10 ^ 8 < dot v v)%R ->
    exists (u : Vector3d R) (l : R),
      length v = Ok l /\ (0 < l)%R /\
      normalized v = Ok u /\
      u = scale v (1 / l)%R /\
      cls u = CVector3d /\
      length u = Ok 1%R /\
      coords (scale u l) = coords v /\
      (exists u', normalized u = Ok u' /\ coords u' = coords u).
Proof.
  intros v Hv. rewrite dot_self in Hv.
  pose proof (nonzero_of_threshold v Hv) as Hpos.
  assert (Hnz : squares_round_to_nonzero v)
    by (apply squares_round_to_nonzero_R; exact Hv).
  assert (Hlen : norm (scale v (1 / norm v)) = 1%R).
  { rewrite norm_scale. rewrite Rabs_pos_eq.
    - field. lra.
    - apply Rlt_le. apply Rdiv_lt_0_compat; lra. }
  exists (scale v (1 / norm v)%R), (norm v).
  split; [apply length_R | split; [exact Hpos | ]].
  split; [apply normalized_R; exact Hnz | split; [reflexivity | ]].
  split; [unfold scale; destruct (coords v) as [[a b] c]; reflexivity | ].
  split; [rewrite length_R, Hlen; reflexivity | ].
  split.
  - unfold scale. destruct (coords v) as [[a b] c]. cbn.
    f_equal; [f_equal | ]; field; lra.
  - assert (Hu : squares_round_to_nonzero (scale v (1 / norm v)%R)).
    { apply squares_round_to_nonzero_R.
      rewrite <- norm_square, Hlen. lra. }
    eexists. split; [apply normalized_R; exact Hu | ].
    rewrite Hlen. unfold scale. destruct (coords v) as [[a b] c]. cbn.
    f_equal; [f_equal | ]; field; lra.
Qed.

(** [Vector3d(3, 0, 4)]: length [5], normalized to length [1]. *)
Lemma normalized_has_unit_length_example :
  (5 / 10 ^ 8 < dot (Vector3d_init 3 0 4)%R (Vector3d_init 3 0 4)%R)%R /\
  exists (u : Vector3d R) (l : R),
    length (Vector3d_init 3 0 4)%R = Ok l /\ (0 < l)%R /\
    normalized (Vector3d_init 3 0 4)%R = Ok u /\
    length u = Ok 1%R.
Proof.
  assert (H : (5 / 10 ^ 8 < dot (Vector3d_init 3 0 4)%R (Vector3d_init 3 0 4)%R)%R)
    by (cbn; lra).
  split; [exact H | ].
  destruct (@normalized_has_unit_length (Vector3d_init 3 0 4)%R H)
    as [u [l [Hl [Hpos [Hu [_ [_ [Hone _]]]]]]]].
  exists u, l. repeat split; assumption.
Defined.

(** X9: over the real numbers, when the squared length exceeds the
    threshold, [toLength(n)] returns [self] scaled by [n / length]; its
    length is [|n|] (a negative [n] flips the direction).  With a vector
    operand [toLength] returns a number, the dot product divided by the
    length, and with an operand that is neither a number nor a vector it
    returns [None]: it inherits the dispatch of [__mul__]. *)
Theorem toLength_has_given_length :
  forall (v : Vector3d R) (n : R),
    (5 / 10 ^ 8 < dot v v)%R ->
    exists (w : Vector3d R) (l : R),
      length v = Ok l /\
      toLength v (VNum n) = Ok (VVec w) /\
      coords w = coords (scale v (n / l)%R) /\
      length w = Ok (Rabs n) /\
      dot w v = (n * l)%R /\
      (forall o : Vector3d R,
         toLength v (VVec o) = Ok (VNum (dot v o / l)%R)) /\
      (forall other : value R,
         is_number_or_vector other = false -> toLength v other = Ok VNone).
Proof.
  intros v n Hv. rewrite dot_self in Hv.
  pose proof (nonzero_of_threshold v Hv) as Hpos.
  assert (Hnz : squares_round_to_nonzero v)
    by (apply squares_round_to_nonzero_R; exact Hv).
  exists (scale (scale v (1 / norm v)%R) n), (norm v).
  split; [apply length_R | ].
  split; [unfold toLength; rewrite (normalized_R Hnz); reflexivity | ].
  split; [ | split; [ | split; [ | split]]].
  - unfold scale. destruct (coords v) as [[a b] c]. cbn.
    f_equal; [f_equal | ]; field; lra.
  - rewrite length_R, !norm_scale. f_equal.
    rewrite (Rabs_pos_eq (1 / norm v)).
    + field. lra.
    + apply Rlt_le. apply Rdiv_lt_0_compat; lra.
  - pose proof (norm_square v) as Hsq. rewrite dot_R.
    unfold norm2 in Hsq. unfold scale.
    destruct (coords v) as [[a b] c]. cbn.
    transitivity (n * ((a * a + b * b + c * c) / norm v))%R; [field; lra | ].
    rewrite <- Hsq. field. lra.
  - intros o. unfold toLength. rewrite (normalized_R Hnz). cbn [bind __mul__].
    do 2 f_equal. rewrite !dot_R. unfold scale.
    destruct (coords v) as [[a b] c], (coords o) as [[a' b'] c']. cbn.
    field. lra.
  - intros other Hother. unfold toLength. rewrite (normalized_R Hnz).
    cbn [bind]. destruct other; try discriminate; reflexivity.
Qed.

(** [Vector3d(3, 0, 4).toLength(-10)] has length [10]. *)
Lemma toLength_has_given_length_example :
  (5 / 10 ^ 8 < dot (Vector3d_init 3 0 4)%R (Vector3d_init 3 0 4)%R)%R /\
  exists w : Vector3d R,
    toLength (Vector3d_init 3 0 4)%R (VNum (-10)%R) = Ok (VVec w) /\
    length w = Ok 10%R.
Proof.
  assert (H : (5 / 10 ^ 8 < dot (Vector3d_init 3 0 4)%R (Vector3d_init 3 0 4)%R)%R)
    by (cbn; lra).
  split; [exact H | ].
  destruct (@toLength_has_given_length (Vector3d_init 3 0 4)%R (-10)%R H)
    as [w [l [_ [Hw [_ [Hl _]]]]]].
  exists w. split; [exact Hw | ].
  rewrite Hl. f_equal. rewrite Rabs_left; lra.
Defined.

(** X10: multiplication by a number, over the real numbers: the
    result is a [Vector3d]; [(v * a) * b] is [v * (a * b)], [v * 1] has
    the coordinates of [v], [v * 0] is the zero vector, [*] distributes
    over vector addition and moves out of a dot product. *)
Theorem scalar_multiplication_laws :
  forall (u v : Vector3d R) (a b : R),
    __mul__ v (VNum a) = Ok (VVec (scale v a)) /\
    cls (scale v a) = CVector3d /\
    scale (scale v a) b = scale v (a * b)%R /\
    coords (scale v 1%R) = coords v /\
    scale v 0%R = Vector3d_init 0%R 0%R 0%R /\
    scale (add_vector u v) a = add_vector (scale u a) (scale v a) /\
    dot (scale u a) v = (a * dot u v)%R.
Proof.
  intros u v a b. rewrite !dot_R, !add_vector_R.
  destruct u as [ku [[a1 b1] c1] xu yu zu], v as [kv [[a2 b2] c2] xv yv zv].
  cbn.
  split; [reflexivity | split; [reflexivity | ]].
  split; [f_equal; ring | ].
  split; [f_equal; [f_equal | ]; ring | ].
  split; [f_equal; ring | ].
  split; [f_equal; ring | ring].
Qed.

(** X11: vector addition, over the real numbers: it never raises and
    returns a [Vector3d] whatever the classes of the operands; it is
    commutative and associative, the zero vector is neutral, and the
    length of a sum is at most the sum of the lengths. *)
Theorem vector_addition_laws :
  forall u v w : Vector3d R,
    __add__ u (VVec v) = Ok (VVec (add_vector u v)) /\
    cls (add_vector u v) = CVector3d /\
    add_vector u v = add_vector v u /\
    add_vector (add_vector u v) w = add_vector u (add_vector v w) /\
    coords (add_vector v (Vector3d_init 0 0 0)%R) = coords v /\
    (exists l, length (add_vector u v) = Ok l /\
               (l <= norm u + norm v)%R).
Proof.
  intros u v w.
  split; [reflexivity | ].
  split; [rewrite add_vector_R;
          destruct (coords u) as [[a b] c], (coords v) as [[a' b'] c'];
          reflexivity | ].
  split; [ | split; [ | split]].
  - rewrite !add_vector_R.
    destruct (coords u) as [[a b] c], (coords v) as [[a' b'] c'].
    f_equal; ring.
  - rewrite !add_vector_R.
    destruct (coords u) as [[a b] c], (coords v) as [[a' b'] c'],
             (coords w) as [[a'' b''] c''].
    cbn. f_equal; ring.
  - rewrite add_vector_R. destruct (coords v) as [[a b] c]. cbn.
    f_equal; [f_equal | ]; ring.
  - eexists. split; [apply length_R | apply norm_add_vector].
Qed.

(** X12: vector subtraction, over the real numbers: [u - v] is the
    coordinate-wise difference, adding [v] back gives the coordinates of
    [u], [v - v] is the zero vector and [(u + v) - v] has the coordinates
    of [u]. *)
Theorem vector_subtraction_laws :
  forall u v : Vector3d R,
    (exists d,
       __sub__ u (VVec v) = Ok (VVec d) /\
       coords d =
         (let '(a, b, c) := coords u in
          let '(a', b', c') := coords v in
          (a - a', b - b', c - c')%R) /\
       coords (add_vector d v) = coords u) /\
    __sub__ v (VVec v) = Ok (VVec (Vector3d_init 0 0 0)%R) /\
    (exists r,
       __sub__ (add_vector u v) (VVec v) = Ok (VVec r) /\
       coords r = coords u).
Proof.
  intros u v. rewrite !sub_vector, !add_vector_R.
  destruct u as [ku [[a b] c] xu yu zu], v as [kv [[a' b'] c'] xv yv zv].
  cbn. split; [ | split].
  - eexists. split; [reflexivity | ]. cbn.
    split; (f_equal; [f_equal | ]; ring).
  - do 2 f_equal. f_equal; ring.
  - eexists. split; [reflexivity | ]. cbn. f_equal; [f_equal | ]; ring.
Qed.

(** X13: the dot product, over the real numbers: [u * v] between
    two vectors is [u.dot(v)]; [dot] is additive and homogeneous in its
    first argument, [v.dot(v)] is not negative and is zero only for the
    zero vector, and the Cauchy-Schwarz inequality holds, also in the
    form [|u.dot(v)| <= u.length * v.length]. *)
Theorem dot_product_laws :
  forall (u v w : Vector3d R) (a : R),
    __mul__ u (VVec v) = Ok (VNum (dot u v)) /\
    dot (add_vector u v) w = (dot u w + dot v w)%R /\
    dot (scale u a) v = (a * dot u v)%R /\
    (0 <= dot v v)%R /\
    (dot v v = 0%R <-> coords v = (0, 0, 0)%R) /\
    (dot u v * dot u v <= dot u u * dot v v)%R /\
    (exists lu lv,
       length u = Ok lu /\ length v = Ok lv /\
       (Rabs (dot u v) <= lu * lv)%R).
Proof.
  intros u v w a.
  split; [reflexivity | ].
  split; [ | split; [ | split; [ | split; [ | split]]]].
  - rewrite add_vector_R, !dot_R.
    destruct (coords u) as [[a1 b1] c1], (coords v) as [[a2 b2] c2],
             (coords w) as [[a3 b3] c3].
    cbn. ring.
  - rewrite !dot_R. unfold scale.
    destruct (coords u) as [[a1 b1] c1], (coords v) as [[a2 b2] c2].
    cbn. ring.
  - rewrite dot_self. apply norm2_nonneg.
  - rewrite dot_self. apply norm2_zero.
  - rewrite !dot_self. apply dot_square_le.
  - exists (norm u), (norm v).
    split; [apply length_R | split; [apply length_R | apply dot_le_norms]].
Qed.

(** X14: the cross product, over the real numbers: it never raises
    and returns a [Vector3d] orthogonal to both operands; its squared
    length plus the squared dot product is the product of the squared
    lengths (Lagrange's identity); a vector crossed with a multiple of
    itself gives the zero vector; and [(u x v) . t = u . (v x t)]. *)
Theorem cross_product_is_orthogonal :
  forall (u v : Vector3d R) (a : R),
    exists w : Vector3d R,
      cross u v = Ok w /\
      cls w = CVector3d /\
      dot w u = 0%R /\
      dot w v = 0%R /\
      (dot w w + dot u v * dot u v)%R = (dot u u * dot v v)%R /\
      cross v (scale v a) = Ok (Vector3d_init 0 0 0)%R /\
      (forall t : Vector3d R,
         exists c, cross v t = Ok c /\ dot w t = dot u c).
Proof.
  intros u v a. rewrite !cross_coords.
  eexists. split; [reflexivity | ].
  split; [destruct (coords u) as [[a1 b1] c1], (coords v) as [[a2 b2] c2];
          reflexivity | ].
  split; [ | split; [ | split; [ | split]]].
  - rewrite dot_R.
    destruct (coords u) as [[a1 b1] c1], (coords v) as [[a2 b2] c2].
    cbn. ring.
  - rewrite dot_R.
    destruct (coords u) as [[a1 b1] c1], (coords v) as [[a2 b2] c2].
    cbn. ring.
  - rewrite !dot_R.
    destruct (coords u) as [[a1 b1] c1], (coords v) as [[a2 b2] c2].
    cbn. ring.
  - unfold scale. destruct (coords v) as [[a2 b2] c2]. cbn.
    do 2 f_equal; ring.
  - intros t. rewrite cross_coords. eexists. split; [reflexivity | ].
    rewrite !dot_R.
    destruct (coords u) as [[a1 b1] c1], (coords v) as [[a2 b2] c2],
             (coords t) as [[a3 b3] c3].
    cbn. ring.
Qed.

(** X15: over the real numbers [distanceTo] always returns and is a
    metric on coordinate triples: it is not negative, zero exactly
    between points of equal coordinates, and satisfies the triangle
    inequality. *)
Theorem distanceTo_is_a_metric :
  forall p q r : Vector3d R,
    exists dpq dqr dpr : R,
      distanceTo p q = Ok dpq /\
      distanceTo q r = Ok dqr /\
      distanceTo p r = Ok dpr /\
      (0 <= dpq)%R /\
      (dpq = 0%R <-> coords p = coords q) /\
      distanceTo p p = Ok 0%R /\
      (dpr <= dpq + dqr)%R.
Proof.
  intros p q r. unfold distanceTo. rewrite !sub_vector. cbn [bind].
  rewrite !length_R.
  do 3 eexists.
  split; [reflexivity | split; [reflexivity | split; [reflexivity | ]]].
  split; [apply norm_nonneg | split; [ | split]].
  - rewrite norm_zero, add_vector_R.
    destruct p as [kp [[a b] c] xp yp zp], q as [kq [[a' b'] c'] xq yq zq].
    cbn. split.
    + intros [= H1 H2 H3]. f_equal; [f_equal | ]; lra.
    + intros [= -> -> ->]. f_equal; [f_equal | ]; ring.
  - f_equal. apply norm_zero. rewrite add_vector_R.
    destruct p as [kp [[a b] c] xp yp zp]. cbn. f_equal; [f_equal | ]; ring.
  - pose proof (norm_add_vector (add_vector q (scale p (-1)))
                                (add_vector r (scale q (-1)))) as Ht.
    assert (Hn : norm (add_vector r (scale p (-1))) =
                 norm (add_vector (add_vector q (scale p (-1)))
                                  (add_vector r (scale q (-1))))).
    { unfold norm. f_equal. rewrite !add_vector_R. unfold norm2.
      destruct p as [kp [[a b] c] xp yp zp], q as [kq [[a' b'] c'] xq yq zq],
               r as [kr [[a'' b''] c''] xr yr zr].
      cbn. ring. }
    change (of_int (-1)) with (-1)%R.
    rewrite Hn. lra.
Qed.

(** X16: over the real numbers [p.vectorTo(q)] is a [Vector3d] that
    translates [p] onto [q] ([p + p.vectorTo(q)] has the coordinates of
    [q]); its length is [p.distanceTo(q)], and [p.vectorTo(p)] is the
    zero vector. *)
Theorem vectorTo_translates :
  forall p q : Vector3d R,
    exists (w : Vector3d R) (d : R),
      vectorTo p q = Ok (VVec w) /\
      cls w = CVector3d /\
      coords (add_vector p w) = coords q /\
      distanceTo p q = Ok d /\
      length w = Ok d /\
      (exists z, vectorTo p p = Ok (VVec z) /\ coords z = (0, 0, 0)%R).
Proof.
  intros p q. unfold vectorTo, distanceTo. rewrite !sub_vector. cbn [bind].
  rewrite !length_R.
  do 2 eexists.
  split; [reflexivity | ].
  destruct p as [kp [[a b] c] xp yp zp], q as [kq [[a' b'] c'] xq yq zq].
  split; [reflexivity | ].
  split; [ | split; [reflexivity | split; [apply length_R | ]]].
  - rewrite !add_vector_R. cbn. f_equal; [f_equal | ]; ring.
  - eexists. split; [reflexivity | ]. rewrite add_vector_R.
    cbn. f_equal; [f_equal | ]; ring.
Qed.
End RealLaws.

(* ------------------------------------------------------------------ *)
(** ** More on PointSet: failures, positions, copies, a second assignment *)
(* ------------------------------------------------------------------ *)

Section PointSetMore.
Context {num : Type} `{!PyEq num} `{!PyHash num}.

(** A sequence with fewer than three items cannot be read. *)
Lemma point_of_None (val : pointlike num) :
  point_of val = None <->
  exists l, val = PSeq l /\ (List.length l < 3)%nat.
Proof.
  destruct val as [v | l]; unfold point_of.
  - destruct (coords v) as [[a b] c]. split; [discriminate | ].
    intros [l [Hl _]]. discriminate.
  - destruct l as [ | a [ | b [ | c l]]]; cbn [List.length].
    + split; [intros _; eexists; split; [reflexivity | cbn; lia] | reflexivity].
    + split; [intros _; eexists; split; [reflexivity | cbn; lia] | reflexivity].
    + split; [intros _; eexists; split; [reflexivity | cbn; lia] | reflexivity].
    + split; [discriminate | ].
      intros [l' [[= <-] Hlen]]. cbn in Hlen. lia.
Qed.

Lemma to_point_unreadable (val : pointlike num) :
  point_of val = None -> to_point val = Raise IndexError.
Proof.
  destruct val as [v | l]; unfold point_of, to_point.
  - destruct (coords v) as [[a b] c]. discriminate.
  - destruct l as [ | a [ | b [ | c l]]]; try discriminate; reflexivity.
Qed.

Lemma points_of_None (values : list (pointlike num)) :
  points_of values = None <->
  exists l, In (PSeq l) values /\ (List.length l < 3)%nat.
Proof.
  induction values as [ | val rest IH]; cbn [points_of].
  - split; [discriminate | intros [l [[] _]]].
  - destruct (point_of val) as [p | ] eqn:Hp.
    + destruct (points_of rest) as [ps | ].
      * split; [discriminate | ].
        intros [l [[Hl | Hl] Hlen]].
        -- assert (Hn : point_of val = None)
             by (apply point_of_None; exists l; split; [congruence | exact Hlen]).
           congruence.
        -- destruct IH as [_ IH]. discriminate IH.
           exists l. split; assumption.
      * split; [intros _ | reflexivity].
        destruct IH as [IH _]. destruct (IH eq_refl) as [l [Hl Hlen]].
        exists l. split; [right; exact Hl | exact Hlen].
    + split; [intros _ | reflexivity].
      apply point_of_None in Hp. destruct Hp as [l [-> Hlen]].
      exists l. split; [left; reflexivity | exact Hlen].
Qed.

Lemma points_loop_unreadable (values : list (pointlike num)) :
  forall (self : PointSet num) (next i : nat),
    points_of values = None ->
    points_loop self next i values = Raise IndexError.
Proof.
  induction values as [ | val rest IH]; cbn [points_of points_loop];
    intros self next i Hnone; [discriminate | ].
  destruct (point_of val) as [p | ] eqn:Hp.
  - rewrite (to_point_readable val Hp). cbn [bind].
    apply IH. destruct (points_of rest); [discriminate | reflexivity].
  - rewrite (to_point_unreadable val Hp). reflexivity.
Qed.

Lemma points_of_Some (values : list (pointlike num)) :
  (forall l, In (PSeq l) values -> (3 <= List.length l)%nat) ->
  exists pts, points_of values = Some pts.
Proof.
  intros Hall. destruct (points_of values) as [pts | ] eqn:Hpts.
  - exists pts. reflexivity.
  - apply points_of_None in Hpts. destruct Hpts as [l [Hin Hlen]].
    specialize (Hall l Hin). lia.
Qed.

(** Every point the setter creates is a [Point3d] built from its own
    coordinates. *)
Lemma point_of_shape (val : pointlike num) (p : Vector3d num) :
  point_of val = Some p ->
  p = (let '(a, b, c) := coords p in Point3d_init a b c).
Proof.
  destruct val as [v | l]; unfold point_of.
  - destruct (coords v) as [[a b] c]. intros [= <-]. reflexivity.
  - destruct l as [ | a [ | b [ | c l]]]; try discriminate.
    intros [= <-]. reflexivity.
Qed.

Lemma points_of_shape (values : list (pointlike num)) :
  forall pts, points_of values = Some pts ->
    forall p, In p pts ->
      p = (let '(a, b, c) := coords p in Point3d_init a b c).
Proof.
  induction values as [ | val rest IH]; cbn [points_of]; intros pts Hpts p Hin.
  - injection Hpts as <-. destruct Hin.
  - destruct (point_of val) as [q | ] eqn:Hq; [ | discriminate].
    destruct (points_of rest) as [ps | ]; [ | discriminate].
    injection Hpts as <-. destruct Hin as [<- | Hin].
    + eapply point_of_shape; eassumption.
    + eapply IH; [reflexivity | exact Hin].
Qed.

(** The getter re-creates the stored points at new addresses. *)
Lemma points_getter_allocated (pts : list (Vector3d num)) :
  (forall p, In p pts ->
     p = (let '(a, b, c) := coords p in Point3d_init a b c)) ->
  forall next now,
    points_getter (allocated next pts) now =
      (allocated now pts, (now + List.length pts)%nat).
Proof.
  induction pts as [ | p pts IH]; intros Hshape next now; cbn.
  - rewrite Nat.add_0_r. reflexivity.
  - rewrite (IH (fun q Hq => Hshape q (or_intror Hq)) (S next) (S now)).
    pose proof (Hshape p (or_introl eq_refl)) as Hp.
    destruct (coords p) as [[a b] c]. rewrite <- Hp.
    f_equal. lia.
Qed.

Lemma allocated_addresses (pts : list (Vector3d num)) :
  forall next, map fst (allocated next pts) = seq next (List.length pts).
Proof.
  induction pts as [ | p pts IH]; intros next; cbn; [reflexivity | ].
  rewrite IH. reflexivity.
Qed.

Lemma allocated_In (pts : list (Vector3d num)) :
  forall next a p,
    In (a, p) (allocated next pts) ->
    (next <= a < next + List.length pts)%nat /\ In p pts.
Proof.
  induction pts as [ | q pts IH]; intros next a p; cbn; [intros [] | ].
  intros [[= <- <-] | Hin].
  - split; [lia | left; reflexivity].
  - destruct (IH _ _ _ Hin) as [Ha Hp]. split; [lia | right; exact Hp].
Qed.

(** A lookup skips a prefix of the dict that holds no matching key. *)
Lemma dict_getitem_app_miss (d1 d2 : pydict num) (k : ckey num) :
  (forall k' v', In (k', v') d1 -> key_match k' k = false) ->
  dict_getitem (d1 ++ d2) k = dict_getitem d2 k.
Proof.
  induction d1 as [ | [k' v'] d1 IH]; cbn; intros Hmiss; [reflexivity | ].
  rewrite (Hmiss k' v') by (left; reflexivity).
  apply IH. intros k'' v'' Hin. apply (Hmiss k'' v''). right. exact Hin.
Qed.

Lemma numbered_keys_below (pts : list (Vector3d num)) (next i : nat) :
  keys_below (next + List.length pts) (numbered next i pts).
Proof.
  intros k v Hin.
  destruct (numbered_keys _ _ _ _ _ Hin) as (a & o & -> & Ha).
  exists a, o. split; [reflexivity | lia].
Qed.
End PointSetMore.

(** No point has the coordinates [t] exactly when [first_index] finds
    nothing. *)
Lemma first_index_None (t : list Z) (pts : list (Vector3d Z)) :
  first_index t pts = None <-> ~ In t (map items pts).
Proof.
  induction pts as [ | p pts IH]; cbn.
  - split; [intros _ [] | reflexivity].
  - destruct (list_eq_dec Z.eq_dec (items p) t) as [Heq | Hneq].
    + split; [discriminate | intros Hn; exfalso; apply Hn; left; exact Heq].
    + destruct (first_index t pts) as [j | ]; cbn.
      * split; [discriminate | ].
        intros Hn. exfalso. destruct IH as [_ IH].
        assert (Hnot : ~ In t (map items pts)) by tauto.
        specialize (IH Hnot). discriminate.
      * split; [ | reflexivity].
        intros _ [Heq | Hin]; [contradiction | ].
        destruct IH as [IH _]. exact (IH eq_refl Hin).
Qed.

(** With pairwise distinct coordinates every point is the first with
    its coordinates. *)
Lemma first_index_NoDup (pts : list (Vector3d Z)) :
  NoDup (map items pts) ->
  forall j p, nth_error pts j = Some p -> first_index (items p) pts = Some j.
Proof.
  induction pts as [ | q pts IH]; intros Hnd [ | j] p; cbn; try discriminate.
  - intros [= ->].
    destruct (list_eq_dec Z.eq_dec (items p) (items p)); [reflexivity | congruence].
  - intros Hj. inversion Hnd as [ | t ts Hnotin Hnd']; subst.
    destruct (list_eq_dec Z.eq_dec (items q) (items p)) as [Heq | Hneq].
    + exfalso. apply Hnotin. rewrite Heq. apply in_map.
      eapply nth_error_In; eassumption.
    + rewrite (IH Hnd' j p Hj). reflexivity.
Qed.

(** X17: the constructor reads exactly the items [0], [1], [2] of
    every input that is not a vector.  It raises [IndexError] exactly
    when some input sequence has fewer than three items; otherwise it
    returns a set with one point per input.  Items after the third are
    ignored. *)
Theorem PointSet_init_reads_three_items :
  forall (num : Type) (E : PyEq num) (H : PyHash num)
         (values : list (pointlike num)) (next : nat),
    (PointSet_init (Some values) next = Raise IndexError <->
     exists l, In (PSeq l) values /\ (List.length l < 3)%nat) /\
    ((exists ps, PointSet_init (Some values) next
                   = Ok (ps, (next + List.length values)%nat) /\
                 List.length (pointList ps) = List.length values) <->
     forall l, In (PSeq l) values -> (3 <= List.length l)%nat) /\
    (forall (a b c : num) (more : list num),
       PointSet_init (Some (PSeq (a :: b :: c :: more) :: values)) next =
       PointSet_init (Some (PSeq [a; b; c] :: values)) next).
Proof.
  intros num E H values next.
  assert (Hbad : points_of values = None ->
                 PointSet_init (Some values) next = Raise IndexError).
  { intros Hnone. unfold PointSet_init.
    destruct values as [ | val rest]; [discriminate | ].
    apply points_loop_unreadable. exact Hnone. }
  assert (Hgood : forall pts, points_of values = Some pts ->
            PointSet_init (Some values) next =
              Ok ({| pointList := allocated next pts;
                     pointDict := numbered next 0 pts |},
                  (next + List.length values)%nat)).
  { intros pts Hpts. rewrite (PointSet_init_spec values next Hpts).
    rewrite (points_of_length values Hpts). reflexivity. }
  split; [ | split].
  - rewrite <- points_of_None. split; [ | exact Hbad].
    intros Hraise. destruct (points_of values) as [pts | ] eqn:Hpts;
      [ | reflexivity].
    rewrite (Hgood pts eq_refl) in Hraise. discriminate.
  - split.
    + intros [ps [Hinit _]] l Hin.
      destruct (Nat.lt_ge_cases (List.length l) 3) as [Hlt | Hge]; [ | exact Hge].
      assert (Hnone : points_of values = None)
        by (apply points_of_None; exists l; split; assumption).
      rewrite (Hbad Hnone) in Hinit. discriminate.
    + intros Hall. destruct (points_of_Some values Hall) as [pts Hpts].
      eexists. split; [apply (Hgood pts Hpts) | ].
      cbn [pointList]. rewrite allocated_length.
      apply (points_of_length values Hpts).
  - intros a b c more. unfold PointSet_init, points_setter.
    cbn [points_loop].
    rewrite (@to_point_readable _ (PSeq (a :: b :: c :: more))
               (Point3d_init a b c) eq_refl).
    rewrite (@to_point_readable _ (PSeq [a; b; c])
               (Point3d_init a b c) eq_refl).
    reflexivity.
Qed.

(** X18: [PointSet()] and [PointSet([])] are the same empty set and
    allocate nothing.  On it every int key raises [IndexError], every
    tuple or instance key raises [KeyError], every slice with a non-zero
    step returns the empty list, and [points] is empty. *)
Theorem PointSet_empty :
  forall (num : Type) (E : PyEq num) (H : PyHash num) (next : nat),
    let empty : PointSet num := {| pointList := []; pointDict := [] |} in
    PointSet_init None next = Ok (empty, next) /\
    PointSet_init (Some []) next = Ok (empty, next) /\
    (forall i : Z, PointSet_getitem empty (KInt i) = Raise IndexError) /\
    (forall t : list num, PointSet_getitem empty (KTuple t) = Raise KeyError) /\
    (forall (a : nat) (o : Vector3d num),
       PointSet_getitem empty (KObj a o) = Raise KeyError) /\
    (forall s : slice,
       slice_step s <> Some 0%Z ->
       PointSet_getitem empty (KSlice s) = Ok (FPoints [])) /\
    points_getter (pointList empty) next = ([], next).
Proof.
  intros num E H next empty.
  split; [reflexivity | split; [reflexivity | ]].
  split; [ | split; [reflexivity | split; [reflexivity | split; [ | reflexivity]]]].
  - intros i. unfold PointSet_getitem. cbn [pointList empty].
    rewrite (proj2 (seq_index_raises (@nil (nat * Vector3d num)) i));
      [reflexivity | cbn; lia].
  - intros s Hs. unfold PointSet_getitem. cbn [pointList empty].
    destruct (@seq_slice_returns _ (@nil (nat * Vector3d num)) s Hs)
      as [r [Hr [Hlen _]]].
    rewrite Hr. destruct r; [reflexivity | cbn in Hlen; lia].
Qed.

(** X19: indexing any [PointSet] by position.  An int key raises
    [IndexError] exactly outside [-n .. n - 1], where [n] is the number
    of points; inside, it returns the point at that position of
    [pointList], a negative key counting from the end.  A slice with a
    non-zero step never raises and returns points of [pointList]; a zero
    step raises [ValueError]; a string key raises [TypeError]. *)
Theorem PointSet_getitem_positions :
  forall (num : Type) (E : PyEq num) (H : PyHash num)
         (ps : PointSet num) (i : Z) (s : slice) (name : string),
    let n := Z.of_nat (List.length (pointList ps)) in
    (PointSet_getitem ps (KInt i) = Raise IndexError <->
     (i < - n \/ n <= i)%Z) /\
    ((- n <= i < n)%Z ->
     exists p, PointSet_getitem ps (KInt i) = Ok (FPoint p) /\
               nth_error (pointList ps) (Z.to_nat (i mod n)) = Some p) /\
    ((- n <= i < 0)%Z ->
     PointSet_getitem ps (KInt i) = PointSet_getitem ps (KInt (i + n))) /\
    (slice_step s = Some 0%Z ->
     PointSet_getitem ps (KSlice s) = Raise ValueError) /\
    (slice_step s <> Some 0%Z ->
     exists l, PointSet_getitem ps (KSlice s) = Ok (FPoints l) /\
               (List.length l <= List.length (pointList ps))%nat /\
               forall p, In p l -> In p (pointList ps)) /\
    PointSet_getitem ps (KStr name) = Raise TypeError.
Proof.
  intros num E H ps i s name n. subst n. unfold PointSet_getitem.
  split; [ | split; [ | split; [ | split; [ | split; [ | reflexivity]]]]].
  - rewrite <- (seq_index_raises (pointList ps) i).
    destruct (seq_index (pointList ps) i); cbn [bind]; split; congruence.
  - intros Hi.
    destruct (@seq_index_in_range _ (pointList ps) i Hi) as [p [Hp [_ Hnth]]].
    exists p. rewrite Hp. split; [reflexivity | exact Hnth].
  - intros Hi. rewrite (@seq_index_negative _ (pointList ps) i Hi).
    reflexivity.
  - intros Hs. rewrite seq_slice_zero_step by exact Hs. reflexivity.
  - intros Hs.
    destruct (@seq_slice_returns _ (pointList ps) s Hs) as [l [Hl [Hlen Hin]]].
    exists l. rewrite Hl. split; [reflexivity | split; assumption].
Qed.

(** X20: with int coordinates that are pairwise distinct, looking a
    coordinate tuple up inverts indexing: [ps[tuple(ps[j])]] is [j]; a
    tuple that is the coordinates of no point raises [KeyError]. *)
Theorem PointSet_tuple_lookup_inverts_indexing :
  forall (values : list (pointlike Z)) (pts : list (Vector3d Z)) (next : nat),
    points_of values = Some pts ->
    NoDup (map items pts) ->
    exists ps,
      PointSet_init (Some values) next
        = Ok (ps, (next + List.length values)%nat) /\
      (forall (j : nat) (p : Vector3d Z),
         nth_error pts j = Some p ->
         PointSet_getitem ps (KInt (Z.of_nat j))
           = Ok (FPoint ((next + j)%nat, p)) /\
         PointSet_getitem ps (KTuple (items p)) = Ok (FIndex j)) /\
      (forall t : list Z,
         ~ In t (map items pts) ->
         PointSet_getitem ps (KTuple t) = Raise KeyError).
Proof.
  intros values pts next Hpts Hnd.
  exists {| pointList := allocated next pts; pointDict := numbered next 0 pts |}.
  rewrite (PointSet_init_spec values next Hpts).
  rewrite (points_of_length values Hpts).
  split; [reflexivity | split].
  - intros j p Hj. unfold PointSet_getitem. cbn [pointList pointDict]. split.
    + rewrite (seq_index_nat _ j (allocated_nth pts next j Hj)). reflexivity.
    + rewrite numbered_lookup_tuple, (@first_index_NoDup pts Hnd j p Hj).
      reflexivity.
  - intros t Ht. unfold PointSet_getitem. cbn [pointDict].
    rewrite numbered_lookup_tuple, (proj2 (first_index_None t pts) Ht).
    reflexivity.
Qed.

(** Three points with distinct coordinates: [(0, 2, 5)] finds index
    [2], and the pair [(0, 2)] is no key. *)
Lemma PointSet_tuple_lookup_example :
  let values := [PSeq [0; 0; 0]; PSeq [1; 0; 0]; PSeq [0; 2; 5]]%Z in
  let pts := [Point3d_init 0 0 0; Point3d_init 1 0 0; Point3d_init 0 2 5]%Z in
  points_of values = Some pts /\
  NoDup (map items pts) /\
  exists ps,
    PointSet_init (Some values) 0 = Ok (ps, 3%nat) /\
    PointSet_getitem ps (KTuple [0; 2; 5]%Z) = Ok (FIndex 2) /\
    PointSet_getitem ps (KTuple [0; 2]%Z) = Raise KeyError.
Proof.
  assert (Hnd : NoDup (map items
            [Point3d_init 0 0 0; Point3d_init 1 0 0; Point3d_init 0 2 5]%Z)).
  { cbn. repeat constructor; cbn; intuition discriminate. }
  split; [reflexivity | split; [exact Hnd | ]].
  destruct (@PointSet_tuple_lookup_inverts_indexing
              [PSeq [0; 0; 0]; PSeq [1; 0; 0]; PSeq [0; 2; 5]]%Z
              [Point3d_init 0 0 0; Point3d_init 1 0 0; Point3d_init 0 2 5]%Z
              0%nat eq_refl Hnd)
    as (ps & Hinit & Hround & Hmiss).
  exists ps. split; [exact Hinit | split].
  - exact (proj2 (Hround 2%nat (Point3d_init 0 2 5)%Z eq_refl)).
  - apply Hmiss. cbn. intuition discriminate.
Defined.

(** X21: the getter [points] returns new objects on every access:
    as many as there are points, with the classes and coordinates of the
    stored ones, in the same order, at addresses not used before.  None
    of them is a key of the set: [ps[p]] raises [KeyError] for every [p]
    in [ps.points]. *)
Theorem points_getter_returns_fresh_copies :
  forall (num : Type) (E : PyEq num) (H : PyHash num)
         (values : list (pointlike num)) (pts : list (Vector3d num))
         (next : nat),
    points_of values = Some pts ->
    exists (ps : PointSet num) (next' : nat),
      PointSet_init (Some values) next = Ok (ps, next') /\
      forall now : nat,
        (next' <= now)%nat ->
        exists copies,
          points_getter (pointList ps) now
            = (copies, (now + List.length values)%nat) /\
          map snd copies = map snd (pointList ps) /\
          map fst copies = seq now (List.length values) /\
          (forall (a : nat) (p : Vector3d num),
             In (a, p) copies ->
             cls p = CPoint3d /\
             PointSet_getitem ps (KObj a p) = Raise KeyError).
Proof.
  intros num E H values pts next Hpts.
  exists {| pointList := allocated next pts; pointDict := numbered next 0 pts |},
         (next + List.length pts)%nat.
  split; [apply (PointSet_init_spec values next Hpts) | ].
  intros now Hnow. exists (allocated now pts). cbn [pointList].
  pose proof (points_of_length values Hpts) as Hlen.
  pose proof (points_of_shape values Hpts) as Hshape.
  rewrite (points_getter_allocated pts Hshape next now).
  rewrite !allocated_contents, allocated_addresses, Hlen.
  split; [reflexivity | split; [reflexivity | split; [reflexivity | ]]].
  intros a p Hin. apply allocated_In in Hin. destruct Hin as [Ha Hp].
  split.
  - rewrite (Hshape p Hp). destruct (coords p) as [[x0 y0] z0]. reflexivity.
  - unfold PointSet_getitem. cbn [pointDict].
    rewrite numbered_lookup_foreign by lia. reflexivity.
Qed.

(** A set of two points built at addresses [0] and [1]: [points]
    returns copies at addresses [2] and [3]; the copy of the first
    point is not a key, the stored first point is. *)
Lemma points_getter_example :
  let values := [PSeq [1; 2; 3]; PVec (Vector3d_init 4 5 6)]%Z in
  points_of values = Some [Point3d_init 1 2 3; Point3d_init 4 5 6]%Z /\
  exists ps,
    PointSet_init (Some values) 0 = Ok (ps, 2%nat) /\
    points_getter (pointList ps) 2
      = ([(2%nat, Point3d_init 1 2 3); (3%nat, Point3d_init 4 5 6)]%Z, 4%nat) /\
    PointSet_getitem ps (KObj 2 (Point3d_init 1 2 3)%Z) = Raise KeyError /\
    PointSet_getitem ps (KObj 0 (Point3d_init 1 2 3)%Z) = Ok (FIndex 0).
Proof.
  split; [reflexivity | ].
  destruct (@points_getter_returns_fresh_copies Z _ _
              [PSeq [1; 2; 3]; PVec (Vector3d_init 4 5 6)]%Z
              [Point3d_init 1 2 3; Point3d_init 4 5 6]%Z 0%nat eq_refl)
    as (ps & next' & Hinit & Hcopies).
  exists ps.
  assert (Hps : ps = {| pointList := [(0%nat, Point3d_init 1 2 3);
                                      (1%nat, Point3d_init 4 5 6)]%Z;
                        pointDict := [(CObj 0 (Point3d_init 1 2 3), 0%nat);
                                      (CObj 1 (Point3d_init 4 5 6), 1%nat)]%Z |}
                /\ next' = 2%nat).
  { cbv in Hinit. injection Hinit as <- <-. split; reflexivity. }
  destruct Hps as [Hps ->].
  split; [rewrite Hps; reflexivity | ].
  destruct (Hcopies 2%nat (le_n 2)) as (copies & Hget & _ & _ & Hmiss).
  split; [ | split].
  - rewrite Hps. reflexivity.
  - apply Hmiss. rewrite Hps in Hget. cbn in Hget.
    injection Hget as <-. left. reflexivity.
  - rewrite Hps. vm_compute. reflexivity.
Defined.

(** X22: assigning to [points] on a set that already holds points
    appends the new points to [pointList] but numbers them from [0]
    again in [pointDict] ([enumerate] restarts): the [j]-th new point
    sits at position [len(first) + j] and is mapped to index [j].  The
    points of the first assignment keep their positions and indices. *)
Theorem points_setter_appends_and_restarts_indices :
  forall (num : Type) (E : PyEq num) (H : PyHash num)
         (first second : list (pointlike num))
         (pts1 pts2 : list (Vector3d num)) (next : nat),
    points_of first = Some pts1 ->
    points_of second = Some pts2 ->
    exists (ps1 ps2 : PointSet num) (next1 : nat),
      PointSet_init (Some first) next = Ok (ps1, next1) /\
      points_setter ps1 next1 second
        = Ok (ps2, (next1 + List.length second)%nat) /\
      map snd (pointList ps2) = pts1 ++ pts2 /\
      (forall (j : nat) (p : Vector3d num),
         nth_error pts2 j = Some p ->
         PointSet_getitem ps2 (KInt (Z.of_nat (List.length first + j)))
           = Ok (FPoint ((next1 + j)%nat, p)) /\
         PointSet_getitem ps2 (KObj (next1 + j) p) = Ok (FIndex j)) /\
      (forall (j : nat) (p : Vector3d num),
         nth_error pts1 j = Some p ->
         PointSet_getitem ps2 (KInt (Z.of_nat j))
           = Ok (FPoint ((next + j)%nat, p)) /\
         PointSet_getitem ps2 (KObj (next + j) p) = Ok (FIndex j)).
Proof.
  intros num E H first second pts1 pts2 next Hpts1 Hpts2.
  pose proof (points_of_length first Hpts1) as Hlen1.
  pose proof (points_of_length second Hpts2) as Hlen2.
  exists {| pointList := allocated next pts1;
            pointDict := numbered next 0 pts1 |},
         {| pointList := allocated next pts1
                           ++ allocated (next + List.length pts1) pts2;
            pointDict := numbered next 0 pts1
                           ++ numbered (next + List.length pts1) 0 pts2 |},
         (next + List.length pts1)%nat.
  split; [apply (PointSet_init_spec first next Hpts1) | ].
  split.
  { unfold points_setter.
    rewrite (@points_loop_spec _ _ _ second pts2 _ _ 0 Hpts2).
    - cbn [pointList pointDict]. rewrite Hlen2. reflexivity.
    - cbn [pointDict]. apply numbered_keys_below. }
  cbn [pointList pointDict].
  split; [rewrite map_app, !allocated_contents; reflexivity | ].
  unfold PointSet_getitem. cbn [pointList pointDict].
  split.
  - intros j p Hj. split.
    + rewrite <- Hlen1.
      rewrite (@seq_index_nat _ _ (List.length pts1 + j)
                 ((next + List.length pts1 + j)%nat, p)); [reflexivity | ].
      rewrite nth_error_app2 by (rewrite allocated_length; lia).
      rewrite allocated_length.
      replace (List.length pts1 + j - List.length pts1)%nat with j by lia.
      apply allocated_nth. exact Hj.
    + rewrite dict_getitem_app_miss.
      * rewrite (numbered_lookup_self pts2 _ 0 j Hj). reflexivity.
      * intros k' v' Hin.
        destruct (numbered_keys _ _ _ _ _ Hin) as (a' & o' & -> & Ha').
        destruct (key_match (CObj a' o') (CObj (next + List.length pts1 + j) p))
          eqn:Hm; [ | reflexivity].
        apply key_match_instances in Hm. lia.
  - intros j p Hj. split.
    + rewrite (@seq_index_nat _ _ j ((next + j)%nat, p)); [reflexivity | ].
      rewrite nth_error_app1
        by (rewrite allocated_length; apply nth_error_Some; congruence).
      apply allocated_nth. exact Hj.
    + assert (Hself : dict_getitem (numbered next 0 pts1) (CObj (next + j) p)
                      = Ok j) by apply (numbered_lookup_self pts1 next 0 j Hj).
      revert Hself. generalize (numbered next 0 pts1) as d1.
      induction d1 as [ | [k' v'] d1 IH]; cbn; [discriminate | ].
      destruct (key_match k' (CObj (next + j) p)).
      * intros [= ->]. reflexivity.
      * exact IH.
Qed.

(** Two points, then one more assigned to [points]: the new point is
    at position [2] and is mapped to index [0], as is its coordinate
    tuple; so is [(0, 0, 0)], the first point. *)
Lemma points_setter_second_assignment_example :
  let first := [PSeq [0; 0; 0]; PSeq [1; 0; 0]]%Z in
  let second := [PSeq [5; 5; 5]]%Z in
  points_of first = Some [Point3d_init 0 0 0; Point3d_init 1 0 0]%Z /\
  points_of second = Some [Point3d_init 5 5 5]%Z /\
  exists ps1 ps2 : PointSet Z,
    PointSet_init (Some first) 0 = Ok (ps1, 2%nat) /\
    points_setter ps1 2 second = Ok (ps2, 3%nat) /\
    PointSet_getitem ps2 (KInt 2) = Ok (FPoint (2%nat, Point3d_init 5 5 5)%Z) /\
    PointSet_getitem ps2 (KObj 2 (Point3d_init 5 5 5)%Z) = Ok (FIndex 0) /\
    PointSet_getitem ps2 (KTuple [5; 5; 5]%Z) = Ok (FIndex 0) /\
    PointSet_getitem ps2 (KTuple [0; 0; 0]%Z) = Ok (FIndex 0).
Proof.
  split; [reflexivity | split; [reflexivity | ]].
  destruct (@points_setter_appends_and_restarts_indices Z _ _
              [PSeq [0; 0; 0]; PSeq [1; 0; 0]]%Z [PSeq [5; 5; 5]]%Z
              [Point3d_init 0 0 0; Point3d_init 1 0 0]%Z
              [Point3d_init 5 5 5]%Z 0%nat eq_refl eq_refl)
    as (ps1 & ps2 & next1 & Hinit & Hset & _ & Hnew & _).
  cbv in Hinit. injection Hinit as <- <-.
  exists {| pointList := [(0%nat, Point3d_init 0 0 0);
                          (1%nat, Point3d_init 1 0 0)]%Z;
            pointDict := [(CObj 0 (Point3d_init 0 0 0), 0%nat);
                          (CObj 1 (Point3d_init 1 0 0), 1%nat)]%Z |}, ps2.
  split; [reflexivity | split; [exact Hset | ]].
  destruct (Hnew 0%nat (Point3d_init 5 5 5)%Z eq_refl) as [Hint Hobj].
  split; [exact Hint | split; [exact Hobj | ]].
  cbv in Hset. injection Hset as <-.
  split; vm_compute; reflexivity.
Defined.

(* ------------------------------------------------------------------ *)
(** ** binary64: commutative addition, NaN, the module constants *)
(* ------------------------------------------------------------------ *)

Section FloatEdges.
Local Open Scope float_scope.

(** Addition of binary64 floats is commutative, bit for bit. *)
Lemma float_add_comm (a b : float) : a + b = b + a.
Proof.
  apply Prim2SF_inj. rewrite !add_spec. unfold SF64add, SFadd.
  destruct (Prim2SF a) as [[ | ] | [ | ] | | sa ma ea],
           (Prim2SF b) as [[ | ] | [ | ] | | sb mb eb];
    try reflexivity.
  cbv zeta. change IntDef.Z.min with Z.min.
  rewrite (Z.min_comm ea eb), Z.add_comm. reflexivity.
Qed.

(** [sum((a, b))] and [sum((b, a))] are the same float. *)
Lemma py_sum_pair_comm (a b : float) : py_sum [a; b] = py_sum [b; a].
Proof.
  unfold py_sum. cbn [fold_left num_add of_int PyReal_float].
  change (float_of_Z 0) with 0.
  apply Prim2SF_inj. rewrite !add_spec.
  change (Prim2SF 0) with (S754_zero false).
  unfold SF64add, SFadd.
  destruct (Prim2SF a) as [[ | ] | [ | ] | | sa ma ea],
           (Prim2SF b) as [[ | ] | [ | ] | | sb mb eb];
    try reflexivity.
  cbv zeta. change IntDef.Z.min with Z.min.
  rewrite (Z.min_comm ea eb), Z.add_comm. reflexivity.
Qed.

Lemma float_add_nan_l (x : float) : nan + x = nan.
Proof.
  apply Prim2SF_inj. rewrite add_spec. change (Prim2SF nan) with S754_nan.
  reflexivity.
Qed.

Lemma float_add_nan_r (x : float) : x + nan = nan.
Proof. rewrite float_add_comm. apply float_add_nan_l. Qed.

Lemma float_mul_nan_l (x : float) : nan * x = nan.
Proof.
  apply Prim2SF_inj. rewrite mul_spec. change (Prim2SF nan) with S754_nan.
  reflexivity.
Qed.

Lemma float_mul_nan_r (x : float) : x * nan = nan.
Proof. rewrite float_mul_comm. apply float_mul_nan_l. Qed.

(** [n ** 2] on a float returns the rounded square or raises
    [OverflowError]. *)
Lemma float_pow2_cases (x : float) :
  float_pow2 x = Ok (x * x) \/ float_pow2 x = Raise OverflowError.
Proof.
  unfold float_pow2.
  destruct (is_infinity (x * x) && negb (is_infinity x)); [right | left];
    reflexivity.
Qed.

Lemma float_sum_nan (x y z : float) :
  x = nan \/ y = nan \/ z = nan -> py_sum [x; y; z] = nan.
Proof.
  unfold py_sum. cbn [fold_left num_add of_int PyReal_float].
  intros [-> | [-> | ->]];
    rewrite ?float_add_nan_r, ?float_add_nan_l; reflexivity.
Qed.
End FloatEdges.

(** X23: in binary64, vector addition is commutative bit for bit,
    signed zeros, infinities and NaN included, because float addition
    is.  It is not associative: [(a + b) + c] and [a + (b + c)] differ
    for the first coordinates [0.1], [0.2], [0.3]. *)
Theorem float_vector_addition_commutes :
  forall u v : Vector3d float,
    add_vector u v = add_vector v u /\
    __add__ u (VVec v) = __add__ v (VVec u) /\
    (forall a b : float, (a + b = b + a)%float) /\
    (let a := Vector3d_init 0.1%float 0%float 0%float in
     let b := Vector3d_init 0.2%float 0%float 0%float in
     let c := Vector3d_init 0.3%float 0%float 0%float in
     add_vector (add_vector a b) c <> add_vector a (add_vector b c)).
Proof.
  intros u v.
  assert (Hc : add_vector u v = add_vector v u).
  { unfold add_vector.
    destruct (coords u) as [[a b] c], (coords v) as [[a' b'] c'].
    rewrite (py_sum_pair_comm a a'), (py_sum_pair_comm b b'),
            (py_sum_pair_comm c c').
    reflexivity. }
  split; [exact Hc | split; [ | split]].
  - cbn [__add__]. rewrite Hc. reflexivity.
  - exact float_add_comm.
  - intros a b c Heq.
    apply (f_equal (fun w : Vector3d float =>
                      let '(a, _, _) := coords w in PrimFloat.eqb a 0.6)) in Heq.
    vm_compute in Heq. discriminate Heq.
Qed.

(** X24: in binary64 a NaN coordinate never raises by itself, it
    spreads: both dot products with any vector are NaN, and unless the
    square of another coordinate overflows (then [length] and
    [normalized] raise [OverflowError]), [length] returns NaN and
    [normalized] returns the vector of three NaN; [isRoughlyZero(nan)]
    is false, so [ZeroDivisionError] is not raised. *)
Theorem nan_coordinate_propagates :
  forall (v w : Vector3d float) (a b c : float),
    coords v = (a, b, c) ->
    a = nan \/ b = nan \/ c = nan ->
    dot v w = nan /\
    dot w v = nan /\
    isRoughlyZero nan = false /\
    ((sum_squares v = Raise OverflowError /\
      length v = Raise OverflowError /\
      normalized v = Raise OverflowError) \/
     (sum_squares v = Ok nan /\
      length v = Ok nan /\
      normalized v = Ok (Vector3d_init nan nan nan))).
Proof.
  intros v w a b c Hv Hnan.
  assert (Hdot : dot v w = nan).
  { unfold dot. rewrite Hv. destruct (coords w) as [[a' b'] c'].
    apply float_sum_nan. cbn [num_mul PyReal_float].
    destruct Hnan as [-> | [-> | ->]];
      rewrite float_mul_nan_l; tauto. }
  split; [exact Hdot | ].
  split; [rewrite dot_comm_float; exact Hdot | ].
  split; [vm_compute; reflexivity | ].
  unfold normalized, length, sum_squares. rewrite Hv.
  cbn [num_pow2 num_sqrt num_div of_int PyReal_float].
  destruct (float_pow2_cases a) as [-> | ->]; [ | left; repeat split].
  destruct (float_pow2_cases b) as [-> | ->]; [ | left; repeat split].
  destruct (float_pow2_cases c) as [-> | ->]; [ | left; repeat split].
  right. cbn [bind].
  assert (Hs : py_sum [(a * a)%float; (b * b)%float; (c * c)%float] = nan).
  { apply float_sum_nan.
    destruct Hnan as [-> | [-> | ->]]; rewrite float_mul_nan_l; tauto. }
  rewrite Hs.
  change (isRoughlyZero nan) with false.
  change (float_math_sqrt nan) with (Ok nan : result float).
  cbn [bind].
  change (float_div (float_of_Z 1) nan) with (Ok nan : result float).
  cbn [bind]. unfold scale. rewrite Hv. cbn [num_mul PyReal_float].
  rewrite !float_mul_nan_r. repeat split.
Qed.

(** [Vector3d(1.0, nan, 2.0)] has length NaN and normalizes to three
    NaN; with [1e200] as first coordinate [length] raises
    [OverflowError]. *)
Lemma nan_coordinate_example :
  let v := Vector3d_init 1%float nan 2%float in
  coords v = (1%float, nan, 2%float) /\
  length v = Ok nan /\
  normalized v = Ok (Vector3d_init nan nan nan) /\
  length (Vector3d_init 1e200%float nan 0%float) = Raise OverflowError.
Proof.
  destruct (@nan_coordinate_propagates
              (Vector3d_init 1%float nan 2%float)
              (Vector3d_init 0%float 0%float 0%float)
              1%float nan 2%float eq_refl (or_intror (or_introl eq_refl)))
    as (_ & _ & _ & [[Hs _] | [_ [Hl Hn]]]).
  - vm_compute in Hs. discriminate Hs.
  - split; [reflexivity | split; [exact Hl | split; [exact Hn | ]]].
    vm_compute. reflexivity.
Defined.

(** X25: the module constants [WorldX], [WorldY], [WorldZ] are, in
    binary64 and exactly, a right-handed orthonormal basis: each has
    length [1.0] and is its own normalization, their dot products are
    [0.0], and the cross product of each two in cyclic order is the
    third. *)
Theorem world_axes_are_orthonormal :
  length WorldX = Ok 1%float /\
  length WorldY = Ok 1%float /\
  length WorldZ = Ok 1%float /\
  dot WorldX WorldY = 0%float /\
  dot WorldY WorldZ = 0%float /\
  dot WorldZ WorldX = 0%float /\
  cross WorldX WorldY = Ok WorldZ /\
  cross WorldY WorldZ = Ok WorldX /\
  cross WorldZ WorldX = Ok WorldY /\
  normalized WorldX = Ok WorldX /\
  normalized WorldY = Ok WorldY /\
  normalized WorldZ = Ok WorldZ.
Proof. repeat split; vm_compute; reflexivity. Qed.

(* ------------------------------------------------------------------ *)
(** ** binary64: what [length] can raise *)
(* ------------------------------------------------------------------ *)

Section FloatLength.
Local Open Scope float_scope.

(** A float that is not below zero: a zero, a positive number,
    [+inf] or NaN. *)
Lemma SF_ltb_zero (s : spec_float) :
  match s with
  | S754_infinity true | S754_finite true _ _ => False
  | _ => True
  end ->
  SFltb s (S754_zero false) = false.
Proof. destruct s as [[ | ] | [ | ] | | [ | ] m e]; intros H; (reflexivity || destruct H). Qed.

Lemma binary_round_aux_sign (m e : Z) (l : location) :
  match binary_round_aux prec emax false m e l with
  | S754_infinity true | S754_finite true _ _ => False
  | _ => True
  end.
Proof.
  unfold binary_round_aux.
  destruct (shr_fexp prec emax m e l) as [mrs' e'].
  destruct (shr_fexp prec emax _ e' loc_Exact) as [mrs'' e''].
  destruct (shr_m mrs'') as [ | p | p]; [exact I | | exact I].
  destruct (e'' <=? emax - prec)%Z; exact I.
Qed.

Lemma binary_round_sign (m : positive) (e : Z) :
  match binary_round prec emax false m e with
  | S754_infinity true | S754_finite true _ _ => False
  | _ => True
  end.
Proof.
  unfold binary_round.
  destruct (shl_align m e (fexp prec emax (Z.pos (digits2_pos m) + e)))
    as [mz ez].
  apply binary_round_aux_sign.
Qed.

Lemma SFmul_self_sign (s : spec_float) :
  match SFmul prec emax s s with
  | S754_infinity true | S754_finite true _ _ => False
  | _ => True
  end.
Proof.
  destruct s as [[ | ] | [ | ] | | sx m e]; try exact I.
  cbn [SFmul]. rewrite xorb_nilpotent. apply binary_round_aux_sign.
Qed.

Lemma SFadd_sign (s t : spec_float) :
  match s with
  | S754_infinity true | S754_finite true _ _ => False
  | _ => True
  end ->
  match t with
  | S754_infinity true | S754_finite true _ _ => False
  | _ => True
  end ->
  match SFadd prec emax s t with
  | S754_infinity true | S754_finite true _ _ => False
  | _ => True
  end.
Proof.
  destruct s as [[ | ] | [ | ] | | [ | ] m e];
    destruct t as [[ | ] | [ | ] | | [ | ] m' e'];
    intros Hs Ht; try exact I; try destruct Hs; try destruct Ht.
  cbn [SFadd cond_Zopp]. cbv zeta.
  change (Z.pos ?p + Z.pos ?q)%Z with (Z.pos (p + q)).
  cbn [binary_normalize]. apply binary_round_sign.
Qed.

Lemma SFsqrt_sign (s : spec_float) :
  match SFsqrt prec emax s with
  | S754_infinity true | S754_finite true _ _ => False
  | _ => True
  end.
Proof.
  destruct s as [[ | ] | [ | ] | | [ | ] m e]; try exact I.
  cbn [SFsqrt].
  destruct (SFsqrt_core_binary prec emax (Z.pos m) e) as [[mz ez] lz].
  apply binary_round_aux_sign.
Qed.

(** The sum of three squares is never below zero. *)
Lemma float_sum_squares_sign (a b c : float) :
  (py_sum [a * a; b * b; c * c] <? 0) = false.
Proof.
  unfold py_sum. cbn [fold_left num_add of_int PyReal_float].
  change (float_of_Z 0) with 0.
  rewrite ltb_spec. change (Prim2SF 0) with (S754_zero false).
  apply SF_ltb_zero. rewrite !add_spec, !mul_spec.
  change (Prim2SF 0) with (S754_zero false).
  repeat apply SFadd_sign; try apply SFmul_self_sign. exact I.
Qed.

Lemma float_sqrt_sign (s : float) : (PrimFloat.sqrt s <? 0) = false.
Proof.
  rewrite ltb_spec. change (Prim2SF 0) with (S754_zero false).
  apply SF_ltb_zero. rewrite sqrt_spec. apply SFsqrt_sign.
Qed.

Lemma float_pow2_raises (x : float) :
  float_pow2 x = Raise OverflowError <->
  is_infinity (x * x) = true /\ is_infinity x = false.
Proof.
  unfold float_pow2.
  destruct (is_infinity (x * x)), (is_infinity x); cbn;
    split; try discriminate; try tauto; intros [H1 H2]; discriminate.
Qed.

Lemma float_pow2_returns (x : float) :
  float_pow2 x <> Raise OverflowError -> float_pow2 x = Ok (x * x).
Proof.
  unfold float_pow2.
  destruct (is_infinity (x * x) && negb (is_infinity x)); congruence.
Qed.
End FloatLength.

(** X26: in binary64 [length] returns a float that is not below zero
    (possibly [inf] or NaN), the square root of the sum of the rounded
    squares, unless the square of a finite coordinate overflows, in
    which case it raises [OverflowError].  It never raises [ValueError]
    (the argument of [math.sqrt] is never negative) nor
    [ZeroDivisionError]. *)
Theorem float_length_returns_or_overflows :
  forall (v : Vector3d float) (a b c : float),
    coords v = (a, b, c) ->
    let overflows (n : float) :=
      is_infinity (n * n) = true /\ is_infinity n = false in
    (overflows a \/ overflows b \/ overflows c ->
     length v = Raise OverflowError) /\
    (~ (overflows a \/ overflows b \/ overflows c) ->
     exists l : float,
       length v = Ok l /\
       l = PrimFloat.sqrt (0 + a * a + b * b + c * c)%float /\
       (l <? 0)%float = false) /\
    length v <> Raise ValueError /\
    length v <> Raise ZeroDivisionError.
Proof.
  intros v a b c Hv overflows.
  assert (Hcases :
    (float_pow2 a = Raise OverflowError \/
     (float_pow2 a = Ok (a * a)%float /\ float_pow2 b = Raise OverflowError) \/
     (float_pow2 a = Ok (a * a)%float /\ float_pow2 b = Ok (b * b)%float /\
      float_pow2 c = Raise OverflowError)) \/
    (float_pow2 a = Ok (a * a)%float /\ float_pow2 b = Ok (b * b)%float /\
     float_pow2 c = Ok (c * c)%float)).
  { destruct (float_pow2_cases a) as [Ha | Ha]; [ | tauto].
    destruct (float_pow2_cases b) as [Hb | Hb]; [ | tauto].
    destruct (float_pow2_cases c) as [Hc | Hc]; tauto. }
  assert (Hraise : overflows a \/ overflows b \/ overflows c ->
                   length v = Raise OverflowError).
  { intros Hover. unfold length, sum_squares. rewrite Hv.
    cbn [num_pow2 PyReal_float].
    destruct Hcases as [[Ha | [[Ha Hb] | [Ha [Hb Hc]]]] | [Ha [Hb Hc]]].
    - rewrite Ha. reflexivity.
    - rewrite Ha, Hb. reflexivity.
    - rewrite Ha, Hb, Hc. reflexivity.
    - exfalso. destruct Hover as [Ho | [Ho | Ho]];
        apply float_pow2_raises in Ho; congruence. }
  assert (Hret : ~ (overflows a \/ overflows b \/ overflows c) ->
                 exists l : float,
                   length v = Ok l /\
                   l = PrimFloat.sqrt (0 + a * a + b * b + c * c)%float /\
                   (l <? 0)%float = false).
  { intros Hnot.
    assert (Ha : float_pow2 a = Ok (a * a)%float).
    { apply float_pow2_returns. intros Hr. apply Hnot. left.
      apply float_pow2_raises. exact Hr. }
    assert (Hb : float_pow2 b = Ok (b * b)%float).
    { apply float_pow2_returns. intros Hr. apply Hnot. right. left.
      apply float_pow2_raises. exact Hr. }
    assert (Hc : float_pow2 c = Ok (c * c)%float).
    { apply float_pow2_returns. intros Hr. apply Hnot. right. right.
      apply float_pow2_raises. exact Hr. }
    unfold length, sum_squares. rewrite Hv.
    cbn [num_pow2 num_sqrt PyReal_float]. rewrite Ha, Hb, Hc. cbn [bind].
    unfold float_math_sqrt. rewrite float_sum_squares_sign.
    eexists. split; [reflexivity | split; [reflexivity | ]].
    apply float_sqrt_sign. }
  split; [exact Hraise | split; [exact Hret | ]].
  assert (Hdec : (overflows a \/ overflows b \/ overflows c) \/
                 ~ (overflows a \/ overflows b \/ overflows c)).
  { unfold overflows.
    destruct (is_infinity (a * a)), (is_infinity a),
             (is_infinity (b * b)), (is_infinity b),
             (is_infinity (c * c)), (is_infinity c);
      try (left; tauto); right; intros [[? ?] | [[? ?] | [? ?]]]; discriminate. }
  destruct Hdec as [Hover | Hnot].
  - rewrite (Hraise Hover). split; discriminate.
  - destruct (Hret Hnot) as [l [-> _]]. split; discriminate.
Qed.

(** [Vector3d(1e200, 0, 0).length] raises [OverflowError];
    [Vector3d(3.0, 0.0, 4.0).length] is [5.0]. *)
Lemma float_length_example :
  coords (Vector3d_init 1e200%float 0%float 0%float)
    = (1e200%float, 0%float, 0%float) /\
  length (Vector3d_init 1e200%float 0%float 0%float) = Raise OverflowError /\
  coords (Vector3d_init 3%float 0%float 4%float)
    = (3%float, 0%float, 4%float) /\
  length (Vector3d_init 3%float 0%float 4%float) = Ok 5%float.
Proof.
  split; [reflexivity | split; [ | split; [reflexivity | ]]].
  - apply (proj1 (@float_length_returns_or_overflows
                    (Vector3d_init 1e200%float 0%float 0%float)
                    1e200%float 0%float 0%float eq_refl)).
    left. split; vm_compute; reflexivity.
  - vm_compute. reflexivity.
Defined.

(* ------------------------------------------------------------------ *)
(** ** binary64: the cross product of a vector with itself *)
(* ------------------------------------------------------------------ *)

(** X27: in binary64 [u.cross(u)] never raises; each of its
    coordinates is [p - p] for a product [p] of two coordinates of [u]
    (float multiplication commutes), hence [0.0] when [p] is finite and
    NaN when [p] overflowed to an infinity or is NaN.  So the cross
    product of a vector with itself is exactly the zero vector whenever
    the three products are finite. *)
Theorem float_cross_self :
  forall (u : Vector3d float) (a b c : float),
    coords u = (a, b, c) ->
    let diff (p : float) := if is_finite p then 0%float else nan in
    cross u u =
      Ok (Vector3d_init (diff (b * c)%float) (diff (c * a)%float)
                        (diff (a * b)%float)) /\
    (is_finite (b * c) = true -> is_finite (c * a) = true ->
     is_finite (a * b) = true ->
     cross u u = Ok (Vector3d_init 0%float 0%float 0%float)).
Proof.
  intros u a b c Hu diff.
  assert (Hcross : cross u u =
            Ok (Vector3d_init (diff (b * c)%float) (diff (c * a)%float)
                              (diff (a * b)%float))).
  { rewrite cross_coords, Hu. cbn [num_sub num_mul PyReal_float].
    rewrite (float_mul_comm c b), (float_mul_comm a c), (float_mul_comm b a).
    rewrite !float_sub_self. reflexivity. }
  split; [exact Hcross | ].
  intros Hx Hy Hz. rewrite Hcross. unfold diff. rewrite Hx, Hy, Hz.
  reflexivity.
Qed.

(** With coordinates [1e200, 1e200, 0.5] the product of the first two
    overflows and the third coordinate is NaN; [Vector3d(1, 2, 3)]
    crossed with itself is the zero vector. *)
Lemma float_cross_self_example :
  coords (Vector3d_init 1e200%float 1e200%float 0.5%float)
    = (1e200%float, 1e200%float, 0.5%float) /\
  cross (Vector3d_init 1e200%float 1e200%float 0.5%float)
        (Vector3d_init 1e200%float 1e200%float 0.5%float)
    = Ok (Vector3d_init 0%float 0%float nan) /\
  cross (Vector3d_init 1%float 2%float 3%float)
        (Vector3d_init 1%float 2%float 3%float)
    = Ok (Vector3d_init 0%float 0%float 0%float).
Proof.
  split; [reflexivity | split].
  - exact (proj1 (@float_cross_self
                    (Vector3d_init 1e200%float 1e200%float 0.5%float)
                    1e200%float 1e200%float 0.5%float eq_refl)).
  - apply (proj2 (@float_cross_self (Vector3d_init 1%float 2%float 3%float)
                    1%float 2%float 3%float eq_refl)); reflexivity.
Defined.
